(** * The training driver of [movear/models/trainer.py]

    A shallow embedding of [build_everything], [train_one_ep],
    [main_training] and the [__main__] guard, and the properties of the
    epoch driver, of the resumption logic, of the checkpoint policy and of
    the per-iteration schedule that follow from that code.

    Conventions.
    - Python [int]s are [Z]; [%] is [Z.modulo] (the sign of the divisor, as in
      Python) and raises [ZeroDivisionError] on a zero divisor.
    - The metric values (losses, accuracies) are Python [float]s that the
      driver only compares: they are IEEE binary64 values, [PrimFloat.float],
      and [min], [max], [>] and [!=] on them are the IEEE comparisons.
    - The driver does arithmetic on the floats [args.pg] and [args.wp] to
      find the progressive stage, and on [args.batch_size] to find the
      validation batch size. Module [F64] holds that arithmetic as the code
      does it, in binary64. In the traces of a run, which record the
      arguments of every call, [args.pg], [args.wp], [args.pgwp] and
      [args.tclip] are exact rationals [Q], and the stage and the warm-up
      length handed on are the exact values: they are those of the code
      when [args.pg == 0], the default, and whenever no product or quotient
      of lines 187-197 is rounded.
    - Calls into code outside this file ([trainer.train_step],
      [trainer.evaluate], [tb_lg.update], [dist.barrier], ...) are events of a
      trace, in program order; what they return to the driver is read from
      an environment. In a run, [trainer.train_step] may raise; for the
      [__main__] guard any call may.
    - Printing, the progress bar, the warning filters and the fields of
      [args] that are only written for logging are left out. *)

From Stdlib Require Import ZArith List Bool Ascii String QArith Qpower Qround Lia Lqa Floats.
Import ListNotations.

Local Open Scope Z_scope.

(** ** Python primitives *)

Module Py.

(** The exceptions the driver can meet. [ExternalError] stands for whatever
    a call into the trainer raises. *)
Inductive exn : Type :=
| ZeroDivisionError
| AttributeError
| ExternalError (tag : Z).

Inductive outcome (A : Type) : Type :=
| Ok (a : A)
| Raise (e : exn).
Arguments Ok {A} a.
Arguments Raise {A} e.

(** [range(a, b)]. *)
Definition range (a b : Z) : list Z :=
  map (fun k => a + Z.of_nat k) (seq 0 (Z.to_nat (b - a))).

(** [a % b]. *)
Definition mod_ (a b : Z) : outcome Z :=
  if b =? 0 then Raise ZeroDivisionError else Ok (a mod b).

(** [min(a, b)] and [max(a, b)] on floats: the first argument is kept unless
    the second is strictly smaller (larger). *)
Definition min (a b : float) : float := if (b <? a)%float then b else a.
Definition max (a b : float) : float := if (a <? b)%float then b else a.

(** The same on rationals, the second argument being an [int] literal in
    the source. *)
Definition Qltb (x y : Q) : bool := negb (Qle_bool y x).
Definition minQ (a b : Q) : Q := if Qltb b a then b else a.
Definition maxQ (a b : Q) : Q := if Qltb a b then b else a.

(** [round(x)]: to the nearest integer, ties to the even one. *)
Definition round (x : Q) : Z :=
  let f := Qfloor x in
  match (x - inject_Z f ?= 1 # 2)%Q with
  | Lt => f
  | Gt => f + 1
  | Eq => if Z.even f then f else f + 1
  end.

(** [os.path.join(d, f)] for a relative [f]. *)
Definition ends_with_slash (d : string) : bool :=
  match get (String.length d - 1) d with
  | Some c => Ascii.eqb c "/"%char
  | None => false
  end.

Definition path_join (d f : string) : string :=
  if (String.length d =? 0)%nat then f
  else if ends_with_slash d then (d ++ f)%string
  else (d ++ "/" ++ f)%string.

End Py.

Import Py.

(** ** Data model *)

(** The fields of [arg_util.Args] the driver reads. *)
Module Args.
Record t : Type := {
  ep : Z;                        (* total number of epochs *)
  ac : Z;                        (* gradient-accumulation count *)
  pg : Q;                        (* progressive-training ratio, 0 = off *)
  pg0 : Z;                       (* first progressive stage *)
  pgwp : Q;
  wp : Q;                        (* warm-up length, in epochs *)
  patch_nums : list Z;
  tclip : Q;
  local_out_dir_path : string
}.
End Args.

(** The dict [train_one_ep] returns (the synchronised meter averages) and the
    tuple [trainer.evaluate] returns, reduced to the entries the driver reads. *)
Module Stats.
Record t : Type := { Lm : float; Lt : float; Accm : float; Acct : float }.
End Stats.
Definition stats : Type := Stats.t.

Record val_stats : Type := {
  val_loss_mean : float; val_loss_tail : float;
  val_acc_mean : float; val_acc_tail : float
}.

(** What [build_everything] and the collaborators hand to the driver on one
    rank. [log_every s n] lists the iteration numbers that
    [me.log_every(s, n, ...)] yields; [train_step it g_it stepping prog_si
    prog_wp_it] is [Some e] when that call raises [e] and [None] when it
    returns; [epoch_stats ep] and [evaluate ep] are the values that
    [train_one_ep] and [trainer.evaluate] return in epoch [ep]. *)
Module Env.
Record t : Type := {
  is_master : bool;              (* dist.is_master(): tb_lg is not None *)
  is_local_master : bool;        (* dist.is_local_master() *)
  has_set_epoch : bool;          (* hasattr(ld_train.sampler, 'set_epoch') *)
  sync_print : bool;             (* stdout and stderr are misc.SyncPrint *)
  start_ep : Z;
  start_it : Z;
  iters_train : Z;
  log_every : Z -> Z -> list Z;
  train_step : Z -> Z -> bool -> Z -> Q -> option exn;
  epoch_stats : Z -> stats;
  evaluate : Z -> val_stats
}.
End Env.

(** The values [trainer.state_dict()] and [args.state_dict()] return when
    called in epoch [ep]. *)
Inductive component : Type := TheTrainer | TheArgs.
Inductive blob : Type := StateDict (c : component) (ep : Z).

(** The dict handed to [torch.save]. *)
Record CheckpointRecord : Type := {
  epoch : Z;
  iter : Z;
  trainer : blob;
  args : blob
}.

(** The calls a rank makes, in program order. *)
Inductive event : Type :=
| SetEpoch (ep : Z)                                             (* ld_train.sampler.set_epoch *)
| TbSetStep (step : Z)                                          (* tb_lg.set_step *)
| LrWdAnnealing (g_it : Z) (wp_it : Q) (max_it : Z)             (* lr_wd_annealing *)
| TrainStep (it g_it : Z) (stepping : bool) (prog_si : Z) (prog_wp_it : Q)
| TbUpdate (head : string) (step : option Z)                    (* tb_lg.update *)
| MetricSync                                                    (* me.synchronize_between_processes *)
| Evaluate                                                      (* trainer.evaluate(ld_val) *)
| TorchSave (r : CheckpointRecord) (path : string)              (* torch.save *)
| ShutilCopy (src dst : string)                                 (* shutil.copy *)
| Barrier                                                       (* dist.barrier *)
| DumpLog                                                       (* args.dump_log *)
| TbFlush                                                       (* tb_lg.flush *)
| TbClose                                                       (* tb_lg.close *)
| Finalize                                                      (* dist.finalize *)
| StdClose.                                                     (* sys.stdout.close(), sys.stderr.close() *)

(** The eight running extrema of [main_training]. *)
Record trackers : Type := {
  best_L_mean : float; best_L_tail : float;
  best_acc_mean : float; best_acc_tail : float;
  best_val_loss_mean : float; best_val_loss_tail : float;
  best_val_acc_mean : float; best_val_acc_tail : float
}.

(** ** Traces with exceptions *)

(** A computation is the list of calls it made and what it ended with. *)
Definition M (A : Type) : Type := (list event * outcome A)%type.

Definition ret {A} (a : A) : M A := ([], Ok a).

Definition bind {A B} (m : M A) (f : A -> M B) : M B :=
  match m with
  | (t, Ok a) => let (t', r) := f a in (t ++ t', r)
  | (t, Raise e) => (t, Raise e)
  end.

Definition emit (e : event) : M unit := ([e], Ok tt).
Definition raise {A} (e : exn) : M A := ([], Raise e).
Definition lift {A} (o : outcome A) : M A := ([], o).

Declare Scope trace_scope.
Delimit Scope trace_scope with trace.
Notation "x <- m ;; k" := (bind m (fun x => k))
  (at level 100, m at next level, right associativity) : trace_scope.
Notation "m ;; k" := (bind m (fun _ => k))
  (at level 100, right associativity) : trace_scope.
Local Open Scope trace_scope.

(** [for x in l: body(x)], with the loop-carried variables in [s]. *)
Fixpoint for_ {A S} (l : list A) (body : A -> S -> M S) (s : S) : M S :=
  match l with
  | [] => ret s
  | x :: l' => s' <- body x s ;; for_ l' body s'
  end.

Definition trace_of {A} (m : M A) : list event := fst m.
Definition result_of {A} (m : M A) : outcome A := snd m.

(** ** [train_one_ep] *)

(** A method call on [tb_lg], which [build_everything] leaves [None] on the
    ranks that are not the master. *)
Definition tb (E : Env.t) (e : event) : M unit :=
  if Env.is_master E then emit e else raise AttributeError.

(** Lines 161 and 187: [max_it = args.ep * iters_train] and
    [wp_it = args.wp * iters_train], the latter as an exact product. *)
Definition max_it (a : Args.t) (iters_train : Z) : Z := Args.ep a * iters_train.
Definition wp_it (a : Args.t) (iters_train : Z) : Q := (Args.wp a * inject_Z iters_train)%Q.

(** [max_it*args.pg], the step at which the last stage is reached, and
    [len(args.patch_nums) - 1], the last stage. *)
Definition pg_it (a : Args.t) (iters_train : Z) : Q :=
  (inject_Z (max_it a iters_train) * Args.pg a)%Q.
Definition last_stage (a : Args.t) : Z := Z.of_nat (List.length (Args.patch_nums a)) - 1.

(** Line 196, in exact arithmetic. *)
Definition progress (a : Args.t) (iters_train g_it : Z) : Q :=
  Py.minQ (Py.maxQ ((inject_Z g_it - wp_it a iters_train)
                    / (pg_it a iters_train - wp_it a iters_train)) 0) 1.

(** Lines 191-199 in exact arithmetic: the progressive stage as the traces
    record it. [F64.prog_si] is the stage as the code computes it; the two
    are -1 together, when [args.pg == 0]. *)
Definition prog_si (a : Args.t) (iters_train g_it : Z) : outcome Z :=
  if negb (Qeq_bool (Args.pg a) 0) then
    if Qle_bool (inject_Z g_it) (wp_it a iters_train) then Ok (Args.pg0 a)
    else if Qle_bool (pg_it a iters_train) (inject_Z g_it) then Ok (last_stage a)
    else
      let delta := last_stage a - Args.pg0 a in
      if Qeq_bool (pg_it a iters_train - wp_it a iters_train) 0
      then Raise ZeroDivisionError
      else Ok (Args.pg0 a + Py.round (progress a iters_train g_it * inject_Z delta))
  else Ok (-1).

(** Line 201: [stepping = (g_it + 1) % args.ac == 0]. *)
Definition stepping (a : Args.t) (g_it : Z) : outcome bool :=
  match Py.mod_ (g_it + 1) (Args.ac a) with
  | Ok r => Ok (r =? 0)
  | Raise e => Raise e
  end.

Definition call_train_step (E : Env.t) (it g_it : Z) (st : bool) (si : Z) (wp_it : Q)
  : M unit :=
  emit (TrainStep it g_it st si wp_it) ;;
  match Env.train_step E it g_it st si wp_it with
  | Some e => raise e
  | None => ret tt
  end.

(** The loop-carried variables of [train_one_ep]. *)
Record ep_state : Type := { g_it : Z; step_cnt : Z }.

(** Lines 178-230: the body of the loop, for a batch that is not skipped. *)
Definition train_iter (E : Env.t) (a : Args.t) (ep it : Z) (s : ep_state) : M ep_state :=
  let iters_train := Env.iters_train E in
  let g := ep * iters_train + it in
  emit (LrWdAnnealing g (wp_it a iters_train) (max_it a iters_train)) ;;
  si <- lift (prog_si a iters_train g) ;;
  st <- lift (stepping a g) ;;
  call_train_step E it g st si (Args.pgwp a * inject_Z iters_train)%Q ;;
  tb E (TbSetStep g) ;;
  tb E (TbUpdate "AR_opt_lr/lr_min" None) ;;
  tb E (TbUpdate "AR_opt_lr/lr_max" None) ;;
  tb E (TbUpdate "AR_opt_wd/wd_max" None) ;;
  tb E (TbUpdate "AR_opt_wd/wd_min" None) ;;
  tb E (TbUpdate "AR_opt_grad/fp16" None) ;;
  (if Py.Qltb 0 (Args.tclip a)
   then tb E (TbUpdate "AR_opt_grad/grad" None) ;; tb E (TbUpdate "AR_opt_grad/grad" None)
   else ret tt) ;;
  ret {| g_it := g; step_cnt := step_cnt s + (if st then 1 else 0) |}.

(** Lines 164-169: batches numbered below [start_it] are dropped. *)
Definition loop_body (E : Env.t) (a : Args.t) (ep start_it it : Z) (s : ep_state)
  : M ep_state :=
  if it <? start_it then ret s else train_iter E a ep it s.

(** [train_one_ep(ep, is_first_ep, start_it, args, ...)]. It returns the
    epoch's statistics and the count of remaining steps it hands to
    [time_preds]. [is_first_ep] only toggles warning filters. *)
Definition train_one_ep (E : Env.t) (a : Args.t) (ep start_it : Z) : M (stats * Z) :=
  let iters_train := Env.iters_train E in
  s <- for_ (Env.log_every E start_it iters_train) (loop_body E a ep start_it)
         {| g_it := ep * iters_train; step_cnt := 0 |} ;;
  emit MetricSync ;;
  ret (Env.epoch_stats E ep, max_it a iters_train - (g_it s + 1) + (Args.ep a - ep) * 15).

(** ** [main_training] *)

(** Lines 269-270. *)
Definition init_trackers : trackers :=
  {| best_L_mean := 999; best_L_tail := 999; best_acc_mean := -1; best_acc_tail := -1;
     best_val_loss_mean := 999; best_val_loss_tail := 999;
     best_val_acc_mean := -1; best_val_acc_tail := -1 |}.

(** Lines 285-286. *)
Definition update_train (st : stats) (b : trackers) : trackers :=
  let b1 := {| best_L_mean := Py.min (best_L_mean b) (Stats.Lm st);
               best_L_tail := best_L_tail b;
               best_acc_mean := Py.max (best_acc_mean b) (Stats.Accm st);
               best_acc_tail := best_acc_tail b;
               best_val_loss_mean := best_val_loss_mean b;
               best_val_loss_tail := best_val_loss_tail b;
               best_val_acc_mean := best_val_acc_mean b;
               best_val_acc_tail := best_val_acc_tail b |} in
  if negb (Stats.Lt st =? -1)%float
  then {| best_L_mean := best_L_mean b1;
          best_L_tail := Py.min (best_L_tail b1) (Stats.Lt st);
          best_acc_mean := best_acc_mean b1;
          best_acc_tail := Py.max (best_acc_tail b1) (Stats.Acct st);
          best_val_loss_mean := best_val_loss_mean b1;
          best_val_loss_tail := best_val_loss_tail b1;
          best_val_acc_mean := best_val_acc_mean b1;
          best_val_acc_tail := best_val_acc_tail b1 |}
  else b1.

(** Lines 300-301. *)
Definition update_val (v : val_stats) (b : trackers) : trackers :=
  {| best_L_mean := best_L_mean b; best_L_tail := best_L_tail b;
     best_acc_mean := best_acc_mean b; best_acc_tail := best_acc_tail b;
     best_val_loss_mean := Py.min (best_val_loss_mean b) (val_loss_mean v);
     best_val_loss_tail := Py.min (best_val_loss_tail b) (val_loss_tail v);
     best_val_acc_mean := Py.max (best_val_acc_mean b) (val_acc_mean v);
     best_val_acc_tail := Py.max (best_val_acc_tail b) (val_acc_tail v) |}.

(** Line 296. *)
Definition is_val_and_also_saving (a : Args.t) (ep : Z) : bool :=
  ((ep + 1) mod 10 =? 0) || (ep + 1 =? Args.ep a).

(** Line 299. *)
Definition best_updated (v : val_stats) (b : trackers) : bool :=
  (val_loss_tail v <? best_val_loss_tail b)%float.

Definition local_out_ckpt (a : Args.t) : string :=
  Py.path_join (Args.local_out_dir_path a) "ar-ckpt-last.pth".
Definition local_out_ckpt_best (a : Args.t) : string :=
  Py.path_join (Args.local_out_dir_path a) "ar-ckpt-best.pth".

(** Lines 310-315. *)
Definition checkpoint_of (ep : Z) : CheckpointRecord :=
  {| epoch := ep + 1; iter := 0;
     trainer := StateDict TheTrainer ep; args := StateDict TheArgs ep |}.

(** Lines 306-318. *)
Definition save_ckpt (E : Env.t) (a : Args.t) (ep : Z) (updated : bool) : M unit :=
  if Env.is_local_master E then
    emit (TorchSave (checkpoint_of ep) (local_out_ckpt a)) ;;
    (if updated then emit (ShutilCopy (local_out_ckpt a) (local_out_ckpt_best a))
     else ret tt)
  else ret tt.

(** Lines 297-319. *)
Definition validate_and_save (E : Env.t) (a : Args.t) (ep : Z) (b : trackers) : M trackers :=
  if is_val_and_also_saving a ep then
    emit Evaluate ;;
    let v := Env.evaluate E ep in
    let updated := best_updated v b in
    let b' := update_val v b in
    save_ckpt E a ep updated ;;
    emit Barrier ;;
    ret b'
  else ret b.

(** The position at which epoch [ep] starts (line 281):
    [start_it if ep == start_ep else 0]. *)
Definition start_of (E : Env.t) (ep : Z) : Z :=
  if ep =? Env.start_ep E then Env.start_it E else 0.

(** Lines 274-324: one turn of the epoch loop. *)
Definition epoch_body (E : Env.t) (a : Args.t) (ep : Z) (b : trackers) : M trackers :=
  (if Env.has_set_epoch E then emit (SetEpoch ep) else ret tt) ;;
  tb E (TbSetStep (ep * Env.iters_train E)) ;;
  r <- train_one_ep E a ep (start_of E ep) ;;
  let b1 := update_train (fst r) b in
  b2 <- validate_and_save E a ep b1 ;;
  tb E (TbUpdate "AR_ep_loss" (Some (ep + 1))) ;;
  tb E (TbUpdate "AR_z_burnout" (Some (ep + 1))) ;;
  emit DumpLog ;;
  tb E TbFlush ;;
  ret b2.

(** Lines 331-332. *)
Definition wrap_up (E : Env.t) : M unit :=
  emit DumpLog ;; tb E TbFlush ;; tb E TbClose ;; emit Barrier.

(** [main_training()], from the values [build_everything] returned. *)
Definition main_training (E : Env.t) (a : Args.t) : M trackers :=
  b <- for_ (Py.range (Env.start_ep E) (Args.ep a)) (epoch_body E a) init_trackers ;;
  wrap_up E ;;
  ret b.

(** Lines 356-358: the [finally] block of the [__main__] guard. *)
Definition finally_block (E : Env.t) : M unit :=
  emit Finalize ;;
  (if Env.sync_print E then emit StdClose else ret tt).

(** ** Observations on traces and runs *)

Definition is_train_step (e : event) : bool :=
  match e with TrainStep _ _ _ _ _ => true | _ => false end.

(** The [trainer.train_step] calls of a trace, in order. *)
Definition train_calls (t : list event) : list event := filter is_train_step t.

Definition is_ckpt_write (e : event) : bool :=
  match e with TorchSave _ _ | ShutilCopy _ _ => true | _ => false end.

(** The file writes of a trace, in order. *)
Definition ckpt_writes (t : list event) : list event := filter is_ckpt_write t.

Definition is_torch_save (e : event) : bool :=
  match e with TorchSave _ _ => true | _ => false end.

Definition saves (t : list event) : list event := filter is_torch_save t.

(** The epochs announced to the sampler, in order. *)
Definition set_epoch_calls (t : list event) : list Z :=
  flat_map (fun e => match e with SetEpoch ep => [ep] | _ => [] end) t.

(** The same rank, resuming from another position. *)
Definition with_start (E : Env.t) (ep it : Z) : Env.t :=
  {| Env.is_master := Env.is_master E;
     Env.is_local_master := Env.is_local_master E;
     Env.has_set_epoch := Env.has_set_epoch E;
     Env.sync_print := Env.sync_print E;
     Env.start_ep := ep;
     Env.start_it := it;
     Env.iters_train := Env.iters_train E;
     Env.log_every := Env.log_every E;
     Env.train_step := Env.train_step E;
     Env.epoch_stats := Env.epoch_stats E;
     Env.evaluate := Env.evaluate E |}.

(** A rank on which nothing raises: it holds the tensorboard logger, the
    accumulation count is not zero and [train_step] returns. *)
Definition normal (E : Env.t) (a : Args.t) : Prop :=
  Env.is_master E = true /\
  Args.ac a <> 0 /\
  forall it g st si w, Env.train_step E it g st si w = None.

(** [me.log_every] is not in this file. It numbers the batches it yields
    up to [n - 1], from [s] when it draws from an iterator that was already
    advanced, from [0] when it enumerates. *)
Definition counts_batches (E : Env.t) : Prop :=
  forall s n, Env.log_every E s n = Py.range s n \/ Env.log_every E s n = Py.range 0 n.

(** The effect of one epoch on the trackers (lines 285-286, 300-301). *)
Definition update_epoch (E : Env.t) (a : Args.t) (ep : Z) (b : trackers) : trackers :=
  let b1 := update_train (Env.epoch_stats E ep) b in
  if is_val_and_also_saving a ep then update_val (Env.evaluate E ep) b1 else b1.

Definition run_trackers (E : Env.t) (a : Args.t) (l : list Z) (b : trackers) : trackers :=
  fold_left (fun b ep => update_epoch E a ep b) l b.

(** The order on floats the trackers move along: equal, or strictly below. *)
Definition fle (x y : float) : Prop := x = y \/ (x <? y)%float = true.

(** [m] is a least (greatest) element of [l] for the IEEE order. *)
Definition is_min_of (m : float) (l : list float) : Prop :=
  In m l /\ forall v, In v l -> (v <? m)%float = false.
Definition is_max_of (m : float) (l : list float) : Prop :=
  In m l /\ forall v, In v l -> (m <? v)%float = false.

(** A loop whose turns all return is the concatenation of the turns. *)
Fixpoint turns {A S} (l : list A) (body : A -> S -> M S) (upd : A -> S -> S) (s : S)
  : list event :=
  match l with
  | [] => []
  | x :: l' => trace_of (body x s) ++ turns l' body upd (upd x s)
  end.


(** What holds of the calls made in epoch [ep] by [train_one_ep] started at
    [s]: the step handed to the scheduler and to the trainer is the position
    of a batch that [log_every] yielded and that was not skipped, and
    [stepping] and [prog_si] are the values of lines 191-201 at that step. *)
Definition epoch_event_ok (E : Env.t) (a : Args.t) (ep s : Z) (e : event) : Prop :=
  let n := Env.iters_train E in
  match e with
  | TrainStep it g st si w =>
      In it (Env.log_every E s n) /\ s <= it /\ g = ep * n + it /\
      stepping a g = Ok st /\ prog_si a n g = Ok si /\ w = (Args.pgwp a * inject_Z n)%Q
  | LrWdAnnealing g w m =>
      (exists it, In it (Env.log_every E s n) /\ s <= it /\ g = ep * n + it) /\
      w = wp_it a n /\ m = max_it a n
  | _ => True
  end.


(** ** The trace of a run on which nothing raises *)

Definition stepping_val (a : Args.t) (g : Z) : bool := (g + 1) mod Args.ac a =? 0.

Definition prog_si_val (a : Args.t) (n g : Z) : Z :=
  match prog_si a n g with Ok z => z | Raise _ => -1 end.

(** The [train_step] call of iteration [it] of epoch [ep]. *)
Definition train_call (E : Env.t) (a : Args.t) (ep it : Z) : event :=
  let n := Env.iters_train E in
  let g := ep * n + it in
  TrainStep it g (stepping_val a g) (prog_si_val a n g) (Args.pgwp a * inject_Z n)%Q.

Definition iter_events (E : Env.t) (a : Args.t) (ep it : Z) : list event :=
  let n := Env.iters_train E in
  let g := ep * n + it in
  [LrWdAnnealing g (wp_it a n) (max_it a n); train_call E a ep it; TbSetStep g;
   TbUpdate "AR_opt_lr/lr_min" None; TbUpdate "AR_opt_lr/lr_max" None;
   TbUpdate "AR_opt_wd/wd_max" None; TbUpdate "AR_opt_wd/wd_min" None;
   TbUpdate "AR_opt_grad/fp16" None]
  ++ (if Py.Qltb 0 (Args.tclip a)
      then [TbUpdate "AR_opt_grad/grad" None; TbUpdate "AR_opt_grad/grad" None]
      else []).

Definition epoch_train_events (E : Env.t) (a : Args.t) (ep s : Z) : list event :=
  flat_map (fun it => if it <? s then [] else iter_events E a ep it)
           (Env.log_every E s (Env.iters_train E))
  ++ [MetricSync].

(** Lines 298-319 on one rank, [b] being the trackers before line 299. *)
Definition validation_events (E : Env.t) (a : Args.t) (ep : Z) (b : trackers) : list event :=
  Evaluate
  :: (if Env.is_local_master E
      then TorchSave (checkpoint_of ep) (local_out_ckpt a)
           :: (if best_updated (Env.evaluate E ep) b
               then [ShutilCopy (local_out_ckpt a) (local_out_ckpt_best a)]
               else [])
      else [])
  ++ [Barrier].

Definition epoch_end_events (ep : Z) : list event :=
  [TbUpdate "AR_ep_loss" (Some (ep + 1)); TbUpdate "AR_z_burnout" (Some (ep + 1));
   DumpLog; TbFlush].

Definition epoch_events (E : Env.t) (a : Args.t) (ep : Z) (b : trackers) : list event :=
  (if Env.has_set_epoch E then [SetEpoch ep] else [])
  ++ TbSetStep (ep * Env.iters_train E)
  :: epoch_train_events E a ep (start_of E ep)
  ++ (if is_val_and_also_saving a ep
      then validation_events E a ep (update_train (Env.epoch_stats E ep) b)
      else [])
  ++ epoch_end_events ep.

(** The epochs of a run, one after the other, the trackers carried along. *)
Fixpoint run_events (E : Env.t) (a : Args.t) (l : list Z) (b : trackers) : list event :=
  match l with
  | [] => []
  | ep :: l' => epoch_events E a ep b ++ run_events E a l' (update_epoch E a ep b)
  end.

Definition wrap_up_events : list event := [DumpLog; TbFlush; TbClose; Barrier].

(** The calls made while training: lines 278-282. *)
Definition is_training_event (e : event) : bool :=
  match e with
  | TbSetStep _ | LrWdAnnealing _ _ _ | TrainStep _ _ _ _ _
  | TbUpdate _ None | MetricSync => true
  | _ => false
  end.

(** The calls of lines 322-324. *)
Definition is_epoch_end_event (e : event) : bool :=
  match e with
  | TbUpdate _ (Some _) | DumpLog | TbFlush => true
  | _ => false
  end.

(** Whether epoch [ep] gets as far as line 296 on this rank. *)
Definition reaches_validation (E : Env.t) (a : Args.t) (ep : Z) : bool :=
  Env.is_master E &&
  match result_of (train_one_ep E a ep (start_of E ep)) with
  | Ok _ => true
  | Raise _ => false
  end.

(** The best-checkpoint policy, read off its description: walking through
    the epochs with the best validation tail loss seen so far, every
    validated epoch writes "last", and copies it to "best" when its loss is
    below the best so far. *)
Fixpoint expected_writes (E : Env.t) (a : Args.t) (l : list Z) (best : float) : list event :=
  match l with
  | [] => []
  | ep :: l' =>
      if is_val_and_also_saving a ep then
        let v := val_loss_tail (Env.evaluate E ep) in
        TorchSave (checkpoint_of ep) (local_out_ckpt a)
        :: (if (v <? best)%float
            then [ShutilCopy (local_out_ckpt a) (local_out_ckpt_best a)]
            else [])
        ++ expected_writes E a l' (Py.min best v)
      else expected_writes E a l' best
  end.

(** The best validation tail loss seen in the epochs [prev] of this run. *)
Definition best_tail_seen (E : Env.t) (a : Args.t) (prev : list Z) : float :=
  fold_left Py.min
    (map (fun ep => val_loss_tail (Env.evaluate E ep)) (filter (is_val_and_also_saving a) prev))
    999%float.

(** The epochs whose checkpoint was copied to "best": those of the
    [torch.save] calls that a [shutil.copy] follows. *)
Fixpoint best_copy_epochs (t : list event) : list Z :=
  match t with
  | [] => []
  | TorchSave r _ :: t' =>
      match t' with
      | ShutilCopy _ _ :: _ => [epoch r - 1]
      | _ => []
      end ++ best_copy_epochs t'
  | _ :: t' => best_copy_epochs t'
  end.

(** [b'] is reached from [b]: the loss trackers went down or stayed, the
    accuracy trackers went up or stayed. *)
Definition trackers_le (b' b : trackers) : Prop :=
  fle (best_L_mean b') (best_L_mean b) /\
  fle (best_L_tail b') (best_L_tail b) /\
  fle (best_acc_mean b) (best_acc_mean b') /\
  fle (best_acc_tail b) (best_acc_tail b') /\
  fle (best_val_loss_mean b') (best_val_loss_mean b) /\
  fle (best_val_loss_tail b') (best_val_loss_tail b) /\
  fle (best_val_acc_mean b) (best_val_acc_mean b') /\
  fle (best_val_acc_tail b) (best_val_acc_tail b').

(** The values a run observed in the epochs [l]. *)
Definition train_values (E : Env.t) (f : stats -> float) (l : list Z) : list float :=
  map (fun ep => f (Env.epoch_stats E ep)) l.
Definition val_values (E : Env.t) (a : Args.t) (f : val_stats -> float) (l : list Z)
  : list float :=
  map (fun ep => f (Env.evaluate E ep)) (filter (is_val_and_also_saving a) l).

(** ** Concrete runs *)

(** The default stage list; forty epochs, so that epochs 9, 19, 29 and 39
    validate. *)
Definition args_40 : Args.t :=
  {| Args.ep := 40; Args.ac := 2; Args.pg := 0; Args.pg0 := 4; Args.pgwp := 1 # 300;
     Args.wp := 4 # 5; Args.patch_nums := [1; 2; 3; 4; 5; 6; 8; 10; 13; 16];
     Args.tclip := 2; Args.local_out_dir_path := "out" |}.

(** The validation tail losses 2.0, 1.5, 1.8 and 1.2, as binary64 values. *)
#[warnings="-inexact-float"]
Definition four_losses : list float := [2.0; 1.5; 1.8; 1.2]%float.

(** They are the losses of four validations in a row, ten epochs apart, the
    first in the [k]-th ten of epochs. *)
Definition losses_from (k ep : Z) : val_stats :=
  let l := nth (Z.to_nat (ep / 10 - k)) four_losses 0%float in
  {| val_loss_mean := l; val_loss_tail := l; val_acc_mean := 50; val_acc_tail := 40 |}.

Definition losses_4 : Z -> val_stats := losses_from 0.

(** The master rank of a fresh run, three iterations per epoch. *)
Definition rank0 : Env.t :=
  {| Env.is_master := true; Env.is_local_master := true;
     Env.has_set_epoch := true; Env.sync_print := true;
     Env.start_ep := 0; Env.start_it := 0; Env.iters_train := 3;
     Env.log_every := fun s n => Py.range s n;
     Env.train_step := fun _ _ _ _ _ => None;
     Env.epoch_stats := fun _ => {| Stats.Lm := 5; Stats.Lt := 6; Stats.Accm := 10; Stats.Acct := 8 |};
     Env.evaluate := losses_4 |}.

(** The same rank, were it not the local master. *)
Definition follower (E : Env.t) : Env.t :=
  {| Env.is_master := Env.is_master E;
     Env.is_local_master := false;
     Env.has_set_epoch := Env.has_set_epoch E;
     Env.sync_print := Env.sync_print E;
     Env.start_ep := Env.start_ep E;
     Env.start_it := Env.start_it E;
     Env.iters_train := Env.iters_train E;
     Env.log_every := Env.log_every E;
     Env.train_step := Env.train_step E;
     Env.epoch_stats := Env.epoch_stats E;
     Env.evaluate := Env.evaluate E |}.

(** The global step and the [stepping] flag of a [train_step] call. *)
Definition step_of (e : event) : Z * bool :=
  match e with TrainStep _ g st _ _ => (g, st) | _ => (0, false) end.

(** The same run with a zero accumulation count: line 201 raises
    [ZeroDivisionError] in the first iteration. *)
Definition args_ac0 : Args.t :=
  {| Args.ep := Args.ep args_40; Args.ac := 0; Args.pg := Args.pg args_40;
     Args.pg0 := Args.pg0 args_40; Args.pgwp := Args.pgwp args_40; Args.wp := Args.wp args_40;
     Args.patch_nums := Args.patch_nums args_40; Args.tclip := Args.tclip args_40;
     Args.local_out_dir_path := Args.local_out_dir_path args_40 |}.

(** The master rank, with a [train_step] that raises at global step 4. *)
Definition rank0_failing : Env.t :=
  {| Env.is_master := true; Env.is_local_master := true;
     Env.has_set_epoch := true; Env.sync_print := true;
     Env.start_ep := 0; Env.start_it := 0; Env.iters_train := 3;
     Env.log_every := fun s n => Py.range s n;
     Env.train_step := fun _ g _ _ _ => if g =? 4 then Some (ExternalError 1) else None;
     Env.epoch_stats := Env.epoch_stats rank0;
     Env.evaluate := losses_4 |}.

(** The calls that flush or close the telemetry sink. *)
Definition is_flush_or_close (e : event) : bool :=
  match e with TbFlush | TbClose => true | _ => false end.

(** The calls made after the last [tb_lg.flush()] of a trace. *)
Fixpoint after_last_flush (t : list event) : list event :=
  match t with
  | [] => []
  | e :: t' =>
      if existsb (fun x => match x with TbFlush => true | _ => false end) t'
      then after_last_flush t'
      else match e with TbFlush => t' | _ => e :: t' end
  end.

(** ** The files of the output directory *)

(** The checkpoint each path holds, if any. *)
Definition files : Type := string -> option CheckpointRecord.

Definition no_files : files := fun _ => None.

Definition put (fs : files) (p : string) (r : CheckpointRecord) : files :=
  fun q => if String.eqb q p then Some r else fs q.

(** What a [torch.save] and a [shutil.copy] call do to the checkpoint a path
    holds. The driver copies "last" right after saving it, so the source of a
    copy is there. Only these two calls are given an effect: what
    [args.dump_log()] and the logger write, by code that is not in this
    repository, is not described, and [files] tells what the checkpoint
    calls of the driver leave at a path. *)
Definition apply_write (fs : files) (e : event) : files :=
  match e with
  | TorchSave r p => put fs p r
  | ShutilCopy src dst =>
      match fs src with
      | Some r => put fs dst r
      | None => fs
      end
  | _ => fs
  end.

(** The checkpoint a call writes to the path [p], if it writes there. *)
Definition written_to (p : string) (fs : files) (e : event) : option CheckpointRecord :=
  match e with
  | TorchSave r q => if String.eqb q p then Some r else None
  | ShutilCopy src dst => if String.eqb dst p then fs src else None
  | _ => None
  end.

(** The epochs whose checkpoint replaced the file at [p], and those whose
    checkpoint was written to [p], replacing a file or not. *)
Fixpoint overwrites (p : string) (fs : files) (t : list event) : list Z :=
  match t with
  | [] => []
  | e :: t' =>
      match written_to p fs e, fs p with
      | Some r, Some _ => [epoch r - 1]
      | _, _ => []
      end ++ overwrites p (apply_write fs e) t'
  end.

Fixpoint writes_to (p : string) (fs : files) (t : list event) : list Z :=
  match t with
  | [] => []
  | e :: t' =>
      match written_to p fs e with
      | Some r => [epoch r - 1]
      | None => []
      end ++ writes_to p (apply_write fs e) t'
  end.

(** An output directory that holds the two checkpoints of an earlier
    process, which stopped after epoch [ep]. *)
Definition files_after (a : Args.t) (ep : Z) : files :=
  put (put no_files (local_out_ckpt a) (checkpoint_of ep)) (local_out_ckpt_best a)
      (checkpoint_of ep).

(** Fifty epochs, resumed from the checkpoint of epoch 10: the process
    validates after epochs 19, 29, 39 and 49, with the four losses. *)
Definition args_50 : Args.t :=
  {| Args.ep := 50; Args.ac := Args.ac args_40; Args.pg := Args.pg args_40;
     Args.pg0 := Args.pg0 args_40; Args.pgwp := Args.pgwp args_40; Args.wp := Args.wp args_40;
     Args.patch_nums := Args.patch_nums args_40; Args.tclip := Args.tclip args_40;
     Args.local_out_dir_path := Args.local_out_dir_path args_40 |}.

Definition rank0_resumed : Env.t :=
  {| Env.is_master := true; Env.is_local_master := true;
     Env.has_set_epoch := true; Env.sync_print := true;
     Env.start_ep := 10; Env.start_it := 0; Env.iters_train := 3;
     Env.log_every := fun s n => Py.range s n;
     Env.train_step := fun _ _ _ _ _ => None;
     Env.epoch_stats := Env.epoch_stats rank0;
     Env.evaluate := losses_from 1 |}.

(** The checkpoints the [torch.save] and [shutil.copy] calls of a trace
    leave. *)
Definition files_after_trace (fs : files) (t : list event) : files :=
  fold_left apply_write t fs.

(** A rank other than the master: [build_everything] leaves its [tb_lg]
    [None]. *)
Definition rank1 : Env.t :=
  {| Env.is_master := false; Env.is_local_master := false;
     Env.has_set_epoch := true; Env.sync_print := true;
     Env.start_ep := 0; Env.start_it := 0; Env.iters_train := 3;
     Env.log_every := fun s n => Py.range s n;
     Env.train_step := fun _ _ _ _ _ => None;
     Env.epoch_stats := Env.epoch_stats rank0;
     Env.evaluate := losses_4 |}.

(** ** Further observations on a run *)

(** The [train_step] calls that close an accumulation window: those the
    optimizer applies an update at. *)
Definition is_stepping_call (e : event) : bool :=
  match e with TrainStep _ _ st _ _ => st | _ => false end.

Definition stepping_calls (t : list event) : list event := filter is_stepping_call t.

(** The calls a rank makes together with the other ranks:
    [me.synchronize_between_processes()], [trainer.evaluate(ld_val)] and
    [dist.barrier()]. *)
Definition is_joint_call (e : event) : bool :=
  match e with MetricSync | Evaluate | Barrier => true | _ => false end.

Definition joint_calls (t : list event) : list event := filter is_joint_call t.

(** Line 286: whether the epoch's tail loss is not the value -1 that stands
    for "no tail". *)
Definition has_tail (E : Env.t) (ep : Z) : bool :=
  negb (Stats.Lt (Env.epoch_stats E ep) =? -1)%float.

(** The tail values a run observed in the epochs [l] that have a tail. *)
Definition tail_values (E : Env.t) (f : stats -> float) (l : list Z) : list float :=
  map (fun ep => f (Env.epoch_stats E ep)) (filter (has_tail E) l).

(** The same rank with other statistics for the epochs. *)
Definition with_stats (E : Env.t) (st : Z -> stats) : Env.t :=
  {| Env.is_master := Env.is_master E;
     Env.is_local_master := Env.is_local_master E;
     Env.has_set_epoch := Env.has_set_epoch E;
     Env.sync_print := Env.sync_print E;
     Env.start_ep := Env.start_ep E;
     Env.start_it := Env.start_it E;
     Env.iters_train := Env.iters_train E;
     Env.log_every := Env.log_every E;
     Env.train_step := Env.train_step E;
     Env.epoch_stats := st;
     Env.evaluate := Env.evaluate E |}.

(** Statistics without a tail in the epochs before the fifth: the tail loss
    is -1 there, the tail accuracy 90. From the fifth epoch on the tail
    loss is 6 and the tail accuracy 8. *)
Definition stats_late_tail (ep : Z) : stats :=
  if ep <? 5
  then {| Stats.Lm := 7; Stats.Lt := -1; Stats.Accm := 5; Stats.Acct := 90 |}
  else {| Stats.Lm := 5; Stats.Lt := 6; Stats.Accm := 10; Stats.Acct := 8 |}.

(** Accumulating over seven steps, which does not divide the 120 steps of
    the forty-epoch run. *)
Definition args_ac7 : Args.t :=
  {| Args.ep := Args.ep args_40; Args.ac := 7; Args.pg := Args.pg args_40;
     Args.pg0 := Args.pg0 args_40; Args.pgwp := Args.pgwp args_40; Args.wp := Args.wp args_40;
     Args.patch_nums := Args.patch_nums args_40; Args.tclip := Args.tclip args_40;
     Args.local_out_dir_path := Args.local_out_dir_path args_40 |}.

(** ** Binary64 arithmetic *)

(** Where the driver does arithmetic on floats, its expressions mix [int]s
    and [float]s. [F64] holds Python's rules for them: an [int] operand of an
    arithmetic operation is converted to the nearest float, a comparison of
    an [int] with a float is exact, [round] of a float is exact too and
    rounds halves to the even integer, and [min] and [max] return one of
    their arguments as it is. *)
Module F64.

Inductive error : Type := ZeroDivisionError | OverflowError | ValueError.

Definition bind {A B} (m : error + A) (f : A -> error + B) : error + B :=
  match m with
  | inl e => inl e
  | inr a => f a
  end.

(** The number a finite float stands for. *)
Definition value (f : float) : Q :=
  match Prim2SF f with
  | S754_finite s m e => (inject_Z (if s then Z.neg m else Z.pos m) * 2 ^ e)%Q
  | _ => 0%Q
  end.

(** The float nearest to [z], ties to even; it is infinite from
    [2^1024 - 2^970] on. *)
Definition nearest (z : Z) : float := SF2Prim (binary_normalize prec emax z 0 false).

(** [float(z)], as in [z * x] and [z - x] for a float [x]. *)
Definition of_int (z : Z) : error + float :=
  let f := nearest z in
  if is_infinity f then inl OverflowError else inr f.

(** [round(f)]. *)
Definition round (f : float) : error + Z :=
  match Prim2SF f with
  | S754_nan => inl ValueError
  | S754_infinity _ => inl OverflowError
  | _ => inr (Py.round (value f))
  end.

(** [z <= f] and [z >= f]. *)
Definition int_le (z : Z) (f : float) : bool :=
  match Prim2SF f with
  | S754_nan => false
  | S754_infinity s => negb s
  | _ => Qle_bool (inject_Z z) (value f)
  end.

Definition int_ge (z : Z) (f : float) : bool :=
  match Prim2SF f with
  | S754_nan => false
  | S754_infinity s => s
  | _ => Qle_bool (value f) (inject_Z z)
  end.

(** A value that is an [int] or a [float]. *)
Inductive num : Type := Int (z : Z) | Float (f : float).

(** [max(x, 0)] and [min(v, 1)]: the first argument, unless the literal is
    strictly beyond it. *)
Definition max0 (x : float) : num := if (x <? 0)%float then Int 0 else Float x.

Definition min1 (v : num) : num :=
  match v with
  | Int z => if 1 <? z then Int 1 else Int z
  | Float x => if (1 <? x)%float then Int 1 else Float x
  end.

(** [v * z] for an [int] [z]. *)
Definition times (v : num) (z : Z) : error + num :=
  match v with
  | Int y => inr (Int (y * z))
  | Float x => bind (of_int z) (fun d => inr (Float (x * d)%float))
  end.

(** [round(v)]. *)
Definition round_num (v : num) : error + Z :=
  match v with
  | Int z => inr z
  | Float x => round x
  end.

(** The fields of [args] the stage depends on; [args.pg] and [args.wp] are
    the floats [arg_util.Args] declares them to be. *)
Record Args : Type := {
  ep : Z;
  pg : float;
  pg0 : Z;
  wp : float;
  patch_nums : list Z
}.

(** Line 187: [wp_it = args.wp * iters_train]. *)
Definition wp_it (a : Args) (iters_train : Z) : error + float :=
  bind (of_int iters_train) (fun n => inr (wp a * n)%float).

(** [max_it*args.pg], with [max_it = args.ep * iters_train] of line 161. *)
Definition pg_it (a : Args) (iters_train : Z) : error + float :=
  bind (of_int (ep a * iters_train)) (fun m => inr (m * pg a)%float).

Definition last_stage (a : Args) : Z := Z.of_nat (List.length (patch_nums a)) - 1.

(** Line 196, [pg_it] being the value of [max_it*args.pg]. *)
Definition progress (g_it : Z) (wp_it pg_it : float) : error + num :=
  bind (of_int g_it) (fun g =>
    let d := (pg_it - wp_it)%float in
    if (d =? 0)%float then inl ZeroDivisionError
    else inr (min1 (max0 ((g - wp_it) / d)%float))).

(** Line 197, from [progress] on. *)
Definition stage_of (a : Args) (pr : num) : error + Z :=
  bind (times pr (last_stage a - pg0 a)) (fun y =>
  bind (round_num y) (fun r => inr (pg0 a + r))).

(** Lines 191-199: the stage [prog_si] that line 206 hands to [train_step],
    [wp_it] being the value line 187 computed. *)
Definition prog_si (a : Args) (iters_train g_it : Z) (wp_it : float) : error + Z :=
  if negb (pg a =? 0)%float then
    if int_le g_it wp_it then inr (pg0 a)
    else
      bind (pg_it a iters_train) (fun p =>
        if int_ge g_it p then inr (last_stage a)
        else bind (progress g_it wp_it p) (stage_of a))
  else inr (-1).



(** [p k] for [k = a, a + 1, ..., a + n - 1]. *)
Fixpoint all_from (n : nat) (a : Z) (p : Z -> bool) : bool :=
  match n with
  | O => true
  | S n' => p a && all_from n' (a + 1) p
  end.

End F64.






(** ** [build_everything] *)

Module Build.

(** [str.lower()] and [str.strip()] on ASCII strings, the strings being
    those of bytes. The white space of [str.strip()] in ASCII is the
    characters 9 to 13 and 28 to 32. *)
Definition is_space (c : ascii) : bool :=
  let n := nat_of_ascii c in
  ((9 <=? n) && (n <=? 13) || (28 <=? n) && (n <=? 32))%nat.

Definition is_upper (c : ascii) : bool :=
  let n := nat_of_ascii c in ((65 <=? n) && (n <=? 90))%nat.

Definition is_lower (c : ascii) : bool :=
  let n := nat_of_ascii c in ((97 <=? n) && (n <=? 122))%nat.

Definition lower_char (c : ascii) : ascii :=
  if is_upper c then ascii_of_nat (nat_of_ascii c + 32) else c.

Definition upper_char (c : ascii) : ascii :=
  if is_lower c then ascii_of_nat (nat_of_ascii c - 32) else c.

Fixpoint lower (s : string) : string :=
  match s with
  | EmptyString => EmptyString
  | String c r => String (lower_char c) (lower r)
  end.

Fixpoint upper (s : string) : string :=
  match s with
  | EmptyString => EmptyString
  | String c r => String (upper_char c) (upper r)
  end.

Fixpoint lstrip (s : string) : string :=
  match s with
  | EmptyString => EmptyString
  | String c r => if is_space c then lstrip r else s
  end.

Fixpoint rstrip (s : string) : string :=
  match s with
  | EmptyString => EmptyString
  | String c r =>
      match rstrip r with
      | EmptyString => if is_space c then EmptyString else String c EmptyString
      | r' => String c r'
      end
  end.

Definition strip (s : string) : string := rstrip (lstrip s).

Fixpoint all_space (s : string) : bool :=
  match s with
  | EmptyString => true
  | String c r => is_space c && all_space r
  end.

(** Lines 112-115: the dict holds the same entry under 'adam' and under
    'adamw', [partial(torch.optim.AdamW, betas=(0.9, 0.95), fused=args.afuse)];
    the subscript raises [KeyError] on any other key. *)
Inductive error : Type := KeyError (key : string).

Inductive optimizer : Type := AdamW (beta1 beta2 : Q).

Definition opt_clz (opt : string) : error + optimizer :=
  let key := strip (lower opt) in
  if String.eqb key "adam" then inr (AdamW (9 # 10) (95 # 100))
  else if String.eqb key "adamw" then inr (AdamW (9 # 10) (95 # 100))
  else inl (KeyError key).

(** Line 42: [round(args.batch_size*1.5)], the product being that of
    binary64. From a batch size of about [2^1023] on the line raises
    [OverflowError], which is left out here. *)
Definition val_batch_size (batch_size : Z) : Z :=
  Py.round (F64.value (F64.nearest batch_size * 1.5)%float).

(** The fields of [args] that [build_everything] branches or computes on. *)
Record Args : Type := {
  local_debug : bool;
  batch_size : Z;
  glb_batch_size : Z;
  workers : Z;
  opt : string
}.

(** What the process finds: its place among the ranks, what [auto_resume]
    returns (the start position, and the length of [trainer_state] when it
    is not [None]), what [build_dataset] and [len(ld_train)] return, and
    whether the VAE checkpoint is in the working directory. *)
Record World : Type := {
  is_master : bool;
  is_local_master : bool;
  initialized : bool;            (* dist.initialized() *)
  world_size : Z;
  rank : Z;
  resume_ep : Z;
  resume_it : Z;
  trainer_state : option nat;
  num_classes : Z;
  len_ld_train : Z;
  vae_ckpt_exists : bool         (* os.path.exists(vae_ckpt) *)
}.

Inductive wrapper : Type := DDP | NullDDP.

(** The calls of [build_everything], in program order. *)
Inductive call : Type :=
| AutoResume (pattern : string)
| NewTensorboardLogger
| BuildDataset
| NewValLoader (batch_size num_workers num_replicas rank : Z)
| NewTrainLoader (num_workers glb_batch_size rank world_size start_ep start_it : Z)
| BuildVaeMoeVar (num_classes : Z)
| OsSystem (command : string)
| Barrier
| LoadVae (path : string)
| CompileModel
| Wrap (w : wrapper)
| FilterParams
| NewOptimizer (o : optimizer) (weight_decay : Z)
| NewAmpOptimizer
| NewTrainer
| LoadTrainerState.

(** The tuple returned, the objects reduced to whether they are not
    [None]. *)
Record built : Type := {
  tb_lg : bool;
  start_ep : Z;
  start_it : Z;
  iters_train : Z;
  ld_train : bool;
  ld_val : bool
}.

Definition vae_ckpt : string := "vae_ch160v4096z32.pth".

(** Lines 33-68. *)
Definition build_data (a : Args) (w : World) : list call * (Z * Z * bool) :=
  if negb (local_debug a) then
    ([BuildDataset;
      NewValLoader (val_batch_size (batch_size a)) 0 (world_size w) (rank w);
      NewTrainLoader (workers a) (glb_batch_size a) (rank w) (world_size w)
                     (resume_ep w) (resume_it w)],
     (num_classes w, len_ld_train w, true))
  else ([], (1000, 10, false)).

(** Lines 86-91. The status [os.system] returns is not looked at. *)
Definition fetch_vae (w : World) : list call :=
  (if is_local_master w
   then if negb (vae_ckpt_exists w)
        then [OsSystem ("wget https://huggingface.co/FoundationVision/var/resolve/main/"
                        ++ vae_ckpt)]
        else []
   else [])
  ++ [Barrier; LoadVae vae_ckpt].

(** Line 131: [trainer_state is not None and len(trainer_state)]. *)
Definition loads_state (w : World) : bool :=
  match trainer_state w with
  | Some n => negb (n =? 0)%nat
  | None => false
  end.

(** [build_everything(args)]. *)
Definition build_everything (a : Args) (w : World) : list call * (error + built) :=
  let '(data_calls, (classes, iters, loaders)) := build_data a w in
  let before :=
    [AutoResume "ar-ckpt*.pth"]
    ++ (if is_master w then [NewTensorboardLogger] else [])
    ++ data_calls
    ++ [BuildVaeMoeVar classes]
    ++ fetch_vae w
    ++ [CompileModel; CompileModel; Wrap (if initialized w then DDP else NullDDP);
        FilterParams] in
  match opt_clz (opt a) with
  | inl e => (before, inl e)
  | inr o =>
      (before
       ++ [NewOptimizer o 0; NewAmpOptimizer; NewTrainer]
       ++ (if loads_state w then [LoadTrainerState] else [])
       ++ [Barrier],
       inr {| tb_lg := is_master w; start_ep := resume_ep w; start_it := resume_it w;
              iters_train := iters; ld_train := loaders; ld_val := loaders |})
  end.

Definition is_barrier (c : call) : bool :=
  match c with Barrier => true | _ => false end.

Definition barriers (t : list call) : nat := List.length (filter is_barrier t).

Definition is_os_system (c : call) : bool :=
  match c with OsSystem _ => true | _ => false end.

Definition is_load_vae (c : call) : bool :=
  match c with LoadVae _ => true | _ => false end.

(** The calls of lines 35-54. *)
Definition is_data_call (c : call) : bool :=
  match c with
  | BuildDataset | NewValLoader _ _ _ _ | NewTrainLoader _ _ _ _ _ _ => true
  | _ => false
  end.

Definition wget_vae : call :=
  OsSystem ("wget https://huggingface.co/FoundationVision/var/resolve/main/" ++ vae_ckpt).

(** The strings on which [lower] and [strip] are those of Python: the
    ASCII ones. *)
Fixpoint is_ascii (s : string) : bool :=
  match s with
  | EmptyString => true
  | String c r => (nat_of_ascii c <? 128)%nat && is_ascii r
  end.

(** 'adam' or 'adamw' in any letter case, between white space. *)
Definition accepted_name (s : string) : Prop :=
  exists w1 core w2 : string,
    s = (w1 ++ core ++ w2)%string
    /\ all_space w1 = true /\ all_space w2 = true
    /\ (lower core = "adam"%string \/ lower core = "adamw"%string).

End Build.

(** Lines 261-265 and 274: the driver runs on what [build_everything]
    returned; [c] holds the collaborators. The sampler hook is looked for
    on [ld_train], which has none when it is [None]. *)
Definition driver_env (r : Build.built) (w : Build.World) (c : Env.t) : Env.t :=
  {| Env.is_master := Build.tb_lg r;
     Env.is_local_master := Build.is_local_master w;
     Env.has_set_epoch := Build.ld_train r && Env.has_set_epoch c;
     Env.sync_print := Env.sync_print c;
     Env.start_ep := Build.start_ep r;
     Env.start_it := Build.start_it r;
     Env.iters_train := Build.iters_train r;
     Env.log_every := Env.log_every c;
     Env.train_step := Env.train_step c;
     Env.epoch_stats := Env.epoch_stats c;
     Env.evaluate := Env.evaluate c |}.

(** [main_training()] from its start: [build_everything], then the loop. *)
Definition main_training_from (ba : Build.Args) (w : Build.World) (a : Args.t) (c : Env.t)
  : list Build.call * (Build.error + M trackers) :=
  match Build.build_everything ba w with
  | (t, inl e) => (t, inl e)
  | (t, inr r) => (t, inr (main_training (driver_env r w c) a))
  end.

(** The master rank of eight, resuming from iteration 1 of epoch 20 with the
    VAE checkpoint in place. *)
Definition world_resumed : Build.World :=
  {| Build.is_master := true; Build.is_local_master := true; Build.initialized := true;
     Build.world_size := 8; Build.rank := 0;
     Build.resume_ep := 20; Build.resume_it := 1; Build.trainer_state := Some 4%nat;
     Build.num_classes := 1000; Build.len_ld_train := 3;
     Build.vae_ckpt_exists := true |}.

(** A single process, starting from scratch, the VAE checkpoint not there
    yet. *)
Definition world_single : Build.World :=
  {| Build.is_master := true; Build.is_local_master := true; Build.initialized := false;
     Build.world_size := 1; Build.rank := 0;
     Build.resume_ep := 0; Build.resume_it := 0; Build.trainer_state := None;
     Build.num_classes := 1000; Build.len_ld_train := 3;
     Build.vae_ckpt_exists := false |}.

Definition build_args (opt : string) : Build.Args :=
  {| Build.local_debug := false; Build.batch_size := 27; Build.glb_batch_size := 216;
     Build.workers := 4; Build.opt := opt |}.

(** [torch.save] of a record whose 'epoch' entry is [n]. *)
Definition is_save_of (n : Z) (e : event) : bool :=
  match e with TorchSave r _ => epoch r =? n | _ => false end.

(** ** The whole program *)

(** The calls of the program: those [main_training] makes before
    [build_everything] (lines 239, 250 and 259), those of [build_everything]
    and those of the rest of the run. *)
Inductive pcall : Type :=
| InitDistAndGetArgs
| ParseKnownArgs
| SetDetectAnomaly
| InBuild (c : Build.call)
| InRun (e : event).

Inductive failure : Type :=
| BuildError (e : Build.error)
| RunError (x : exn).

(** How the [try] block of line 353 is left. *)
Inductive ending : Type :=
| Returns
| Raises (f : failure).

(** [main_training()], lines 237-332. *)
Definition main_training_calls (ba : Build.Args) (w : Build.World) (a : Args.t) (c : Env.t)
  : list pcall * ending :=
  let prologue :=
    [InitDistAndGetArgs; ParseKnownArgs]
    ++ (if Build.local_debug ba then [SetDetectAnomaly] else []) in
  match main_training_from ba w a c with
  | (t, inl e) => (prologue ++ map InBuild t, Raises (BuildError e))
  | (t, inr m) =>
      (prologue ++ map InBuild t ++ map InRun (trace_of m),
       match result_of m with
       | Ok _ => Returns
       | Raise x => Raises (RunError x)
       end)
  end.

(** The same when an exception [x] is raised after [k] of the calls were
    made, by the last of them or by the code that follows it: nothing in
    [main_training], [build_everything] or [train_one_ep] catches an
    exception, so that the calls made are the first [k] and the block is
    left with [x]. *)
Definition interrupted (k : nat) (x : exn) (r : list pcall * ending) : list pcall * ending :=
  (firstn k (fst r), Raises (RunError x)).

(** The ways through the [try] block: undisturbed, or with an exception
    raised at some point. *)
Definition try_block (ba : Build.Args) (w : Build.World) (a : Args.t) (c : Env.t)
           (fault : option (nat * exn)) : list pcall * ending :=
  match fault with
  | None => main_training_calls ba w a c
  | Some (k, x) => interrupted k x (main_training_calls ba w a c)
  end.

(** Lines 352-358: the [__main__] guard. *)
Definition main_program (ba : Build.Args) (w : Build.World) (a : Args.t) (c : Env.t)
           (fault : option (nat * exn)) : list pcall * ending :=
  let (t, r) := try_block ba w a c fault in
  (t ++ map InRun (trace_of (finally_block c)), r).

(** The calls of the run among the calls of the program. *)
Definition run_calls (t : list pcall) : list event :=
  flat_map (fun c => match c with InRun e => [e] | _ => [] end) t.
Example range_2_5 : Py.range 2 5 = [2; 3; 4].
Proof. reflexivity. Qed.

Example range_empty : Py.range 5 2 = [].
Proof. reflexivity. Qed.

Example round_ties : map Py.round [1 # 2; 3 # 2; 5 # 2; -1 # 2; 7 # 4; -7 # 4]%Q
                     = [0; 2; 2; 0; 2; -2].
Proof. reflexivity. Qed.

Example min_keeps_first_on_nan : Py.min 999 nan = 999%float.
Proof. reflexivity. Qed.

Example path_join_ex : Py.path_join "out" "ar-ckpt-last.pth" = "out/ar-ckpt-last.pth"%string.
Proof. reflexivity. Qed.


(** * Properties *)

(** ** The order on floats *)

Lemma SFltb_irrefl x : SFltb x x = false.
Proof.
  unfold SFltb, SFcompare.
  destruct x as [s|s| |s m e]; try reflexivity; destruct s; try reflexivity;
    rewrite Z.compare_refl; fold (Pos.compare m m); rewrite Pos.compare_refl; reflexivity.
Qed.

Ltac cmp_cases :=
  repeat match goal with
  | |- context [Z.compare ?a ?b] => destruct (Z.compare_spec a b); subst
  | |- context [Pos.compare_cont Eq ?a ?b] => fold (Pos.compare a b)
  | |- context [Pos.compare ?a ?b] => destruct (Pos.compare_spec a b); subst
  end; cbn [CompOpp]; try discriminate; try reflexivity; try lia.

Lemma SFltb_trans x y z : SFltb x y = true -> SFltb y z = true -> SFltb x z = true.
Proof.
  unfold SFltb, SFcompare.
  destruct x as [sx|sx| |sx mx ex], y as [sy|sy| |sy my ey], z as [sz|sz| |sz mz ez];
    try discriminate; try reflexivity;
    try destruct sx; try destruct sy; try destruct sz;
    try discriminate; try reflexivity.
  all: cmp_cases.
Qed.

Lemma ltb_irrefl (x : float) : (x <? x)%float = false.
Proof. rewrite ltb_spec. apply SFltb_irrefl. Qed.

Lemma ltb_trans (x y z : float) :
  (x <? y)%float = true -> (y <? z)%float = true -> (x <? z)%float = true.
Proof. rewrite !ltb_spec. apply SFltb_trans. Qed.

Lemma fle_refl x : fle x x.
Proof. left; reflexivity. Qed.

Lemma fle_trans x y z : fle x y -> fle y z -> fle x z.
Proof.
  intros [->|H1] [->|H2]; unfold fle; auto.
  right. eapply ltb_trans; eassumption.
Qed.

Lemma min_fle a v : fle (Py.min a v) a.
Proof. unfold Py.min, fle. destruct (v <? a)%float eqn:H; auto. Qed.

Lemma max_fle a v : fle a (Py.max a v).
Proof. unfold Py.max, fle. destruct (a <? v)%float eqn:H; auto. Qed.

Lemma not_ltb_below (v m x : float) :
  fle x m -> (v <? m)%float = false -> (v <? x)%float = false.
Proof.
  intros [->|H] Hv; [exact Hv|].
  destruct (v <? x)%float eqn:Hx; [|reflexivity].
  rewrite (ltb_trans _ _ _ Hx H) in Hv. discriminate.
Qed.

Lemma not_ltb_above (v m x : float) :
  fle m x -> (m <? v)%float = false -> (x <? v)%float = false.
Proof.
  intros [<-|H] Hv; [exact Hv|].
  destruct (x <? v)%float eqn:Hx; [|reflexivity].
  rewrite (ltb_trans _ _ _ H Hx) in Hv. discriminate.
Qed.

Lemma not_ltb_min a v : (v <? Py.min a v)%float = false.
Proof. unfold Py.min. destruct (v <? a)%float eqn:H; [apply ltb_irrefl|exact H]. Qed.

Lemma fold_min_fle l : forall a, fle (fold_left Py.min l a) a.
Proof.
  induction l as [|v l IH]; intros a; cbn [fold_left]; [apply fle_refl|].
  eapply fle_trans; [apply IH|apply min_fle].
Qed.

Lemma fold_max_fle l : forall a, fle a (fold_left Py.max l a).
Proof.
  induction l as [|v l IH]; intros a; cbn [fold_left]; [apply fle_refl|].
  eapply fle_trans; [apply max_fle|apply IH].
Qed.

Lemma fold_min_In l : forall a, In (fold_left Py.min l a) (a :: l).
Proof.
  induction l as [|v l IH]; intros a; cbn [fold_left]; [left; reflexivity|].
  destruct (IH (Py.min a v)) as [H|H]; [|right; right; exact H].
  rewrite <- H. unfold Py.min. destruct (v <? a)%float; [right; left|left]; reflexivity.
Qed.

Lemma fold_max_In l : forall a, In (fold_left Py.max l a) (a :: l).
Proof.
  induction l as [|v l IH]; intros a; cbn [fold_left]; [left; reflexivity|].
  destruct (IH (Py.max a v)) as [H|H]; [|right; right; exact H].
  rewrite <- H. unfold Py.max. destruct (a <? v)%float; [right; left|left]; reflexivity.
Qed.

(** Folding [min] over the observed values yields a least element of the
    start value and the values; folding [max], a greatest one. *)
Lemma fold_min_is_min l a : is_min_of (fold_left Py.min l a) (a :: l).
Proof.
  split; [apply fold_min_In|].
  revert a. induction l as [|v l IH]; intros a w Hw.
  - destruct Hw as [<-|[]]. apply ltb_irrefl.
  - cbn [fold_left]. destruct Hw as [<-|[<-|Hw]].
    + eapply not_ltb_below; [apply fold_min_fle with (l := v :: l)|apply ltb_irrefl].
    + eapply not_ltb_below; [apply fold_min_fle|apply not_ltb_min].
    + apply IH. right. exact Hw.
Qed.

Lemma fold_max_is_max l a : is_max_of (fold_left Py.max l a) (a :: l).
Proof.
  split; [apply fold_max_In|].
  revert a. induction l as [|v l IH]; intros a w Hw.
  - destruct Hw as [<-|[]]. apply ltb_irrefl.
  - cbn [fold_left]. destruct Hw as [<-|[<-|Hw]].
    + eapply not_ltb_above; [apply fold_max_fle with (l := v :: l)|apply ltb_irrefl].
    + eapply not_ltb_above; [apply fold_max_fle|].
      unfold Py.max. destruct (a <? v)%float eqn:H; [apply ltb_irrefl|exact H].
    + apply IH. right. exact Hw.
Qed.

(** ** [range] *)

Lemma range_nil a b : b <= a -> Py.range a b = [].
Proof. intros H. unfold Py.range. replace (Z.to_nat (b - a)) with 0%nat by lia. reflexivity. Qed.

Lemma range_cons a b : a < b -> Py.range a b = a :: Py.range (a + 1) b.
Proof.
  intros H. unfold Py.range.
  replace (Z.to_nat (b - a)) with (S (Z.to_nat (b - (a + 1)))) by lia.
  cbn [seq map]. f_equal; [lia|].
  rewrite <- seq_shift, map_map. apply map_ext. intros k. lia.
Qed.

Lemma range_length a b : List.length (Py.range a b) = Z.to_nat (b - a).
Proof. unfold Py.range. now rewrite length_map, length_seq. Qed.

Lemma range_In a b x : In x (Py.range a b) <-> a <= x < b.
Proof.
  unfold Py.range. rewrite in_map_iff. split.
  - intros (k & <- & Hk). apply in_seq in Hk. lia.
  - intros H. exists (Z.to_nat (x - a)). split; [lia|]. apply in_seq. lia.
Qed.

Lemma range_nth a b k : (k < Z.to_nat (b - a))%nat -> nth k (Py.range a b) 0 = a + Z.of_nat k.
Proof.
  intros H. unfold Py.range.
  rewrite (nth_indep _ 0 (a + Z.of_nat 0)) by (rewrite length_map, length_seq; exact H).
  rewrite (map_nth (fun k => a + Z.of_nat k)), seq_nth by exact H. reflexivity.
Qed.

Lemma map_seq_shift a d n : forall i,
  map (fun k => a + Z.of_nat k) (seq (d + i) n) =
  map (fun k => a + Z.of_nat d + Z.of_nat k) (seq i n).
Proof.
  induction n as [|n IH]; intros i; cbn [seq map]; [reflexivity|].
  f_equal; [lia|]. rewrite <- IH. f_equal. f_equal. lia.
Qed.

Lemma range_app a m b : a <= m <= b -> Py.range a b = Py.range a m ++ Py.range m b.
Proof.
  intros H. unfold Py.range.
  replace (Z.to_nat (b - a)) with (Z.to_nat (m - a) + Z.to_nat (b - m))%nat by lia.
  rewrite seq_app, map_app. f_equal.
  rewrite <- (Nat.add_0_r (0 + Z.to_nat (m - a))), map_seq_shift.
  apply map_ext. intros k. lia.
Qed.

(** ** Traces *)

Lemma M_eta {A} (m : M A) : m = (trace_of m, result_of m).
Proof. destruct m; reflexivity. Qed.

Lemma bind_Ok {A B} (m : M A) (f : A -> M B) t a :
  m = (t, Ok a) -> bind m f = (t ++ trace_of (f a), result_of (f a)).
Proof. intros ->. unfold bind. destruct (f a); reflexivity. Qed.

Lemma trace_bind {A B} (m : M A) (f : A -> M B) :
  trace_of (bind m f) =
  trace_of m ++ match result_of m with Ok a => trace_of (f a) | Raise _ => [] end.
Proof.
  destruct m as [t [a|e]]; cbn [bind trace_of result_of fst snd].
  - destruct (f a); reflexivity.
  - now rewrite app_nil_r.
Qed.

Lemma result_bind {A B} (m : M A) (f : A -> M B) :
  result_of (bind m f) =
  match result_of m with Ok a => result_of (f a) | Raise e => Raise e end.
Proof.
  destruct m as [t [a|e]]; cbn [bind trace_of result_of fst snd]; [|reflexivity].
  destruct (f a); reflexivity.
Qed.

Lemma bind_ok_inv {A B} (m : M A) (f : A -> M B) b :
  result_of (bind m f) = Ok b ->
  exists a, result_of m = Ok a /\ result_of (f a) = Ok b.
Proof.
  rewrite result_bind. destruct (result_of m) as [a|e]; [|discriminate].
  intros H. exists a. auto.
Qed.

Lemma Forall_bind {A B} (P : event -> Prop) (m : M A) (f : A -> M B) :
  Forall P (trace_of m) ->
  (forall a, result_of m = Ok a -> Forall P (trace_of (f a))) ->
  Forall P (trace_of (bind m f)).
Proof.
  intros Hm Hf. rewrite trace_bind. apply Forall_app. split; [exact Hm|].
  destruct (result_of m) as [a|e]; [apply Hf; reflexivity|constructor].
Qed.

Lemma Forall_emit (P : event -> Prop) e : P e -> Forall P (trace_of (emit e)).
Proof. intros H. repeat constructor. exact H. Qed.

Lemma Forall_ret {A} (P : event -> Prop) (a : A) : Forall P (trace_of (ret a)).
Proof. constructor. Qed.

Lemma Forall_lift {A} (P : event -> Prop) (o : outcome A) : Forall P (trace_of (lift o)).
Proof. constructor. Qed.

Lemma Forall_tb (P : event -> Prop) E e : P e -> Forall P (trace_of (tb E e)).
Proof. intros H. unfold tb. destruct (Env.is_master E); [apply Forall_emit; exact H|constructor]. Qed.

Lemma Forall_for {A S} (P : A -> event -> Prop) (l : list A) (body : A -> S -> M S) :
  (forall x s, In x l -> Forall (P x) (trace_of (body x s))) ->
  forall s, Forall (fun e => exists x, In x l /\ P x e) (trace_of (for_ l body s)).
Proof.
  induction l as [|x l IH]; intros H s; cbn [for_]; [constructor|].
  apply Forall_bind.
  - eapply Forall_impl; [|apply H; left; reflexivity].
    intros e He. exists x. split; [left; reflexivity|exact He].
  - intros s' _. eapply Forall_impl; [|apply IH].
    + intros e (y & Hy & He). exists y. split; [right; exact Hy|exact He].
    + intros y s'' Hy. apply H. right. exact Hy.
Qed.

Lemma for_returns {A S} (l : list A) (body : A -> S -> M S) (upd : A -> S -> S) :
  (forall x s, In x l -> result_of (body x s) = Ok (upd x s)) ->
  forall s, for_ l body s = (turns l body upd s, Ok (fold_left (fun s x => upd x s) l s)).
Proof.
  induction l as [|x l IH]; intros H s; cbn [for_ turns fold_left]; [reflexivity|].
  rewrite (bind_Ok _ _ (trace_of (body x s)) (upd x s)).
  - rewrite IH by (intros; apply H; right; assumption). reflexivity.
  - rewrite (M_eta (body x s)) at 1. rewrite H by (left; reflexivity). reflexivity.
Qed.

Lemma for_result_inv {A S} (l : list A) (body : A -> S -> M S) (upd : A -> S -> S) :
  (forall x s s', result_of (body x s) = Ok s' -> s' = upd x s) ->
  forall s s', result_of (for_ l body s) = Ok s' -> s' = fold_left (fun s x => upd x s) l s.
Proof.
  intros H. induction l as [|x l IH]; intros s s' Hr; cbn [for_ fold_left] in *.
  - cbn in Hr. congruence.
  - apply bind_ok_inv in Hr. destruct Hr as (s1 & H1 & H2).
    apply H in H1. subst s1. apply IH. exact H2.
Qed.

Lemma for_app_result {A S} (l1 l2 : list A) (body : A -> S -> M S) s s1 :
  result_of (for_ l1 body s) = Ok s1 ->
  result_of (for_ (l1 ++ l2) body s) = result_of (for_ l2 body s1).
Proof.
  revert s. induction l1 as [|x l1 IH]; intros s Hr; cbn [for_ app] in *.
  - cbn in Hr. congruence.
  - rewrite result_bind in *. destruct (result_of (body x s)) as [s'|e]; [|discriminate].
    apply IH. exact Hr.
Qed.

(** ** Rationals and [round] *)

Lemma Qltb_true x y : Py.Qltb x y = true <-> (x < y)%Q.
Proof.
  unfold Py.Qltb. rewrite negb_true_iff. split.
  - intros H. apply Qnot_le_lt. intros C. apply Qle_bool_iff in C. congruence.
  - intros H. destruct (Qle_bool y x) eqn:C; [|reflexivity].
    apply Qle_bool_iff in C. exfalso. apply (Qlt_not_le _ _ H C).
Qed.

Lemma Qle_bool_false x y : Qle_bool x y = false <-> (y < x)%Q.
Proof.
  split.
  - intros H. apply Qnot_le_lt. intros C. apply Qle_bool_iff in C. congruence.
  - intros H. destruct (Qle_bool x y) eqn:C; [|reflexivity].
    apply Qle_bool_iff in C. exfalso. apply (Qlt_not_le _ _ H C).
Qed.

Lemma Qeq_bool_false x y : Qeq_bool x y = false <-> ~ (x == y)%Q.
Proof.
  split.
  - intros H C. apply Qeq_bool_iff in C. congruence.
  - intros H. destruct (Qeq_bool x y) eqn:C; [|reflexivity].
    apply Qeq_bool_iff in C. contradiction.
Qed.






(** ** The progressive stage *)

(** The four ways through lines 191-199. *)
Lemma prog_si_cases a n g :
  ((Args.pg a == 0)%Q /\ prog_si a n g = Ok (-1)) \/
  (~ (Args.pg a == 0)%Q /\ (inject_Z g <= wp_it a n)%Q /\ prog_si a n g = Ok (Args.pg0 a)) \/
  (~ (Args.pg a == 0)%Q /\ (wp_it a n < inject_Z g)%Q /\ (pg_it a n <= inject_Z g)%Q /\
   prog_si a n g = Ok (last_stage a)) \/
  (~ (Args.pg a == 0)%Q /\ (wp_it a n < inject_Z g)%Q /\ (inject_Z g < pg_it a n)%Q /\
   prog_si a n g =
   Ok (Args.pg0 a + Py.round (progress a n g * inject_Z (last_stage a - Args.pg0 a)))).
Proof.
  unfold prog_si.
  destruct (Qeq_bool (Args.pg a) 0) eqn:Hpg; cbn [negb].
  { left. split; [apply Qeq_bool_iff; exact Hpg|reflexivity]. }
  apply Qeq_bool_false in Hpg. right.
  destruct (Qle_bool (inject_Z g) (wp_it a n)) eqn:Hwp.
  { left. apply Qle_bool_iff in Hwp. auto. }
  apply Qle_bool_false in Hwp. right.
  destruct (Qle_bool (pg_it a n) (inject_Z g)) eqn:Hfull.
  { left. apply Qle_bool_iff in Hfull. auto. }
  apply Qle_bool_false in Hfull. right.
  destruct (Qeq_bool (pg_it a n - wp_it a n) 0) eqn:Hden.
  { apply Qeq_bool_iff in Hden. exfalso. lra. }
  auto.
Qed.

Lemma prog_si_total a n g : exists z, prog_si a n g = Ok z.
Proof.
  destruct (prog_si_cases a n g) as [[_ H]|[(_ & _ & H)|[(_ & _ & _ & H)|(_ & _ & _ & H)]]];
    rewrite H; eauto.
Qed.


(** ** What every call of a run satisfies *)

Lemma lift_ok_inv {A} (o : outcome A) x : result_of (lift o) = Ok x -> o = Ok x.
Proof. intros H. exact H. Qed.

Lemma Forall_call_train_step (P : event -> Prop) E it g st si w :
  P (TrainStep it g st si w) -> Forall P (trace_of (call_train_step E it g st si w)).
Proof.
  intros H. unfold call_train_step. apply Forall_bind; [apply Forall_emit; exact H|].
  intros _ _. destruct (Env.train_step E it g st si w); constructor.
Qed.

Ltac trace_forall :=
  repeat first
    [ apply Forall_ret
    | apply Forall_lift
    | apply Forall_emit
    | apply Forall_tb
    | apply Forall_call_train_step
    | apply Forall_bind; [|intros ? ?]
    | match goal with |- Forall _ (trace_of (if ?c then _ else _)) => destruct c end ].

Lemma train_iter_events E a ep s it st0 :
  In it (Env.log_every E s (Env.iters_train E)) -> s <= it ->
  Forall (epoch_event_ok E a ep s) (trace_of (train_iter E a ep it st0)).
Proof.
  intros Hin Hs. unfold train_iter.
  apply Forall_bind.
  { apply Forall_emit. cbn. repeat split; eauto. }
  intros _ _. apply Forall_bind; [apply Forall_lift|]. intros si Hsi.
  apply lift_ok_inv in Hsi.
  apply Forall_bind; [apply Forall_lift|]. intros st Hst. apply lift_ok_inv in Hst.
  apply Forall_bind.
  { apply Forall_call_train_step. cbn. repeat split; auto. }
  intros _ _. trace_forall; exact I.
Qed.

Lemma train_one_ep_events E a ep s :
  Forall (epoch_event_ok E a ep s) (trace_of (train_one_ep E a ep s)).
Proof.
  unfold train_one_ep. apply Forall_bind.
  - eapply Forall_impl;
      [|apply (Forall_for (fun it e => In it (Env.log_every E s (Env.iters_train E)) ->
                                       epoch_event_ok E a ep s e))].
    + intros e (it & Hin & H). apply H. exact Hin.
    + intros it st0 _. unfold loop_body. destruct (it <? s) eqn:Hlt.
      * constructor.
      * apply Z.ltb_ge in Hlt. apply Forall_forall. intros e He Hin.
        pose proof (train_iter_events E a ep s it st0 Hin Hlt) as H.
        rewrite Forall_forall in H. apply H. exact He.
  - intros ? _. trace_forall; exact I.
Qed.

Lemma epoch_body_events E a ep b :
  Forall (epoch_event_ok E a ep (start_of E ep)) (trace_of (epoch_body E a ep b)).
Proof.
  unfold epoch_body.
  apply Forall_bind; [trace_forall; exact I|]. intros _ _.
  apply Forall_bind; [trace_forall; exact I|]. intros _ _.
  apply Forall_bind; [apply train_one_ep_events|]. intros r _.
  apply Forall_bind.
  { unfold validate_and_save, save_ckpt. trace_forall; exact I. }
  intros b2 _. trace_forall; exact I.
Qed.

Lemma main_training_events E a :
  Forall (fun e => is_train_step e = true \/ (exists g w m, e = LrWdAnnealing g w m) ->
                   exists ep, In ep (Py.range (Env.start_ep E) (Args.ep a)) /\
                              epoch_event_ok E a ep (start_of E ep) e)
         (trace_of (main_training E a)).
Proof.
  unfold main_training. apply Forall_bind.
  - eapply Forall_impl; [|apply (Forall_for (fun ep e => epoch_event_ok E a ep (start_of E ep) e))].
    + intros e (ep & Hin & H) _. eauto.
    + intros ep b _. apply epoch_body_events.
  - intros b _. unfold wrap_up.
    trace_forall; intros [C|(g & w & m & C)]; discriminate.
Qed.

(** ** Runs on which nothing raises *)

Lemma bind_emit {B} e (f : unit -> M B) :
  bind (emit e) f = (e :: trace_of (f tt), result_of (f tt)).
Proof. unfold bind, emit. destruct (f tt); reflexivity. Qed.

Lemma tb_master E e : Env.is_master E = true -> tb E e = emit e.
Proof. unfold tb. intros ->. reflexivity. Qed.

Lemma stepping_normal a g : Args.ac a <> 0 -> stepping a g = Ok (stepping_val a g).
Proof.
  intros H. unfold stepping, Py.mod_, stepping_val.
  destruct (Args.ac a =? 0) eqn:C; [apply Z.eqb_eq in C; contradiction|reflexivity].
Qed.

Lemma prog_si_normal a n g : prog_si a n g = Ok (prog_si_val a n g).
Proof. unfold prog_si_val. destruct (prog_si_total a n g) as [z ->]. reflexivity. Qed.

Lemma train_iter_normal E a ep it s :
  normal E a ->
  train_iter E a ep it s =
  (iter_events E a ep it,
   Ok {| g_it := ep * Env.iters_train E + it;
         step_cnt := step_cnt s
                     + (if stepping_val a (ep * Env.iters_train E + it) then 1 else 0) |}).
Proof.
  intros (Hm & Hac & Hts). unfold train_iter, iter_events, train_call.
  rewrite prog_si_normal, (stepping_normal _ _ Hac).
  unfold call_train_step, tb. rewrite Hm.
  cbv beta iota delta [bind lift emit ret]. rewrite Hts.
  destruct (Py.Qltb 0 (Args.tclip a)); reflexivity.
Qed.

Lemma turns_flat_map {A S} (l : list A) (body : A -> S -> M S) (upd : A -> S -> S)
      (f : A -> list event) :
  (forall x s, trace_of (body x s) = f x) ->
  forall s, turns l body upd s = flat_map f l.
Proof.
  intros H. induction l as [|x l IH]; intros s; cbn [turns flat_map]; [reflexivity|].
  now rewrite H, IH.
Qed.

Lemma train_one_ep_normal E a ep s :
  normal E a ->
  exists k, train_one_ep E a ep s = (epoch_train_events E a ep s, Ok (Env.epoch_stats E ep, k)).
Proof.
  intros Hn. unfold train_one_ep, epoch_train_events.
  set (upd := fun (it : Z) (st : ep_state) =>
                if it <? s then st
                else {| g_it := ep * Env.iters_train E + it;
                        step_cnt := step_cnt st
                          + (if stepping_val a (ep * Env.iters_train E + it) then 1 else 0) |}).
  rewrite (for_returns _ _ upd).
  - rewrite (turns_flat_map _ _ _ (fun it => if it <? s then [] else iter_events E a ep it)).
    + eexists. cbn. reflexivity.
    + intros it st. unfold loop_body. destruct (it <? s); [reflexivity|].
      now rewrite train_iter_normal.
  - intros it st _. unfold loop_body, upd. destruct (it <? s); [reflexivity|].
    now rewrite train_iter_normal.
Qed.

Lemma validate_and_save_eq E a ep b :
  validate_and_save E a ep b =
  (if is_val_and_also_saving a ep then validation_events E a ep b else [],
   Ok (if is_val_and_also_saving a ep then update_val (Env.evaluate E ep) b else b)).
Proof.
  unfold validate_and_save, save_ckpt, validation_events.
  destruct (is_val_and_also_saving a ep); [|reflexivity].
  destruct (Env.is_local_master E); [|reflexivity].
  destruct (best_updated (Env.evaluate E ep) b); reflexivity.
Qed.

Lemma epoch_body_normal E a ep b :
  normal E a ->
  epoch_body E a ep b = (epoch_events E a ep b, Ok (update_epoch E a ep b)).
Proof.
  intros Hn. pose proof Hn as (Hm & _ & _).
  destruct (train_one_ep_normal E a ep (start_of E ep) Hn) as [k Hk].
  unfold epoch_body, epoch_events, update_epoch, epoch_end_events.
  unfold tb. rewrite Hm, Hk.
  destruct (Env.has_set_epoch E);
    cbv beta iota delta [bind emit ret fst]; rewrite validate_and_save_eq;
    cbn [app]; rewrite <- ?app_assoc; reflexivity.
Qed.

Lemma turns_epochs E a l : normal E a -> forall b,
  turns l (epoch_body E a) (update_epoch E a) b = run_events E a l b.
Proof.
  intros Hn. induction l as [|ep l IH]; intros b; cbn [turns run_events]; [reflexivity|].
  now rewrite epoch_body_normal, IH.
Qed.

Lemma epoch_loop_normal E a l b :
  normal E a ->
  for_ l (epoch_body E a) b = (run_events E a l b, Ok (run_trackers E a l b)).
Proof.
  intros Hn. rewrite (for_returns _ _ (update_epoch E a)).
  - now rewrite turns_epochs.
  - intros ep b' _. now rewrite epoch_body_normal.
Qed.

Lemma main_training_normal E a :
  normal E a ->
  main_training E a =
  (run_events E a (Py.range (Env.start_ep E) (Args.ep a)) init_trackers ++ wrap_up_events,
   Ok (run_trackers E a (Py.range (Env.start_ep E) (Args.ep a)) init_trackers)).
Proof.
  intros Hn. pose proof Hn as (Hm & _ & _).
  unfold main_training, wrap_up. rewrite epoch_loop_normal by exact Hn.
  rewrite !(tb_master E) by exact Hm. reflexivity.
Qed.

(** ** Observations on a run *)

Lemma filter_none {A} (p : A -> bool) l : Forall (fun x => p x = false) l -> filter p l = [].
Proof.
  induction 1 as [|x l Hx _ IH]; cbn [filter]; [reflexivity|]. now rewrite Hx.
Qed.

Lemma filter_all {A} (p : A -> bool) l : Forall (fun x => p x = true) l -> filter p l = l.
Proof.
  induction 1 as [|x l Hx _ IH]; cbn [filter]; [reflexivity|]. now rewrite Hx, IH.
Qed.

Lemma filter_flat_map {A B} (p : B -> bool) (f : A -> list B) l :
  filter p (flat_map f l) = flat_map (fun x => filter p (f x)) l.
Proof.
  induction l as [|x l IH]; cbn [flat_map]; [reflexivity|]. now rewrite filter_app, IH.
Qed.

Lemma flat_map_singleton {A B} (f : A -> B) (p : A -> bool) l :
  flat_map (fun x => if p x then [f x] else []) l = map f (filter p l).
Proof.
  induction l as [|x l IH]; cbn [flat_map filter]; [reflexivity|].
  rewrite IH. destruct (p x); reflexivity.
Qed.

Lemma iter_events_training E a ep it :
  Forall (fun e => is_training_event e = true) (iter_events E a ep it).
Proof.
  unfold iter_events, train_call. destruct (Py.Qltb 0 (Args.tclip a)); repeat constructor.
Qed.

Lemma epoch_train_events_training E a ep s :
  Forall (fun e => is_training_event e = true) (epoch_train_events E a ep s).
Proof.
  unfold epoch_train_events. apply Forall_app. split; [|repeat constructor].
  apply Forall_flat_map. apply Forall_forall. intros it _.
  destruct (it <? s); [constructor|apply iter_events_training].
Qed.

(** An observation that ignores the training calls sees nothing in them. *)
Lemma filter_training (p : event -> bool) t :
  (forall e, is_training_event e = true -> p e = false) ->
  Forall (fun e => is_training_event e = true) t -> filter p t = [].
Proof.
  intros Hp Ht. apply filter_none. eapply Forall_impl; [|exact Ht]. exact Hp.
Qed.

Lemma training_not_write e : is_training_event e = true -> is_ckpt_write e = false.
Proof. destruct e as [| | | |h [s|]| | | | | | | | | |]; cbn; congruence. Qed.

Lemma training_not_save e : is_training_event e = true -> is_torch_save e = false.
Proof. destruct e as [| | | |h [s|]| | | | | | | | | |]; cbn; congruence. Qed.

Lemma training_not_set_epoch e :
  is_training_event e = true -> match e with SetEpoch ep => [ep] | _ => [] end = [].
Proof. destruct e; cbn; congruence. Qed.

Lemma ckpt_writes_epoch E a ep b :
  ckpt_writes (epoch_events E a ep b) =
  if is_val_and_also_saving a ep && Env.is_local_master E
  then TorchSave (checkpoint_of ep) (local_out_ckpt a)
       :: (if best_updated (Env.evaluate E ep) (update_train (Env.epoch_stats E ep) b)
           then [ShutilCopy (local_out_ckpt a) (local_out_ckpt_best a)]
           else [])
  else [].
Proof.
  unfold ckpt_writes, epoch_events, validation_events, epoch_end_events.
  rewrite filter_app. cbn [filter is_ckpt_write]. rewrite !filter_app.
  rewrite (filter_training is_ckpt_write (epoch_train_events E a ep (start_of E ep)))
    by (try apply epoch_train_events_training; apply training_not_write).
  destruct (Env.has_set_epoch E), (is_val_and_also_saving a ep), (Env.is_local_master E);
    try reflexivity;
    destruct (best_updated (Env.evaluate E ep) (update_train (Env.epoch_stats E ep) b));
    reflexivity.
Qed.

Lemma update_train_val_tail st b :
  best_val_loss_tail (update_train st b) = best_val_loss_tail b.
Proof. unfold update_train. destruct (negb (Stats.Lt st =? -1)%float); reflexivity. Qed.

Lemma update_epoch_val_tail E a ep b :
  best_val_loss_tail (update_epoch E a ep b) =
  if is_val_and_also_saving a ep
  then Py.min (best_val_loss_tail b) (val_loss_tail (Env.evaluate E ep))
  else best_val_loss_tail b.
Proof.
  unfold update_epoch. destruct (is_val_and_also_saving a ep); cbn;
    now rewrite update_train_val_tail.
Qed.

Lemma ckpt_writes_run E a l : Env.is_local_master E = true -> forall b,
  ckpt_writes (run_events E a l b) = expected_writes E a l (best_val_loss_tail b).
Proof.
  intros Hl. induction l as [|ep l IH]; intros b; cbn [run_events expected_writes];
    [reflexivity|].
  unfold ckpt_writes in *. rewrite filter_app. fold (ckpt_writes (epoch_events E a ep b)).
  rewrite ckpt_writes_epoch, IH, update_epoch_val_tail, Hl, andb_true_r.
  unfold best_updated. rewrite update_train_val_tail.
  destruct (is_val_and_also_saving a ep); reflexivity.
Qed.

Lemma run_events_app E a l1 l2 b :
  run_events E a (l1 ++ l2) b =
  run_events E a l1 b ++ run_events E a l2 (run_trackers E a l1 b).
Proof.
  revert b. induction l1 as [|ep l1 IH]; intros b; cbn [run_events app]; [reflexivity|].
  unfold run_trackers in *. cbn [fold_left]. now rewrite IH, app_assoc.
Qed.

Lemma run_trackers_val_tail E a l : forall b,
  best_val_loss_tail (run_trackers E a l b) =
  fold_left Py.min
    (map (fun ep => val_loss_tail (Env.evaluate E ep)) (filter (is_val_and_also_saving a) l))
    (best_val_loss_tail b).
Proof.
  unfold run_trackers. induction l as [|ep l IH]; intros b; cbn [fold_left filter map];
    [reflexivity|].
  rewrite IH, update_epoch_val_tail.
  destruct (is_val_and_also_saving a ep); reflexivity.
Qed.

(** ** The best-checkpoint policy *)

Lemma expected_writes_filter E a l : forall best,
  expected_writes E a l best = expected_writes E a (filter (is_val_and_also_saving a) l) best.
Proof.
  induction l as [|ep l IH]; intros best; cbn [expected_writes filter]; [reflexivity|].
  destruct (is_val_and_also_saving a ep) eqn:Hs; [|apply IH].
  cbn [expected_writes]. rewrite Hs, IH. reflexivity.
Qed.

Lemma normal_rank0 : normal rank0 args_40.
Proof. repeat split. discriminate. Qed.

Lemma counts_batches_rank0 : counts_batches rank0.
Proof. intros s n. left. reflexivity. Qed.

Lemma append_cancel_l (d x y : string) : (d ++ x = d ++ y)%string -> x = y.
Proof.
  induction d as [|c d IH]; cbn; intros H; [exact H|]. injection H as H. apply IH. exact H.
Qed.

Lemma last_is_not_best a : local_out_ckpt a <> local_out_ckpt_best a.
Proof.
  unfold local_out_ckpt, local_out_ckpt_best, Py.path_join.
  destruct (String.length (Args.local_out_dir_path a) =? 0)%nat; [discriminate|].
  destruct (Py.ends_with_slash (Args.local_out_dir_path a));
    intros H; apply append_cancel_l in H; discriminate.
Qed.

(** Only the checkpoint calls count for what is written to a path. *)
Lemma writes_to_ckpt_writes p t : forall fs,
  writes_to p fs t = writes_to p fs (ckpt_writes t).
Proof.
  unfold ckpt_writes.
  induction t as [|e t IH]; intros fs; cbn [writes_to filter]; [reflexivity|].
  destruct e; cbn [is_ckpt_write writes_to written_to apply_write app]; try apply IH;
    rewrite IH; reflexivity.
Qed.

Lemma overwrites_ckpt_writes p t : forall fs,
  overwrites p fs t = overwrites p fs (ckpt_writes t).
Proof.
  unfold ckpt_writes.
  induction t as [|e t IH]; intros fs; cbn [overwrites filter]; [reflexivity|].
  destruct e; cbn [is_ckpt_write overwrites written_to apply_write app]; try apply IH;
    rewrite IH; reflexivity.
Qed.

(** One validated epoch, seen from the "best" path: the save leaves it as it
    is, a copy writes the epoch's checkpoint there, over the file that was
    there if there was one. *)
Lemma best_path_after_epoch a ep (copied : bool) fs t :
  let w := TorchSave (checkpoint_of ep) (local_out_ckpt a)
           :: (if copied then [ShutilCopy (local_out_ckpt a) (local_out_ckpt_best a)] else [])
           ++ t in
  let fs' := fold_left apply_write
               (TorchSave (checkpoint_of ep) (local_out_ckpt a)
                :: (if copied then [ShutilCopy (local_out_ckpt a) (local_out_ckpt_best a)]
                    else [])) fs in
  writes_to (local_out_ckpt_best a) fs w
  = (if copied then [ep] else []) ++ writes_to (local_out_ckpt_best a) fs' t
  /\ overwrites (local_out_ckpt_best a) fs w
     = (if copied then match fs (local_out_ckpt_best a) with Some _ => [ep] | None => [] end
        else [])
       ++ overwrites (local_out_ckpt_best a) fs' t
  /\ fs' (local_out_ckpt_best a)
     = if copied then Some (checkpoint_of ep) else fs (local_out_ckpt_best a).
Proof.
  pose proof (last_is_not_best a) as Hne.
  assert (E1 : String.eqb (local_out_ckpt a) (local_out_ckpt_best a) = false)
    by (apply String.eqb_neq; exact Hne).
  assert (E2 : String.eqb (local_out_ckpt_best a) (local_out_ckpt a) = false)
    by (apply String.eqb_neq; intros C; apply Hne; symmetry; exact C).
  assert (Hep : epoch (checkpoint_of ep) - 1 = ep) by (cbn; lia).
  cbv zeta. destruct copied;
    cbn [app fold_left apply_write overwrites writes_to written_to];
    unfold put; rewrite ?E1, ?E2, ?String.eqb_refl, ?Hep; cbn [app];
    rewrite ?E1, ?E2, ?String.eqb_refl.
  - split; [reflexivity|]. split; [|reflexivity].
    destruct (fs (local_out_ckpt_best a)); reflexivity.
  - auto.
Qed.

(** In a process resumed from the checkpoint of epoch 10, whose directory
    holds the "best" file an earlier process left, the best loss so far
    starts at 999 again: with the validation tail losses 2.0, 1.5, 1.8 and
    1.2 at epochs 19, 29, 39 and 49, the file is overwritten at epochs 19, 29
    and 49. *)
Lemma best_file_of_resumed_process :
  val_values rank0_resumed args_50 val_loss_tail (Py.range 10 50) = four_losses /\
  overwrites (local_out_ckpt_best args_50) (files_after args_50 9)
             (trace_of (main_training rank0_resumed args_50))
  = [19; 29; 49].
Proof. split; vm_compute; reflexivity. Qed.

(** C1: on the rank that writes, in a run on which nothing raises, the file
    writes are those of the best-checkpoint policy: every validated epoch
    saves "last", and copies it to "best" exactly when its validation tail
    loss is below the best one seen so far in the process, a least element
    of the initial 999 and of the losses of the earlier validations. With
    the losses 2.0, 1.5, 1.8 and 1.2 at the four validations of a run whose
    directory holds no "best" file, the file is written at the first, second
    and fourth of them: created at the first, and overwritten only at those
    that yield 1.5 and 1.2. *)
Theorem best_checkpoint_policy (E : Env.t) (a : Args.t) :
  normal E a -> Env.is_local_master E = true ->
  ckpt_writes (trace_of (main_training E a))
  = expected_writes E a (Py.range (Env.start_ep E) (Args.ep a)) 999%float
  /\ (forall prev ep rest,
        Py.range (Env.start_ep E) (Args.ep a) = prev ++ ep :: rest ->
        is_val_and_also_saving a ep = true ->
        let b := run_trackers E a prev init_trackers in
        (exists t1 t2,
           trace_of (main_training E a) = t1 ++ trace_of (epoch_body E a ep b) ++ t2) /\
        best_val_loss_tail b = best_tail_seen E a prev /\
        is_min_of (best_tail_seen E a prev)
          (999%float :: map (fun ep => val_loss_tail (Env.evaluate E ep))
                            (filter (is_val_and_also_saving a) prev)) /\
        (In (ShutilCopy (local_out_ckpt a) (local_out_ckpt_best a))
            (trace_of (epoch_body E a ep b))
         <-> (val_loss_tail (Env.evaluate E ep) <? best_tail_seen E a prev)%float = true))
  /\ (forall e1 e2 e3 e4,
        filter (is_val_and_also_saving a) (Py.range (Env.start_ep E) (Args.ep a))
        = [e1; e2; e3; e4] ->
        map (fun ep => val_loss_tail (Env.evaluate E ep)) [e1; e2; e3; e4]
        = four_losses ->
        ckpt_writes (trace_of (main_training E a))
        = [TorchSave (checkpoint_of e1) (local_out_ckpt a);
           ShutilCopy (local_out_ckpt a) (local_out_ckpt_best a);
           TorchSave (checkpoint_of e2) (local_out_ckpt a);
           ShutilCopy (local_out_ckpt a) (local_out_ckpt_best a);
           TorchSave (checkpoint_of e3) (local_out_ckpt a);
           TorchSave (checkpoint_of e4) (local_out_ckpt a);
           ShutilCopy (local_out_ckpt a) (local_out_ckpt_best a)]
        /\ forall fs, fs (local_out_ckpt_best a) = None ->
             writes_to (local_out_ckpt_best a) fs (trace_of (main_training E a))
             = [e1; e2; e4]
             /\ overwrites (local_out_ckpt_best a) fs (trace_of (main_training E a))
                = [e2; e4]).
Proof.
  intros Hn Hl.
  assert (Hw : ckpt_writes (trace_of (main_training E a))
               = expected_writes E a (Py.range (Env.start_ep E) (Args.ep a)) 999%float).
  { rewrite main_training_normal by exact Hn. cbn [trace_of fst].
    unfold ckpt_writes. rewrite filter_app. cbn [filter wrap_up_events is_ckpt_write].
    rewrite app_nil_r. fold (ckpt_writes (run_events E a (Py.range (Env.start_ep E) (Args.ep a))
                                                   init_trackers)).
    now rewrite ckpt_writes_run. }
  split; [exact Hw|]. split.
  - intros prev ep rest Hsplit Hs b.
    assert (Hb : best_val_loss_tail b = best_tail_seen E a prev)
      by (unfold b; rewrite run_trackers_val_tail; reflexivity).
    split; [|split; [exact Hb|split]].
    + rewrite main_training_normal by exact Hn. cbn [trace_of fst].
      rewrite Hsplit, run_events_app. cbn [run_events].
      rewrite epoch_body_normal by exact Hn. cbn [fst]. fold b.
      exists (run_events E a prev init_trackers),
             (run_events E a rest (update_epoch E a ep b) ++ wrap_up_events).
      now rewrite <- !app_assoc.
    + apply fold_min_is_min.
    + rewrite epoch_body_normal by exact Hn. cbn [trace_of fst].
      rewrite <- Hb.
      transitivity (In (ShutilCopy (local_out_ckpt a) (local_out_ckpt_best a))
                       (ckpt_writes (epoch_events E a ep b))).
      { unfold ckpt_writes. rewrite filter_In. cbn [is_ckpt_write]. tauto. }
      rewrite ckpt_writes_epoch, Hs, Hl. cbn [andb].
      unfold best_updated. rewrite update_train_val_tail.
      destruct (val_loss_tail (Env.evaluate E ep) <? best_val_loss_tail b)%float.
      * split; [reflexivity|]. intros _. right. left. reflexivity.
      * split; [|discriminate]. intros [C|[]]; discriminate.
  - intros e1 e2 e3 e4 Hf Hv.
    assert (Hlist : ckpt_writes (trace_of (main_training E a))
                    = [TorchSave (checkpoint_of e1) (local_out_ckpt a);
                       ShutilCopy (local_out_ckpt a) (local_out_ckpt_best a);
                       TorchSave (checkpoint_of e2) (local_out_ckpt a);
                       ShutilCopy (local_out_ckpt a) (local_out_ckpt_best a);
                       TorchSave (checkpoint_of e3) (local_out_ckpt a);
                       TorchSave (checkpoint_of e4) (local_out_ckpt a);
                       ShutilCopy (local_out_ckpt a) (local_out_ckpt_best a)]).
    { rewrite Hw, expected_writes_filter, Hf.
      assert (Hall : forall e, In e [e1; e2; e3; e4] -> is_val_and_also_saving a e = true).
      { intros e He. rewrite <- Hf in He. apply filter_In in He. tauto. }
      cbn [map] in Hv. injection Hv as V1 V2 V3 V4.
      cbn [expected_writes].
      rewrite !Hall by (cbn; tauto). rewrite V1, V2, V3, V4. reflexivity. }
    split; [exact Hlist|]. intros fs Hfs.
    rewrite writes_to_ckpt_writes, overwrites_ckpt_writes, Hlist.
    destruct (best_path_after_epoch a e1 true fs
                [TorchSave (checkpoint_of e2) (local_out_ckpt a);
                 ShutilCopy (local_out_ckpt a) (local_out_ckpt_best a);
                 TorchSave (checkpoint_of e3) (local_out_ckpt a);
                 TorchSave (checkpoint_of e4) (local_out_ckpt a);
                 ShutilCopy (local_out_ckpt a) (local_out_ckpt_best a)]) as (W1 & O1 & F1).
    cbv zeta in W1, O1, F1. cbn [app] in W1, O1. rewrite W1, O1, Hfs. clear W1 O1.
    set (fs1 := fold_left apply_write _ fs) in *.
    destruct (best_path_after_epoch a e2 true fs1
                [TorchSave (checkpoint_of e3) (local_out_ckpt a);
                 TorchSave (checkpoint_of e4) (local_out_ckpt a);
                 ShutilCopy (local_out_ckpt a) (local_out_ckpt_best a)]) as (W2 & O2 & F2).
    cbv zeta in W2, O2, F2. cbn [app] in W2, O2. rewrite W2, O2, F1. clear W2 O2.
    set (fs2 := fold_left apply_write _ fs1) in *.
    destruct (best_path_after_epoch a e3 false fs2
                [TorchSave (checkpoint_of e4) (local_out_ckpt a);
                 ShutilCopy (local_out_ckpt a) (local_out_ckpt_best a)]) as (W3 & O3 & F3).
    cbv zeta in W3, O3, F3. cbn [app] in W3, O3. rewrite W3, O3. clear W3 O3.
    set (fs3 := fold_left apply_write _ fs2) in *.
    destruct (best_path_after_epoch a e4 true fs3 []) as (W4 & O4 & F4).
    cbv zeta in W4, O4, F4. cbn [app] in W4, O4. rewrite W4, O4, F3, F2. clear W4 O4.
    split; reflexivity.
Qed.

(** The forty-epoch run on its master rank, in an empty directory: "best" is
    written after epochs 9, 19 and 39, and overwritten after 19 and 39. *)
Lemma best_checkpoint_policy_rank0 :
  val_values rank0 args_40 val_loss_tail (Py.range 0 40) = four_losses
  /\ writes_to (local_out_ckpt_best args_40) no_files (trace_of (main_training rank0 args_40))
     = [9; 19; 39]
  /\ overwrites (local_out_ckpt_best args_40) no_files (trace_of (main_training rank0 args_40))
     = [19; 39].
Proof.
  split; [vm_compute; reflexivity|].
  refine (proj2 (proj2 (proj2 (best_checkpoint_policy rank0 args_40 normal_rank0 eq_refl))
                       9 19 29 39 _ _) no_files eq_refl).
  - vm_compute. reflexivity.
  - vm_compute. reflexivity.
Defined.

(** ** The trackers *)

Lemma train_one_ep_result E a ep s r :
  result_of (train_one_ep E a ep s) = Ok r -> fst r = Env.epoch_stats E ep.
Proof.
  unfold train_one_ep. intros H.
  apply bind_ok_inv in H. destruct H as (st & _ & H).
  apply bind_ok_inv in H. destruct H as (u & _ & H).
  cbn in H. injection H as <-. reflexivity.
Qed.

Lemma epoch_body_result E a ep b b' :
  result_of (epoch_body E a ep b) = Ok b' -> b' = update_epoch E a ep b.
Proof.
  unfold epoch_body. intros H.
  apply bind_ok_inv in H. destruct H as (u1 & _ & H).
  apply bind_ok_inv in H. destruct H as (u2 & _ & H).
  apply bind_ok_inv in H. destruct H as (r & Hr & H).
  apply train_one_ep_result in Hr.
  apply bind_ok_inv in H. destruct H as (b2 & Hv & H).
  rewrite validate_and_save_eq in Hv. cbn [result_of snd] in Hv. injection Hv as <-.
  apply bind_ok_inv in H. destruct H as (u3 & _ & H).
  apply bind_ok_inv in H. destruct H as (u4 & _ & H).
  apply bind_ok_inv in H. destruct H as (u5 & _ & H).
  apply bind_ok_inv in H. destruct H as (u6 & _ & H).
  cbn in H. injection H as <-. unfold update_epoch. rewrite Hr. reflexivity.
Qed.

Lemma epoch_loop_result E a l b b' :
  result_of (for_ l (epoch_body E a) b) = Ok b' -> b' = run_trackers E a l b.
Proof. apply for_result_inv. intros ep s s'. apply epoch_body_result. Qed.

Lemma trackers_le_refl b : trackers_le b b.
Proof. unfold trackers_le. repeat split; apply fle_refl. Qed.

Lemma trackers_le_trans b3 b2 b1 : trackers_le b3 b2 -> trackers_le b2 b1 -> trackers_le b3 b1.
Proof.
  unfold trackers_le. intros (A1 & A2 & A3 & A4 & A5 & A6 & A7 & A8)
                             (B1 & B2 & B3 & B4 & B5 & B6 & B7 & B8).
  repeat split; eapply fle_trans; eassumption.
Qed.

Lemma update_train_le st b : trackers_le (update_train st b) b.
Proof.
  unfold update_train, trackers_le.
  destruct (negb (Stats.Lt st =? -1)%float); cbn;
    repeat split; first [apply min_fle | apply max_fle | apply fle_refl].
Qed.

Lemma update_val_le v b : trackers_le (update_val v b) b.
Proof.
  unfold update_val, trackers_le. cbn.
  repeat split; first [apply min_fle | apply max_fle | apply fle_refl].
Qed.

Lemma update_epoch_le E a ep b : trackers_le (update_epoch E a ep b) b.
Proof.
  unfold update_epoch. destruct (is_val_and_also_saving a ep); [|apply update_train_le].
  eapply trackers_le_trans; [apply update_val_le|apply update_train_le].
Qed.

Lemma run_trackers_le E a l : forall b, trackers_le (run_trackers E a l b) b.
Proof.
  unfold run_trackers. induction l as [|ep l IH]; intros b; cbn [fold_left];
    [apply trackers_le_refl|].
  eapply trackers_le_trans; [apply IH|apply update_epoch_le].
Qed.

(** Each tracker as a fold over the values observed. *)
Lemma run_trackers_fold E a l : forall b,
  let b' := run_trackers E a l b in
  best_L_mean b' = fold_left Py.min (train_values E Stats.Lm l) (best_L_mean b) /\
  best_acc_mean b' = fold_left Py.max (train_values E Stats.Accm l) (best_acc_mean b) /\
  best_val_loss_mean b' = fold_left Py.min (val_values E a val_loss_mean l) (best_val_loss_mean b) /\
  best_val_loss_tail b' = fold_left Py.min (val_values E a val_loss_tail l) (best_val_loss_tail b) /\
  best_val_acc_mean b' = fold_left Py.max (val_values E a val_acc_mean l) (best_val_acc_mean b) /\
  best_val_acc_tail b' = fold_left Py.max (val_values E a val_acc_tail l) (best_val_acc_tail b).
Proof.
  unfold run_trackers, train_values, val_values.
  induction l as [|ep l IH]; intros b; cbn [fold_left map filter]; [repeat split|].
  destruct (IH (update_epoch E a ep b)) as (H1 & H2 & H3 & H4 & H5 & H6).
  cbv zeta. rewrite H1, H2, H3, H4, H5, H6. clear.
  unfold update_epoch, update_train.
  destruct (is_val_and_also_saving a ep), (negb (Stats.Lt (Env.epoch_stats E ep) =? -1)%float);
    cbn; repeat split.
Qed.

(** C8: the trackers are running extrema. Whatever the trackers [b1] are
    after some epochs [l1] of the loop, and [b2] after further epochs [l2]:
    from [b1] to [b2] no loss tracker went up and no accuracy tracker went
    down; and [b1] holds, for each tracker, a least (for the losses) or
    greatest (for the accuracies) element of its initial value and of the
    values observed in [l1], the validation ones in the validated epochs. *)
Theorem trackers_are_running_extrema (E : Env.t) (a : Args.t) (l1 l2 : list Z)
        (b1 b2 : trackers) :
  result_of (for_ l1 (epoch_body E a) init_trackers) = Ok b1 ->
  result_of (for_ (l1 ++ l2) (epoch_body E a) init_trackers) = Ok b2 ->
  trackers_le b2 b1 /\
  is_min_of (best_L_mean b1) (999%float :: train_values E Stats.Lm l1) /\
  is_max_of (best_acc_mean b1) ((-1)%float :: train_values E Stats.Accm l1) /\
  is_min_of (best_val_loss_mean b1) (999%float :: val_values E a val_loss_mean l1) /\
  is_min_of (best_val_loss_tail b1) (999%float :: val_values E a val_loss_tail l1) /\
  is_max_of (best_val_acc_mean b1) ((-1)%float :: val_values E a val_acc_mean l1) /\
  is_max_of (best_val_acc_tail b1) ((-1)%float :: val_values E a val_acc_tail l1).
Proof.
  intros H1 H2.
  rewrite (for_app_result _ _ _ _ _ H1) in H2.
  apply epoch_loop_result in H1, H2. subst b2. split; [apply run_trackers_le|].
  destruct (run_trackers_fold E a l1 init_trackers) as (F1 & F2 & F3 & F4 & F5 & F6).
  cbv zeta in *. rewrite <- H1 in *.
  rewrite F1, F2, F3, F4, F5, F6.
  repeat split; first [apply fold_min_is_min | apply fold_max_is_max].
Qed.

(** The trackers of the forty-epoch run after ten and after forty epochs. *)
Lemma trackers_are_running_extrema_rank0 :
  let b1 := run_trackers rank0 args_40 (Py.range 0 10) init_trackers in
  let b2 := run_trackers rank0 args_40 (Py.range 0 40) init_trackers in
  best_val_loss_tail b1 = 2%float /\ best_val_loss_tail b2 = nth 3 four_losses 0%float /\
  trackers_le b2 b1 /\
  is_min_of (best_val_loss_tail b1)
            (999%float :: val_values rank0 args_40 val_loss_tail (Py.range 0 10)).
Proof.
  split; [vm_compute; reflexivity|]. split; [vm_compute; reflexivity|].
  pose proof (trackers_are_running_extrema rank0 args_40 (Py.range 0 10) (Py.range 10 40)
                (run_trackers rank0 args_40 (Py.range 0 10) init_trackers)
                (run_trackers rank0 args_40 (Py.range 0 40) init_trackers)
                ltac:(vm_compute; reflexivity) ltac:(vm_compute; reflexivity)) as H.
  split; [apply H|apply H].
Defined.

(** ** Saving *)

Lemma saves_epoch E a ep b :
  saves (epoch_events E a ep b) =
  if is_val_and_also_saving a ep && Env.is_local_master E
  then [TorchSave (checkpoint_of ep) (local_out_ckpt a)]
  else [].
Proof.
  unfold saves, epoch_events, validation_events, epoch_end_events.
  rewrite filter_app. cbn [filter is_torch_save]. rewrite !filter_app.
  rewrite (filter_training is_torch_save (epoch_train_events E a ep (start_of E ep)))
    by (try apply epoch_train_events_training; apply training_not_save).
  destruct (Env.has_set_epoch E), (is_val_and_also_saving a ep), (Env.is_local_master E);
    try reflexivity;
    destruct (best_updated (Env.evaluate E ep) (update_train (Env.epoch_stats E ep) b));
    reflexivity.
Qed.

Lemma saves_run E a l : forall b,
  saves (run_events E a l b) =
  if Env.is_local_master E
  then map (fun ep => TorchSave (checkpoint_of ep) (local_out_ckpt a))
           (filter (is_val_and_also_saving a) l)
  else [].
Proof.
  induction l as [|ep l IH]; intros b; cbn [run_events filter map].
  - destruct (Env.is_local_master E); reflexivity.
  - unfold saves in *. rewrite filter_app. fold (saves (epoch_events E a ep b)).
    rewrite saves_epoch, IH.
    destruct (is_val_and_also_saving a ep), (Env.is_local_master E); reflexivity.
Qed.

Lemma is_val_and_also_saving_spec a ep :
  is_val_and_also_saving a ep = true <-> (ep + 1) mod 10 = 0 \/ ep + 1 = Args.ep a.
Proof. unfold is_val_and_also_saving. rewrite orb_true_iff, !Z.eqb_eq. reflexivity. Qed.

(** C3: on the rank that writes, in a run on which nothing raises, the
    [torch.save] calls are, in order, one per epoch [ep] of the run with
    [(ep + 1) % 10 == 0] or [ep + 1 == args.ep], and no other; the dict saved
    holds [epoch = ep + 1], [iter = 0], the trainer's state and the
    configuration's, and goes to the "last" path. *)
Theorem checkpoints_saved_at_cadence (E : Env.t) (a : Args.t) :
  normal E a -> Env.is_local_master E = true ->
  saves (trace_of (main_training E a))
  = map (fun ep => TorchSave (checkpoint_of ep) (local_out_ckpt a))
        (filter (is_val_and_also_saving a) (Py.range (Env.start_ep E) (Args.ep a)))
  /\ (forall r p,
        In (TorchSave r p) (trace_of (main_training E a)) <->
        exists ep, Env.start_ep E <= ep < Args.ep a /\
                   ((ep + 1) mod 10 = 0 \/ ep + 1 = Args.ep a) /\
                   r = checkpoint_of ep /\ p = local_out_ckpt a)
  /\ (forall ep, epoch (checkpoint_of ep) = ep + 1 /\ iter (checkpoint_of ep) = 0 /\
                 trainer (checkpoint_of ep) = StateDict TheTrainer ep /\
                 args (checkpoint_of ep) = StateDict TheArgs ep).
Proof.
  intros Hn Hl.
  assert (Hs : saves (trace_of (main_training E a))
               = map (fun ep => TorchSave (checkpoint_of ep) (local_out_ckpt a))
                     (filter (is_val_and_also_saving a)
                             (Py.range (Env.start_ep E) (Args.ep a)))).
  { rewrite main_training_normal by exact Hn. cbn [trace_of fst].
    unfold saves. rewrite filter_app. cbn [filter wrap_up_events is_torch_save].
    rewrite app_nil_r.
    fold (saves (run_events E a (Py.range (Env.start_ep E) (Args.ep a)) init_trackers)).
    now rewrite saves_run, Hl. }
  split; [exact Hs|]. split; [|intros ep; repeat split].
  intros r p.
  transitivity (In (TorchSave r p) (saves (trace_of (main_training E a)))).
  { unfold saves. rewrite filter_In. cbn [is_torch_save]. tauto. }
  rewrite Hs, in_map_iff. split.
  - intros (ep & Heq & Hin). apply filter_In in Hin. destruct Hin as [Hr Hc].
    apply range_In in Hr. apply is_val_and_also_saving_spec in Hc.
    injection Heq as <- <-. exists ep. auto.
  - intros (ep & Hr & Hc & -> & ->). exists ep. split; [reflexivity|].
    apply filter_In. split; [apply range_In; exact Hr|].
    apply is_val_and_also_saving_spec; exact Hc.
Qed.

(** The forty-epoch run saves after epochs 9, 19, 29 and 39. *)
Lemma checkpoints_saved_at_cadence_rank0 :
  map (fun e => match e with TorchSave r _ => epoch r | _ => 0 end)
      (saves (trace_of (main_training rank0 args_40)))
  = [10; 20; 30; 40].
Proof.
  rewrite (proj1 (checkpoints_saved_at_cadence rank0 args_40 normal_rank0 eq_refl)).
  vm_compute. reflexivity.
Defined.

(** ** The order of the calls of one epoch *)

Lemma Forall_for_const {A S} (P : event -> Prop) (l : list A) (body : A -> S -> M S) s :
  (forall x s, Forall P (trace_of (body x s))) -> Forall P (trace_of (for_ l body s)).
Proof.
  intros H. eapply Forall_impl; [|apply (Forall_for (fun _ => P))].
  - intros e (_ & _ & He). exact He.
  - intros x s' _. apply H.
Qed.

Lemma train_one_ep_training E a ep s :
  Forall (fun e => is_training_event e = true) (trace_of (train_one_ep E a ep s)).
Proof.
  unfold train_one_ep. apply Forall_bind.
  - apply Forall_for_const. intros it st. unfold loop_body, train_iter.
    destruct (it <? s); [constructor|]. trace_forall; reflexivity.
  - intros ? _. trace_forall; reflexivity.
Qed.

(** The trace of one turn of the epoch loop, whether or not it raises. *)
Lemma epoch_body_trace E a ep b :
  trace_of (epoch_body E a ep b) =
  (if Env.has_set_epoch E then [SetEpoch ep] else [])
  ++ (if Env.is_master E
      then TbSetStep (ep * Env.iters_train E)
           :: trace_of (train_one_ep E a ep (start_of E ep))
           ++ match result_of (train_one_ep E a ep (start_of E ep)) with
              | Ok _ =>
                  (if is_val_and_also_saving a ep
                   then validation_events E a ep (update_train (Env.epoch_stats E ep) b)
                   else [])
                  ++ epoch_end_events ep
              | Raise _ => []
              end
      else []).
Proof.
  unfold epoch_body, tb, epoch_end_events.
  pose proof (train_one_ep_result E a ep (start_of E ep)) as Hr.
  destruct (train_one_ep E a ep (start_of E ep)) as [t [r|e]];
    cbn [trace_of result_of fst snd] in *.
  - rewrite <- (Hr r eq_refl).
    destruct (Env.has_set_epoch E), (Env.is_master E);
      cbv beta iota delta [bind emit ret raise fst]; try reflexivity;
      rewrite validate_and_save_eq; cbn [app]; rewrite <- ?app_assoc; reflexivity.
  - destruct (Env.has_set_epoch E), (Env.is_master E);
      cbv beta iota delta [bind emit ret raise fst]; cbn [app]; rewrite ?app_nil_r;
      reflexivity.
Qed.

Lemma no_writes_off_the_local_master E a :
  Env.is_local_master E = false ->
  Forall (fun e => is_ckpt_write e = false) (trace_of (main_training E a)).
Proof.
  intros Hl. unfold main_training. apply Forall_bind.
  - apply Forall_for_const. intros ep b. rewrite epoch_body_trace.
    apply Forall_app. split; [destruct (Env.has_set_epoch E); repeat constructor|].
    destruct (Env.is_master E); [|constructor].
    constructor; [reflexivity|]. apply Forall_app. split.
    + eapply Forall_impl; [|apply train_one_ep_training]. apply training_not_write.
    + destruct (result_of (train_one_ep E a ep (start_of E ep))); [|constructor].
      unfold validation_events, epoch_end_events. rewrite Hl.
      destruct (is_val_and_also_saving a ep); repeat constructor.
  - intros b _. unfold wrap_up. trace_forall; reflexivity.
Qed.

(** C5: the calls of one turn of the epoch loop on any rank are: the
    sampler's [set_epoch] when it has one, then the training calls, then,
    when the epoch validates and got that far, [trainer.evaluate], on the
    local master the [torch.save] of "last" and, when the loss improved, the
    [shutil.copy] to "best", then [dist.barrier], then the calls that close
    the epoch. No file is written outside that place, hence none before the
    evaluation or after the barrier, and none at all by a rank that is not
    the local master. *)
Theorem evaluate_then_save_then_barrier (E : Env.t) (a : Args.t) (ep : Z) (b : trackers) :
  (exists pre post,
     trace_of (epoch_body E a ep b)
     = (if Env.has_set_epoch E then [SetEpoch ep] else [])
       ++ pre
       ++ (if reaches_validation E a ep && is_val_and_also_saving a ep
           then Evaluate
                :: (if Env.is_local_master E
                    then TorchSave (checkpoint_of ep) (local_out_ckpt a)
                         :: (if best_updated (Env.evaluate E ep)
                                             (update_train (Env.epoch_stats E ep) b)
                             then [ShutilCopy (local_out_ckpt a) (local_out_ckpt_best a)]
                             else [])
                    else [])
                ++ [Barrier]
           else [])
       ++ post
     /\ Forall (fun e => is_training_event e = true) pre
     /\ Forall (fun e => is_epoch_end_event e = true) post
     /\ (if reaches_validation E a ep then post = epoch_end_events ep else post = []))
  /\ (Env.is_local_master E = false ->
      Forall (fun e => is_ckpt_write e = false) (trace_of (main_training E a))).
Proof.
  split.
  - rewrite epoch_body_trace. unfold reaches_validation.
    destruct (Env.is_master E); cbn [andb].
    + exists (TbSetStep (ep * Env.iters_train E)
              :: trace_of (train_one_ep E a ep (start_of E ep))).
      destruct (result_of (train_one_ep E a ep (start_of E ep))) as [r|e].
      * exists (epoch_end_events ep). split; [|split; [|split]].
        -- unfold validation_events. destruct (is_val_and_also_saving a ep);
             cbn [app andb]; rewrite <- ?app_assoc; reflexivity.
        -- constructor; [reflexivity|apply train_one_ep_training].
        -- repeat constructor.
        -- reflexivity.
      * exists []. split; [|split; [|split]].
        -- cbn [app]. rewrite ?app_nil_r. reflexivity.
        -- constructor; [reflexivity|apply train_one_ep_training].
        -- constructor.
        -- reflexivity.
    + exists [], []. repeat split; constructor.
  - apply no_writes_off_the_local_master.
Qed.

(** Epoch 9 of the forty-epoch run on its master rank, and the whole run on
    a rank that is not the local master. *)
Lemma evaluate_then_save_then_barrier_rank0 :
  (exists pre post,
     trace_of (epoch_body rank0 args_40 9 init_trackers)
     = [SetEpoch 9] ++ pre
       ++ [Evaluate; TorchSave (checkpoint_of 9) "out/ar-ckpt-last.pth";
           ShutilCopy "out/ar-ckpt-last.pth" "out/ar-ckpt-best.pth"; Barrier]
       ++ post
     /\ Forall (fun e => is_training_event e = true) pre
     /\ post = epoch_end_events 9)
  /\ ckpt_writes (trace_of (main_training (follower rank0) args_40)) = [].
Proof.
  split.
  - destruct (evaluate_then_save_then_barrier rank0 args_40 9 init_trackers)
      as [(pre & post & H & Hpre & _ & Hpost) _].
    exists pre, post. split; [exact H|]. split; [exact Hpre|exact Hpost].
  - apply filter_none.
    apply (proj2 (evaluate_then_save_then_barrier (follower rank0) args_40 0 init_trackers)).
    reflexivity.
Defined.

(** ** The epoch driver *)

Lemma flat_map_none {A B} (f : A -> list B) l :
  Forall (fun x => f x = []) l -> flat_map f l = [].
Proof. induction 1 as [|x l Hx _ IH]; cbn [flat_map]; [reflexivity|]. now rewrite Hx, IH. Qed.

Lemma set_epoch_calls_epoch E a ep b :
  set_epoch_calls (epoch_events E a ep b) = if Env.has_set_epoch E then [ep] else [].
Proof.
  unfold set_epoch_calls, epoch_events, validation_events, epoch_end_events.
  rewrite flat_map_app. cbn [flat_map]. rewrite !flat_map_app.
  rewrite (flat_map_none _ (epoch_train_events E a ep (start_of E ep)))
    by (eapply Forall_impl; [|apply epoch_train_events_training];
        apply training_not_set_epoch).
  destruct (Env.has_set_epoch E), (is_val_and_also_saving a ep), (Env.is_local_master E);
    try reflexivity;
    destruct (best_updated (Env.evaluate E ep) (update_train (Env.epoch_stats E ep) b));
    reflexivity.
Qed.

Lemma set_epoch_calls_run E a l : forall b,
  set_epoch_calls (run_events E a l b) = if Env.has_set_epoch E then l else [].
Proof.
  induction l as [|ep l IH]; intros b; cbn [run_events].
  - destruct (Env.has_set_epoch E); reflexivity.
  - unfold set_epoch_calls in *. rewrite flat_map_app.
    fold (set_epoch_calls (epoch_events E a ep b)).
    rewrite set_epoch_calls_epoch, IH. destruct (Env.has_set_epoch E); reflexivity.
Qed.

Lemma train_calls_end_events ep : train_calls (epoch_end_events ep) = [].
Proof. reflexivity. Qed.

Lemma train_calls_validation E a ep b : train_calls (validation_events E a ep b) = [].
Proof.
  unfold validation_events.
  destruct (Env.is_local_master E); [|reflexivity].
  destruct (best_updated (Env.evaluate E ep) b); reflexivity.
Qed.

(** C6: in a run on which nothing raises, the driver returns, and its
    calls are those of the turns of the loop for
    [ep = start_ep, start_ep + 1, ..., args.ep - 1], in that order, followed
    by the closing calls; there is no turn when [start_ep >= args.ep]. Each
    turn starts with [set_epoch(ep)] when the sampler has that hook, and the
    [train_step] calls of the turn are all in the [train_one_ep] that comes
    after it. *)
Theorem epoch_driver_runs_epochs_in_order (E : Env.t) (a : Args.t) :
  normal E a ->
  let epochs := Py.range (Env.start_ep E) (Args.ep a) in
  result_of (main_training E a) = Ok (run_trackers E a epochs init_trackers)
  /\ trace_of (main_training E a)
     = turns epochs (epoch_body E a) (update_epoch E a) init_trackers ++ wrap_up_events
  /\ List.length epochs = Z.to_nat (Args.ep a - Env.start_ep E)
  /\ (forall k, (k < List.length epochs)%nat -> nth k epochs 0 = Env.start_ep E + Z.of_nat k)
  /\ (Args.ep a <= Env.start_ep E -> trace_of (main_training E a) = wrap_up_events)
  /\ set_epoch_calls (trace_of (main_training E a))
     = (if Env.has_set_epoch E then epochs else [])
  /\ (forall ep b, exists rest,
        trace_of (epoch_body E a ep b)
        = (if Env.has_set_epoch E then [SetEpoch ep] else [])
          ++ TbSetStep (ep * Env.iters_train E)
          :: trace_of (train_one_ep E a ep (start_of E ep)) ++ rest
        /\ train_calls rest = [] /\ set_epoch_calls rest = []).
Proof.
  intros Hn epochs. pose proof (main_training_normal E a Hn) as Hmain. fold epochs in Hmain.
  split; [rewrite Hmain; reflexivity|].
  split; [rewrite Hmain, turns_epochs by exact Hn; reflexivity|].
  split; [apply range_length|].
  split; [intros k Hk; apply range_nth; unfold epochs in Hk; now rewrite range_length in Hk|].
  split; [|split].
  - intros Hz. rewrite Hmain. unfold epochs. rewrite range_nil by exact Hz. reflexivity.
  - rewrite Hmain. cbn [trace_of fst]. unfold set_epoch_calls. rewrite flat_map_app.
    fold (set_epoch_calls (run_events E a epochs init_trackers)).
    rewrite set_epoch_calls_run. cbn. now rewrite app_nil_r.
  - intros ep b. rewrite epoch_body_trace. destruct Hn as (Hm & _). rewrite Hm.
    eexists. split; [reflexivity|].
    destruct (result_of (train_one_ep E a ep (start_of E ep))); [|split; reflexivity].
    unfold train_calls, set_epoch_calls. rewrite filter_app, flat_map_app.
    unfold validation_events.
    destruct (is_val_and_also_saving a ep); [|split; reflexivity].
    destruct (Env.is_local_master E); [|split; reflexivity].
    destruct (best_updated (Env.evaluate E ep) (update_train (Env.epoch_stats E ep) b));
      split; reflexivity.
Qed.

(** The forty-epoch run announces epochs 0 to 39 to the sampler, and a run
    resumed at its end has no turn. *)
Lemma epoch_driver_runs_epochs_in_order_rank0 :
  set_epoch_calls (trace_of (main_training rank0 args_40)) = Py.range 0 40
  /\ trace_of (main_training (with_start rank0 40 0) args_40) = wrap_up_events.
Proof.
  split.
  - exact (proj1 (proj2 (proj2 (proj2 (proj2 (proj2
             (epoch_driver_runs_epochs_in_order rank0 args_40 normal_rank0))))))).
  - apply (epoch_driver_runs_epochs_in_order (with_start rank0 40 0) args_40).
    + repeat split. discriminate.
    + cbn. lia.
Defined.

(** ** Resuming *)

Lemma filter_from_range s n : filter (fun it => negb (it <? s)) (Py.range s n) = Py.range s n.
Proof.
  apply filter_all, Forall_forall. intros it H. apply range_In in H.
  apply negb_true_iff, Z.ltb_ge. lia.
Qed.

Lemma filter_from_range_0 s n :
  0 <= s -> filter (fun it => negb (it <? s)) (Py.range 0 n) = Py.range s n.
Proof.
  intros Hs. destruct (Z_le_gt_dec s n) as [H|H].
  - rewrite (range_app 0 s n) by lia. rewrite filter_app, filter_from_range.
    rewrite filter_none; [reflexivity|].
    apply Forall_forall. intros it Hit. apply range_In in Hit.
    apply negb_false_iff, Z.ltb_lt. lia.
  - rewrite (range_nil s n) by lia. apply filter_none.
    apply Forall_forall. intros it Hit. apply range_In in Hit.
    apply negb_false_iff, Z.ltb_lt. lia.
Qed.

Lemma train_calls_iter E a ep it : train_calls (iter_events E a ep it) = [train_call E a ep it].
Proof.
  unfold iter_events, train_call. destruct (Py.Qltb 0 (Args.tclip a)); reflexivity.
Qed.

Lemma train_calls_epoch_train E a ep s :
  counts_batches E -> 0 <= s ->
  train_calls (epoch_train_events E a ep s)
  = map (train_call E a ep) (Py.range s (Env.iters_train E)).
Proof.
  intros Hc Hs. unfold epoch_train_events, train_calls.
  rewrite filter_app, filter_flat_map. cbn [filter is_train_step]. rewrite app_nil_r.
  rewrite (flat_map_ext _ (fun it => if negb (it <? s) then [train_call E a ep it] else [])).
  - rewrite flat_map_singleton. f_equal.
    destruct (Hc s (Env.iters_train E)) as [-> | ->];
      [apply filter_from_range|apply filter_from_range_0; exact Hs].
  - intros it. destruct (it <? s); [reflexivity|]. apply train_calls_iter.
Qed.

Lemma train_calls_epoch E a ep b :
  counts_batches E -> 0 <= start_of E ep ->
  train_calls (epoch_events E a ep b)
  = map (train_call E a ep) (Py.range (start_of E ep) (Env.iters_train E)).
Proof.
  intros Hc Hs. unfold epoch_events, train_calls.
  rewrite filter_app. cbn [filter is_train_step]. rewrite !filter_app.
  fold (train_calls (epoch_train_events E a ep (start_of E ep))).
  rewrite train_calls_epoch_train by assumption.
  fold (train_calls (epoch_end_events ep)). rewrite train_calls_end_events.
  destruct (Env.has_set_epoch E), (is_val_and_also_saving a ep); cbn [filter app];
    rewrite ?app_nil_r; try reflexivity;
    fold (train_calls (validation_events E a ep (update_train (Env.epoch_stats E ep) b)));
    rewrite train_calls_validation; now rewrite app_nil_r.
Qed.

Lemma train_calls_run E a l :
  counts_batches E -> (forall ep, In ep l -> 0 <= start_of E ep) -> forall b,
  train_calls (run_events E a l b)
  = flat_map (fun ep => map (train_call E a ep) (Py.range (start_of E ep) (Env.iters_train E))) l.
Proof.
  intros Hc. induction l as [|ep l IH]; intros Hs b; cbn [run_events flat_map]; [reflexivity|].
  unfold train_calls in *. rewrite filter_app. fold (train_calls (epoch_events E a ep b)).
  rewrite train_calls_epoch by (try assumption; apply Hs; left; reflexivity).
  rewrite IH by (intros; apply Hs; right; assumption). reflexivity.
Qed.

Lemma train_calls_main E a :
  normal E a -> counts_batches E -> 0 <= Env.start_it E ->
  train_calls (trace_of (main_training E a))
  = flat_map (fun ep => map (train_call E a ep) (Py.range (start_of E ep) (Env.iters_train E)))
             (Py.range (Env.start_ep E) (Args.ep a)).
Proof.
  intros Hn Hc Hs. rewrite main_training_normal by exact Hn. cbn [trace_of fst].
  unfold train_calls. rewrite filter_app. cbn [filter wrap_up_events is_train_step].
  rewrite app_nil_r. apply train_calls_run; [exact Hc|].
  intros ep _. unfold start_of. destruct (ep =? Env.start_ep E); lia.
Qed.

Lemma length_full_epochs {B} (f : Z -> Z -> B) n l :
  List.length (flat_map (fun ep => map (f ep) (Py.range 0 n)) l)
  = (List.length l * Z.to_nat n)%nat.
Proof.
  induction l as [|ep l IH]; cbn [flat_map List.length]; [reflexivity|].
  rewrite length_app, length_map, range_length, IH. rewrite Z.sub_0_r. lia.
Qed.

Lemma skipn_exact {A} (x y : list A) k : List.length x = k -> skipn k (x ++ y) = y.
Proof.
  intros <-. rewrite skipn_app, skipn_all, Nat.sub_diag. reflexivity.
Qed.

Lemma flat_map_ext_in {A B} (f g : A -> list B) l :
  (forall x, In x l -> f x = g x) -> flat_map f l = flat_map g l.
Proof.
  intros H. rewrite !flat_map_concat_map. f_equal. apply map_ext_in. exact H.
Qed.

Lemma normal_with_start E a ep it : normal E a -> normal (with_start E ep it) a.
Proof. intros H. exact H. Qed.

Lemma counts_batches_with_start E ep it : counts_batches E -> counts_batches (with_start E ep it).
Proof. intros H. exact H. Qed.

(** C2: in a run on which nothing raises, resumed at [(start_ep, start_it)]
    with [0 <= start_ep] and [0 <= start_it <= iters_train]: [train_one_ep]
    started at [s] calls [train_step] for the iterations [s, ..., iters_train - 1]
    and no other; the run does so from [start_it] in epoch [start_ep] and
    from 0 in every later epoch; and its [train_step] calls, arguments
    included, are those of the run started at (0, 0) without the first
    [start_ep * iters_train + start_it] of them. *)
Theorem resumed_run_continues_uninterrupted_run (E : Env.t) (a : Args.t) :
  normal E a -> counts_batches E ->
  0 <= Env.start_ep E -> 0 <= Env.start_it E <= Env.iters_train E ->
  (forall ep s, 0 <= s ->
     train_calls (trace_of (train_one_ep E a ep s))
     = map (train_call E a ep) (Py.range s (Env.iters_train E)))
  /\ train_calls (trace_of (main_training E a))
     = flat_map (fun ep => map (train_call E a ep)
                               (Py.range (if ep =? Env.start_ep E then Env.start_it E else 0)
                                         (Env.iters_train E)))
                (Py.range (Env.start_ep E) (Args.ep a))
  /\ train_calls (trace_of (main_training E a))
     = skipn (Z.to_nat (Env.start_ep E * Env.iters_train E + Env.start_it E))
             (train_calls (trace_of (main_training (with_start E 0 0) a))).
Proof.
  intros Hn Hc Hep Hit.
  split; [|split].
  - intros ep s Hs. destruct (train_one_ep_normal E a ep s Hn) as [k ->].
    cbn [trace_of fst]. apply train_calls_epoch_train; assumption.
  - apply train_calls_main; [assumption..|lia].
  - rewrite train_calls_main by (try assumption; lia).
    rewrite (train_calls_main (with_start E 0 0) a)
      by (try apply normal_with_start; try apply counts_batches_with_start;
          try assumption; cbn; lia).
    change (Env.iters_train (with_start E 0 0)) with (Env.iters_train E).
    change (Env.start_ep (with_start E 0 0)) with 0.
    set (n := Env.iters_train E) in *. set (se := Env.start_ep E) in *.
    set (si := Env.start_it E) in *.
    set (tc := train_call E a).
    change (train_call (with_start E 0 0) a) with tc.
    rewrite (flat_map_ext (fun ep => map (tc ep) (Py.range (start_of (with_start E 0 0) ep) n))
                          (fun ep => map (tc ep) (Py.range 0 n)))
      by (intros ep; unfold start_of; cbn; destruct (ep =? 0); reflexivity).
    destruct (Z_lt_ge_dec se (Args.ep a)) as [Hlt|Hge].
    + rewrite (range_app 0 se (Args.ep a)) by lia.
      rewrite (range_cons se (Args.ep a)) by lia.
      rewrite flat_map_app. cbn [flat_map].
      replace (map (tc se) (Py.range 0 n))
        with (map (tc se) (Py.range 0 si) ++ map (tc se) (Py.range si n))
        by (rewrite <- map_app, <- range_app by lia; reflexivity).
      rewrite <- app_assoc, app_assoc.
      rewrite skipn_exact.
      * f_equal.
        -- unfold start_of. fold se si. now rewrite Z.eqb_refl.
        -- apply flat_map_ext_in. intros ep Hin. apply range_In in Hin.
           unfold start_of. fold se si.
           destruct (ep =? se) eqn:C; [apply Z.eqb_eq in C; lia|reflexivity].
      * rewrite length_app, length_full_epochs, length_map, !range_length.
        rewrite !Z.sub_0_r. rewrite Z2Nat.inj_add, Z2Nat.inj_mul by nia. reflexivity.
    + rewrite (range_nil se (Args.ep a)) by lia. cbn [flat_map].
      symmetry. apply skipn_all2.
      rewrite length_full_epochs, range_length, Z.sub_0_r.
      destruct (Z_le_gt_dec (Args.ep a) 0) as [Hz|Hz].
      * replace (Z.to_nat (Args.ep a)) with 0%nat by lia. lia.
      * rewrite <- Z2Nat.inj_mul by lia. apply Z2Nat.inj_le; nia.
Qed.

(** The forty-epoch run resumed in epoch 20, after its first batch. *)
Lemma resumed_run_continues_uninterrupted_run_rank0 :
  train_calls (trace_of (main_training (with_start rank0 20 1) args_40))
  = skipn 61 (train_calls (trace_of (main_training rank0 args_40)))
  /\ List.length (train_calls (trace_of (main_training (with_start rank0 20 1) args_40))) = 59%nat.
Proof.
  assert (H : train_calls (trace_of (main_training (with_start rank0 20 1) args_40))
              = skipn 61 (train_calls (trace_of (main_training rank0 args_40)))).
  { apply (resumed_run_continues_uninterrupted_run (with_start rank0 20 1) args_40).
    - repeat split. discriminate.
    - intros s n. left. reflexivity.
    - cbn. lia.
    - cbn. lia. }
  split; [exact H|]. vm_compute. reflexivity.
Defined.

(** ** Global step and accumulation *)

Lemma map_shift_range c s n : map (fun it => c + it) (Py.range s n) = Py.range (c + s) (c + n).
Proof.
  unfold Py.range. rewrite map_map. replace (c + n - (c + s)) with (n - s) by lia.
  apply map_ext. intros k. lia.
Qed.

Lemma steps_of_full_epochs n k : 0 <= n -> forall e,
  flat_map (fun ep => map (fun it => ep * n + it) (Py.range 0 n))
           (map (fun i => e + Z.of_nat i) (seq 0 k))
  = Py.range (e * n) ((e + Z.of_nat k) * n).
Proof.
  intros Hn. induction k as [|k IH]; intros e.
  - cbn [seq map flat_map]. rewrite range_nil by lia. reflexivity.
  - cbn [seq map flat_map]. rewrite <- seq_shift, map_map.
    rewrite (map_ext _ (fun i => (e + 1) + Z.of_nat i)) by (intros; lia).
    rewrite IH, map_shift_range.
    rewrite (range_app (e * n) ((e + 1) * n) ((e + Z.of_nat (S k)) * n)) by nia.
    f_equal; f_equal; lia.
Qed.

Lemma steps_of_epochs n e T : 0 <= n ->
  flat_map (fun ep => map (fun it => ep * n + it) (Py.range 0 n)) (Py.range e T)
  = Py.range (e * n) (Z.max e T * n).
Proof.
  intros Hn. unfold Py.range at 2. rewrite steps_of_full_epochs by exact Hn.
  f_equal. f_equal. lia.
Qed.

Lemma map_flat_map {A B C} (f : B -> C) (g : A -> list B) l :
  map f (flat_map g l) = flat_map (fun x => map f (g x)) l.
Proof.
  induction l as [|x l IH]; cbn [flat_map map]; [reflexivity|]. now rewrite map_app, IH.
Qed.

(** The global steps of the [train_step] calls of a run are consecutive. *)
Lemma steps_of_run E a :
  normal E a -> counts_batches E ->
  0 <= Env.start_ep E -> 0 <= Env.start_it E <= Env.iters_train E ->
  map step_of (train_calls (trace_of (main_training E a)))
  = map (fun g => (g, stepping_val a g))
        (Py.range (Env.start_ep E * Env.iters_train E + Env.start_it E)
                  (Args.ep a * Env.iters_train E)).
Proof.
  intros Hn Hc Hep Hit. rewrite train_calls_main by (try assumption; lia).
  set (n := Env.iters_train E) in *. set (se := Env.start_ep E) in *.
  set (si := Env.start_it E) in *.
  rewrite map_flat_map.
  rewrite (flat_map_ext _ (fun ep => map (fun g => (g, stepping_val a g))
                                         (map (fun it => ep * n + it) (Py.range (start_of E ep) n))))
    by (intros ep; rewrite !map_map; reflexivity).
  rewrite <- map_flat_map. f_equal.
  destruct (Z_lt_ge_dec se (Args.ep a)) as [Hlt|Hge].
  - rewrite (range_cons se (Args.ep a)) by lia. cbn [flat_map].
    rewrite (flat_map_ext_in _ (fun ep => map (fun it => ep * n + it) (Py.range 0 n))
                             (Py.range (se + 1) (Args.ep a))).
    + rewrite steps_of_epochs by lia.
      replace (Z.max (se + 1) (Args.ep a)) with (Args.ep a) by lia.
      unfold start_of. fold se si. rewrite Z.eqb_refl.
      rewrite map_shift_range.
      rewrite (range_app (se * n + si) (se * n + n) (Args.ep a * n)) by nia.
      f_equal. f_equal; lia.
    + intros ep Hin. apply range_In in Hin. unfold start_of. fold se.
      destruct (ep =? se) eqn:C; [apply Z.eqb_eq in C; lia|reflexivity].
  - rewrite (range_nil se (Args.ep a)) by lia. cbn [flat_map].
    rewrite range_nil by nia. reflexivity.
Qed.

Lemma stepping_window a w j :
  0 <= j < Args.ac a -> stepping a (w * Args.ac a + j) = Ok (j =? Args.ac a - 1).
Proof.
  intros Hj. rewrite stepping_normal by lia. unfold stepping_val. f_equal.
  replace (w * Args.ac a + j + 1) with ((j + 1) + w * Args.ac a) by lia.
  rewrite Z.mod_add by lia.
  destruct (Z.eq_dec j (Args.ac a - 1)) as [->|Hne].
  - replace (Args.ac a - 1 + 1) with (Args.ac a) by lia.
    rewrite Z.mod_same by lia. rewrite !Z.eqb_refl. reflexivity.
  - rewrite Z.mod_small by lia.
    destruct (j + 1 =? 0) eqn:C1; destruct (j =? Args.ac a - 1) eqn:C2; try reflexivity; lia.
Qed.

Lemma stepping_ok_inv a g st :
  stepping a g = Ok st -> Args.ac a <> 0 /\ (st = true <-> (g + 1) mod Args.ac a = 0).
Proof.
  unfold stepping, Py.mod_. destruct (Args.ac a =? 0) eqn:C; [discriminate|].
  intros H. injection H as <-. split; [apply Z.eqb_neq; exact C|apply Z.eqb_eq].
Qed.

(** C4: in any run, every [train_step] call has [stepping] true exactly
    when [(g_it + 1) % args.ac == 0], at the global step
    [g_it = ep * iters_train + it] of an epoch [ep] of the run. With
    [args.ac > 0], in the window [w * args.ac, ..., w * args.ac + args.ac - 1]
    the flag is true at the last step only. In a run on which nothing raises,
    the calls are made at consecutive global steps, from the start position
    to the last step of the last epoch, so that each window the run goes
    through whole has one stepping call, its last. *)
Theorem stepping_closes_accumulation_window (E : Env.t) (a : Args.t) :
  0 < Args.ac a ->
  Forall (fun e =>
            match e with
            | TrainStep it g st _ _ =>
                (st = true <-> (g + 1) mod Args.ac a = 0) /\
                exists ep, In ep (Py.range (Env.start_ep E) (Args.ep a)) /\
                           g = ep * Env.iters_train E + it
            | _ => True
            end)
         (trace_of (main_training E a))
  /\ (forall w j, 0 <= j < Args.ac a ->
        stepping a (w * Args.ac a + j) = Ok (j =? Args.ac a - 1))
  /\ (normal E a -> counts_batches E ->
      0 <= Env.start_ep E -> 0 <= Env.start_it E <= Env.iters_train E ->
      map step_of (train_calls (trace_of (main_training E a)))
      = map (fun g => (g, (g + 1) mod Args.ac a =? 0))
            (Py.range (Env.start_ep E * Env.iters_train E + Env.start_it E)
                      (Args.ep a * Env.iters_train E))).
Proof.
  intros Hac. split; [|split].
  - eapply Forall_impl; [|apply main_training_events].
    intros [| | |it g st si w| | | | | | | | | | |] H; try exact I.
    destruct H as (ep & Hin & _ & _ & Hg & Hst & _); [left; reflexivity|].
    split; [apply (stepping_ok_inv _ _ _ Hst)|eauto].
  - apply stepping_window.
  - apply steps_of_run.
Qed.

(** Accumulating over two steps in the forty-epoch run: the flags of the
    first six calls. *)
Lemma stepping_closes_accumulation_window_rank0 :
  firstn 6 (map step_of (train_calls (trace_of (main_training rank0 args_40))))
  = [(0, false); (1, true); (2, false); (3, true); (4, false); (5, true)].
Proof.
  destruct (stepping_closes_accumulation_window rank0 args_40 ltac:(reflexivity))
    as (_ & _ & H).
  rewrite H.
  - vm_compute. reflexivity.
  - exact normal_rank0.
  - exact counts_batches_rank0.
  - cbn. lia.
  - cbn. lia.
Defined.

Lemma train_iter_trace E a ep it st0 :
  exists rest,
    trace_of (train_iter E a ep it st0)
    = LrWdAnnealing (ep * Env.iters_train E + it) (wp_it a (Env.iters_train E))
                    (max_it a (Env.iters_train E)) :: rest
    /\ Forall (fun e =>
                 match e with
                 | TrainStep it' g _ _ _ => it' = it /\ g = ep * Env.iters_train E + it
                 | LrWdAnnealing _ _ _ => False
                 | _ => True
                 end) rest.
Proof.
  unfold train_iter. rewrite bind_emit. cbn [trace_of fst].
  eexists. split; [reflexivity|].
  trace_forall; try exact I. split; reflexivity.
Qed.

(** C7: in every turn [ep] of the epoch loop, the global step handed to
    [lr_wd_annealing] and to [train_step] is [ep * iters_train + it] for an
    iteration [it] that [log_every] yielded and that was not skipped; the
    two calls of one iteration get the same step, the scheduler first; so it
    is for every such call of a run, for an epoch of the run. When
    [log_every] counts the batches, [it] is below [iters_train], so that the
    step determines the epoch and the iteration. *)
Theorem global_step_is_training_position (E : Env.t) (a : Args.t) :
  (forall ep b,
     Forall (epoch_event_ok E a ep (start_of E ep)) (trace_of (epoch_body E a ep b)))
  /\ (forall ep it st0, exists rest,
        trace_of (train_iter E a ep it st0)
        = LrWdAnnealing (ep * Env.iters_train E + it) (wp_it a (Env.iters_train E))
                        (max_it a (Env.iters_train E)) :: rest
        /\ Forall (fun e =>
                     match e with
                     | TrainStep it' g _ _ _ => it' = it /\ g = ep * Env.iters_train E + it
                     | LrWdAnnealing _ _ _ => False
                     | _ => True
                     end) rest)
  /\ Forall (fun e =>
               match e with
               | TrainStep it g _ _ _ =>
                   exists ep, In ep (Py.range (Env.start_ep E) (Args.ep a)) /\
                              g = ep * Env.iters_train E + it
               | LrWdAnnealing g _ _ =>
                   exists ep it, In ep (Py.range (Env.start_ep E) (Args.ep a)) /\
                                 In it (Env.log_every E (start_of E ep) (Env.iters_train E)) /\
                                 start_of E ep <= it /\
                                 g = ep * Env.iters_train E + it
               | _ => True
               end)
            (trace_of (main_training E a))
  /\ (counts_batches E -> forall ep s it,
        0 <= s -> In it (Env.log_every E s (Env.iters_train E)) -> s <= it ->
        (ep * Env.iters_train E + it) / Env.iters_train E = ep /\
        (ep * Env.iters_train E + it) mod Env.iters_train E = it).
Proof.
  split; [intros; apply epoch_body_events|].
  split; [intros; apply train_iter_trace|].
  split.
  - eapply Forall_impl; [|apply main_training_events].
    intros [| |g w m|it g st si w| | | | | | | | | | |] H; try exact I.
    + destruct H as (ep & Hin & ((it & Hit & Hs & Hg) & _)); [right; eauto|]. eauto 6.
    + destruct H as (ep & Hin & _ & _ & Hg & _); [left; reflexivity|]. eauto.
  - intros Hc ep s it Hs Hin Hle.
    assert (Hr : 0 <= it < Env.iters_train E).
    { destruct (Hc s (Env.iters_train E)) as [H|H]; rewrite H in Hin;
        apply range_In in Hin; lia. }
    rewrite Z.add_comm, Z.div_add, Z.mod_add, Z.div_small, Z.mod_small by lia.
    split; reflexivity.
Qed.

(** The first iteration of epoch 2 of the forty-epoch run is at step 6. *)
Lemma global_step_is_training_position_rank0 :
  nth 1 (trace_of (train_iter rank0 args_40 2 0 {| g_it := 6; step_cnt := 0 |})) Barrier
  = TrainStep 0 6 false (-1) (3 # 300)
  /\ (2 * 3 + 0) / 3 = 2 /\ (2 * 3 + 0) mod 3 = 0.
Proof.
  split; [vm_compute; reflexivity|].
  apply (proj2 (proj2 (proj2 (global_step_is_training_position rank0 args_40)))
               counts_batches_rank0 2 0 0).
  - lia.
  - vm_compute. tauto.
  - lia.
Defined.

(** ** Leaving the program *)

Lemma epoch_body_result_cases E a ep b :
  result_of (epoch_body E a ep b) =
  if Env.is_master E
  then match result_of (train_one_ep E a ep (start_of E ep)) with
       | Ok _ => Ok (update_epoch E a ep b)
       | Raise e => Raise e
       end
  else Raise AttributeError.
Proof.
  unfold epoch_body, tb, update_epoch.
  pose proof (train_one_ep_result E a ep (start_of E ep)) as Hr.
  destruct (train_one_ep E a ep (start_of E ep)) as [t [r|e]];
    cbn [trace_of result_of fst snd] in *.
  - rewrite <- (Hr r eq_refl).
    destruct (Env.has_set_epoch E), (Env.is_master E);
      cbv beta iota delta [bind emit ret raise fst]; try reflexivity;
      rewrite validate_and_save_eq; reflexivity.
  - destruct (Env.has_set_epoch E), (Env.is_master E); reflexivity.
Qed.

Lemma wrap_up_master E : Env.is_master E = true -> wrap_up E = (wrap_up_events, Ok tt).
Proof. intros Hm. unfold wrap_up, tb. rewrite Hm. reflexivity. Qed.

(** Without the logger, no call reaches the telemetry sink. *)

Lemma no_close_in_epochs E a l b :
  Forall (fun e => e <> TbClose) (trace_of (for_ l (epoch_body E a) b)).
Proof.
  apply Forall_for_const. intros ep b'. rewrite epoch_body_trace.
  apply Forall_app. split; [destruct (Env.has_set_epoch E); repeat constructor; discriminate|].
  destruct (Env.is_master E); [|constructor].
  constructor; [discriminate|]. apply Forall_app. split.
  - eapply Forall_impl; [|apply train_one_ep_training]. intros e He ->. discriminate.
  - destruct (result_of (train_one_ep E a ep (start_of E ep))); [|constructor].
    unfold validation_events, epoch_end_events.
    destruct (is_val_and_also_saving a ep), (Env.is_local_master E);
      try destruct (best_updated (Env.evaluate E ep) (update_train (Env.epoch_stats E ep) b'));
      repeat constructor; discriminate.
Qed.

(** The driver closes the sink only after the epoch loop has returned, and
    then its calls end with those of lines 331-332. *)
Lemma main_training_close E a :
  In TbClose (trace_of (main_training E a)) ->
  exists b,
    result_of (for_ (Py.range (Env.start_ep E) (Args.ep a)) (epoch_body E a) init_trackers)
    = Ok b
    /\ trace_of (main_training E a)
       = trace_of (for_ (Py.range (Env.start_ep E) (Args.ep a)) (epoch_body E a)
                        init_trackers)
         ++ [DumpLog; TbFlush; TbClose; Barrier].
Proof.
  unfold main_training. rewrite trace_bind. intros Hin.
  apply in_app_or in Hin. destruct Hin as [Hin|Hin].
  { exfalso.
    pose proof (no_close_in_epochs E a (Py.range (Env.start_ep E) (Args.ep a)) init_trackers)
      as H.
    rewrite Forall_forall in H. exact (H _ Hin eq_refl). }
  destruct (result_of (for_ (Py.range (Env.start_ep E) (Args.ep a)) (epoch_body E a)
                            init_trackers)) as [b|e]; [|destruct Hin].
  exists b. split; [reflexivity|]. f_equal.
  destruct (Env.is_master E) eqn:Hm.
  - rewrite wrap_up_master by exact Hm. reflexivity.
  - exfalso. unfold wrap_up, tb in Hin. rewrite Hm in Hin.
    cbn in Hin. intuition discriminate.
Qed.

Lemma main_training_returns E a b :
  result_of (main_training E a) = Ok b ->
  exists t, trace_of (main_training E a) = t ++ [DumpLog; TbFlush; TbClose; Barrier].
Proof.
  intros Hb. unfold main_training in *. rewrite result_bind in Hb. rewrite trace_bind.
  destruct (result_of (for_ (Py.range (Env.start_ep E) (Args.ep a)) (epoch_body E a)
                            init_trackers)) as [b'|e']; [|discriminate].
  destruct (Env.is_master E) eqn:Hm.
  - rewrite wrap_up_master by exact Hm.
    cbv beta iota delta [bind ret trace_of fst]. rewrite ?app_nil_r. eauto.
  - unfold wrap_up, tb in Hb. rewrite Hm in Hb. discriminate.
Qed.

(** A turn of the epoch loop that returns ends with its only flush. *)
Lemma epoch_body_flush E a ep b b' :
  result_of (epoch_body E a ep b) = Ok b' ->
  exists t, trace_of (epoch_body E a ep b) = t ++ [TbFlush]
            /\ Forall (fun e => is_flush_or_close e = false) t.
Proof.
  intros Hr. rewrite epoch_body_result_cases in Hr. rewrite epoch_body_trace.
  destruct (Env.is_master E); [|discriminate].
  pose proof (train_one_ep_training E a ep (start_of E ep)) as Ht.
  destruct (result_of (train_one_ep E a ep (start_of E ep))) as [r|e]; [|discriminate].
  unfold epoch_end_events.
  exists ((if Env.has_set_epoch E then [SetEpoch ep] else [])
          ++ TbSetStep (ep * Env.iters_train E)
          :: trace_of (train_one_ep E a ep (start_of E ep))
          ++ (if is_val_and_also_saving a ep
              then validation_events E a ep (update_train (Env.epoch_stats E ep) b)
              else [])
          ++ [TbUpdate "AR_ep_loss" (Some (ep + 1)); TbUpdate "AR_z_burnout" (Some (ep + 1));
              DumpLog]).
  split.
  - rewrite <- !app_assoc. cbn [app]. rewrite <- !app_assoc. reflexivity.
  - apply Forall_app. split; [destruct (Env.has_set_epoch E); repeat constructor|].
    constructor; [reflexivity|]. apply Forall_app. split.
    + eapply Forall_impl; [|exact Ht]. intros e He. destruct e; try reflexivity; discriminate.
    + apply Forall_app. split; [|repeat constructor].
      unfold validation_events.
      destruct (is_val_and_also_saving a ep), (Env.is_local_master E);
        try destruct (best_updated (Env.evaluate E ep) (update_train (Env.epoch_stats E ep) b));
        repeat constructor.
Qed.

(** A turn that raises does not reach its flush. *)
Lemma epoch_body_no_flush E a ep b x :
  result_of (epoch_body E a ep b) = Raise x ->
  Forall (fun e => is_flush_or_close e = false) (trace_of (epoch_body E a ep b)).
Proof.
  intros Hr. rewrite epoch_body_result_cases in Hr. rewrite epoch_body_trace.
  apply Forall_app. split; [destruct (Env.has_set_epoch E); repeat constructor|].
  destruct (Env.is_master E); [|constructor].
  pose proof (train_one_ep_training E a ep (start_of E ep)) as Ht.
  destruct (result_of (train_one_ep E a ep (start_of E ep))) as [r|e]; [discriminate|].
  constructor; [reflexivity|]. rewrite app_nil_r.
  eapply Forall_impl; [|exact Ht]. intros e' He. destruct e'; try reflexivity; discriminate.
Qed.

Lemma in_firstn {A} (x : A) k l : In x (firstn k l) -> In x l.
Proof. intros H. rewrite <- (firstn_skipn k l). apply in_or_app. left. exact H. Qed.

(** A prefix that holds [x], of a list whose first [x] comes after [p]. *)
Lemma firstn_reaches {A} (x : A) k p r :
  In x (firstn k (p ++ x :: r)) -> ~ In x p ->
  firstn k (p ++ x :: r) = p ++ x :: firstn (k - List.length p - 1) r.
Proof.
  intros Hin Hp. rewrite firstn_app in *.
  destruct (Nat.le_gt_cases k (List.length p)) as [Hle|Hgt].
  - exfalso. replace (k - List.length p)%nat with 0%nat in Hin by lia.
    cbn [firstn] in Hin. rewrite app_nil_r in Hin. apply Hp. exact (in_firstn _ _ _ Hin).
  - rewrite firstn_all2 by lia.
    replace (k - List.length p - 1)%nat with (pred (k - List.length p)) by lia.
    destruct (k - List.length p)%nat eqn:Hj; [lia|]. reflexivity.
Qed.

(** C9, as found in the code: with a zero accumulation count the first
    iteration raises [ZeroDivisionError]; the program then finalizes the
    distributed context and closes the output streams, and never calls
    [tb_lg.flush()]. With a [train_step] that raises in the second epoch, the
    telemetry recorded after the flush that ended the first epoch is not
    flushed. *)
Lemma exception_path_does_not_flush :
  snd (main_program (build_args "adamw") world_single args_ac0 rank0 None)
  = Raises (RunError ZeroDivisionError) /\
  run_calls (fst (main_program (build_args "adamw") world_single args_ac0 rank0 None))
  = [SetEpoch 0; TbSetStep 0; LrWdAnnealing 0 (12 # 5) 120; Finalize; StdClose] /\
  ~ In (InRun TbFlush)
       (fst (main_program (build_args "adamw") world_single args_ac0 rank0 None)) /\
  snd (main_program (build_args "adamw") world_single args_40 rank0_failing None)
  = Raises (RunError (ExternalError 1)) /\
  after_last_flush
    (run_calls (fst (main_program (build_args "adamw") world_single args_40 rank0_failing None)))
  = [SetEpoch 1; TbSetStep 3] ++ iter_events rank0_failing args_40 1 0
    ++ [LrWdAnnealing 4 (12 # 5) 120; train_call rank0_failing args_40 1 1; Finalize; StdClose].
Proof.
  split; [vm_compute; reflexivity|].
  split; [vm_compute; reflexivity|]. split.
  - intros Hin.
    assert (H : In TbFlush
                  (run_calls (fst (main_program (build_args "adamw") world_single args_ac0
                                                rank0 None)))).
    { unfold run_calls. apply in_flat_map. exists (InRun TbFlush). split; [exact Hin|].
      left. reflexivity. }
    vm_compute in H. intuition discriminate.
  - split; vm_compute; reflexivity.
Qed.

(** C9, amended: however the [try] block is left, by [main_training]
    returning or by an exception raised at any point of it, the program then
    calls [dist.finalize()], closes the output streams when they are
    [SyncPrint]s, and does nothing else: the [finally] block neither flushes
    nor closes the telemetry sink. The sink is flushed by the last call of
    every turn of the epoch loop that completes, and by no other call of a
    turn, and flushed and closed in line 331, once the loop has completed: on
    a path that holds a
    [tb_lg.close()], the loop has returned and the calls made end with those
    of line 331, followed at most by the barrier of line 332; every other
    path leaves the sink open. When [main_training] returns, its last calls
    are those of lines 331 and 332. *)
Theorem finalize_on_every_exit_path (ba : Build.Args) (w : Build.World) (a : Args.t)
        (c : Env.t) (fault : option (nat * exn)) :
  let path := try_block ba w a c fault in
  main_program ba w a c fault
  = (fst path ++ InRun Finalize :: (if Env.sync_print c then [InRun StdClose] else []),
     snd path)
  /\ (In (InRun TbClose) (fst path) ->
      exists r b pre rest,
        snd (Build.build_everything ba w) = inr r
        /\ result_of (for_ (Py.range (Build.start_ep r) (Args.ep a))
                           (epoch_body (driver_env r w c) a) init_trackers) = Ok b
        /\ fst path = pre ++ [InRun DumpLog; InRun TbFlush; InRun TbClose] ++ rest
        /\ ~ In (InRun TbClose) pre
        /\ (rest = [] \/ rest = [InRun Barrier]))
  /\ (forall r ep b,
        snd (Build.build_everything ba w) = inr r ->
        match result_of (epoch_body (driver_env r w c) a ep b) with
        | Ok _ =>
            exists t, trace_of (epoch_body (driver_env r w c) a ep b) = t ++ [TbFlush]
                      /\ Forall (fun e => is_flush_or_close e = false) t
        | Raise _ =>
            Forall (fun e => is_flush_or_close e = false)
                   (trace_of (epoch_body (driver_env r w c) a ep b))
        end)
  /\ (snd path = Returns ->
      exists t, fst path = t ++ [InRun DumpLog; InRun TbFlush; InRun TbClose; InRun Barrier]).
Proof.
  intros path.
  set (prologue := [InitDistAndGetArgs; ParseKnownArgs]
                   ++ (if Build.local_debug ba then [SetDetectAnomaly] else [])).
  assert (Hpro : ~ In (InRun TbClose) prologue).
  { unfold prologue. destruct (Build.local_debug ba); cbn; intuition discriminate. }
  assert (Hbuild : forall t, ~ In (InRun TbClose) (map InBuild t)).
  { intros t H. apply in_map_iff in H. destruct H as (x & Hx & _). discriminate Hx. }
  assert (Hinj : forall e t, In (InRun e) (map InRun t) -> In e t).
  { intros e t H. apply in_map_iff in H. destruct H as (x & Hx & Hin).
    injection Hx as ->. exact Hin. }
  split; [|split; [|split]].
  - unfold main_program. fold path. destruct path as [t r]. cbn [fst snd]. f_equal.
    unfold finally_block. destruct (Env.sync_print c); reflexivity.
  - intros Hin.
    assert (Hbody : In (InRun TbClose) (fst (main_training_calls ba w a c))).
    { unfold path, try_block in Hin. destruct fault as [[k x]|]; [|exact Hin].
      cbn [interrupted fst] in Hin. exact (in_firstn _ _ _ Hin). }
    unfold path, try_block in Hin |- *.
    unfold main_training_calls, main_training_from in *. fold prologue in Hbody, Hin |- *.
    destruct (Build.build_everything ba w) as [tb [e|r]]; cbn [fst snd] in *.
    { exfalso. apply in_app_or in Hbody. destruct Hbody as [H|H];
        [exact (Hpro H)|exact (Hbuild _ H)]. }
    set (E := driver_env r w c) in *.
    apply in_app_or in Hbody. destruct Hbody as [H|H]; [contradiction|].
    apply in_app_or in H. destruct H as [H|H]; [exfalso; exact (Hbuild _ H)|].
    apply Hinj in H. destruct (main_training_close E a H) as (b & Hloop & Htr).
    set (loop := trace_of (for_ (Py.range (Env.start_ep E) (Args.ep a)) (epoch_body E a)
                                init_trackers)) in *.
    assert (Hnc : ~ In (InRun TbClose)
                    ((prologue ++ map InBuild tb ++ map InRun loop)
                     ++ [InRun DumpLog; InRun TbFlush])).
    { intros C. rewrite !in_app_iff in C. destruct C as [[C|[C|C]]|C].
      - exact (Hpro C).
      - exact (Hbuild _ C).
      - apply Hinj in C.
        pose proof (no_close_in_epochs E a (Py.range (Env.start_ep E) (Args.ep a))
                                       init_trackers) as Hf.
        rewrite Forall_forall in Hf. exact (Hf _ C eq_refl).
      - cbn in C. intuition discriminate. }
    assert (Hshape : prologue ++ map InBuild tb ++ map InRun (trace_of (main_training E a))
                     = ((prologue ++ map InBuild tb ++ map InRun loop)
                        ++ [InRun DumpLog; InRun TbFlush])
                       ++ InRun TbClose :: [InRun Barrier]).
    { rewrite Htr, map_app. cbn [map]. rewrite <- !app_assoc. reflexivity. }
    exists r, b, (prologue ++ map InBuild tb ++ map InRun loop).
    destruct fault as [[k x]|]; cbn [interrupted fst] in *.
    + rewrite Hshape in Hin |- *.
      rewrite (firstn_reaches _ _ _ _ Hin Hnc).
      exists (firstn (k - List.length ((prologue ++ map InBuild tb ++ map InRun loop)
                                       ++ [InRun DumpLog; InRun TbFlush]) - 1)
                     [InRun Barrier]).
      split; [reflexivity|]. split; [exact Hloop|].
      split; [rewrite <- !app_assoc; reflexivity|].
      split; [intros C; apply Hnc; apply in_or_app; left; exact C|].
      destruct (k - _ - 1)%nat; [left; reflexivity|right; cbn [firstn]; rewrite firstn_nil; reflexivity].
    + rewrite Hshape. exists [InRun Barrier].
      split; [reflexivity|]. split; [exact Hloop|].
      split; [rewrite <- !app_assoc; reflexivity|].
      split; [intros C; apply Hnc; apply in_or_app; left; exact C|].
      right. reflexivity.
  - intros r ep b _.
    destruct (result_of (epoch_body (driver_env r w c) a ep b)) as [b'|x] eqn:Hr.
    + exact (epoch_body_flush _ _ _ _ _ Hr).
    + exact (epoch_body_no_flush _ _ _ _ _ Hr).
  - unfold path, try_block. destruct fault as [[k x]|]; [discriminate|].
    unfold main_training_calls, main_training_from. fold prologue.
    destruct (Build.build_everything ba w) as [tb [e|r]]; cbn [fst snd]; [discriminate|].
    destruct (result_of (main_training (driver_env r w c) a)) as [b|x] eqn:Hr; [|discriminate].
    intros _. destruct (main_training_returns _ _ _ Hr) as [t Ht].
    exists (prologue ++ map InBuild tb ++ map InRun t).
    rewrite Ht, map_app. cbn [map]. rewrite <- !app_assoc. reflexivity.
Qed.

(** The forty-epoch run of a single process returns and ends with the
    flush, the close, the barrier, [dist.finalize()] and the closing of the
    streams. With a zero accumulation count the sink is never closed. *)
Lemma finalize_on_every_exit_path_rank0 :
  (exists t, fst (main_program (build_args "adamw") world_single args_40 rank0 None)
             = t ++ [InRun DumpLog; InRun TbFlush; InRun TbClose; InRun Barrier]
                 ++ [InRun Finalize; InRun StdClose])
  /\ ~ In (InRun TbClose)
          (fst (try_block (build_args "adamw") world_single args_ac0 rank0 None)).
Proof.
  destruct (finalize_on_every_exit_path (build_args "adamw") world_single args_40 rank0 None)
    as (Hp & _ & _ & Hret).
  destruct (finalize_on_every_exit_path (build_args "adamw") world_single args_ac0 rank0 None)
    as (_ & Hclose & _ & _).
  cbv zeta in *. split.
  - destruct Hret as [t Ht]; [vm_compute; reflexivity|].
    exists t. rewrite Hp, Ht, <- app_assoc. reflexivity.
  - intros Hin. destruct (Hclose Hin) as (r & b & _ & _ & Hb & Hloop & _).
    vm_compute in Hb. injection Hb as <-. vm_compute in Hloop. discriminate Hloop.
Defined.

(** ** Rounding in binary64 *)














(** ** The progressive stage in binary64 *)


Lemma all_from_spec (p : Z -> bool) : forall n a,
  F64.all_from n a p = true -> forall k, a <= k < a + Z.of_nat n -> p k = true.
Proof.
  induction n as [|n IH]; intros a H k Hk; [lia|].
  cbn [F64.all_from] in H. apply andb_prop in H. destruct H as [Ha Hn].
  destruct (Z.eq_dec k a) as [->|Hne]; [exact Ha|].
  apply (IH (a + 1) Hn). lia.
Qed.








(** ** The rank without a logger *)

(** X1: on a rank where [dist.is_master()] is false, [tb_lg] is [None], and
    [main_training] raises [AttributeError] at its first call on it: in line
    278 of the first turn of the loop, after the sampler's [set_epoch] at
    most, or in line 331 when there is no epoch to run. No [train_step] call
    is made. *)
Theorem rank_without_logger_raises (E : Env.t) (a : Args.t) :
  Env.is_master E = false ->
  result_of (main_training E a) = Raise AttributeError
  /\ trace_of (main_training E a)
     = (if Env.start_ep E <? Args.ep a
        then if Env.has_set_epoch E then [SetEpoch (Env.start_ep E)] else []
        else [DumpLog])
  /\ train_calls (trace_of (main_training E a)) = [].
Proof.
  intros Hm.
  assert (H : main_training E a
              = (if Env.start_ep E <? Args.ep a
                 then if Env.has_set_epoch E then [SetEpoch (Env.start_ep E)] else []
                 else [DumpLog],
                 Raise AttributeError)).
  { unfold main_training. destruct (Env.start_ep E <? Args.ep a) eqn:C.
    - apply Z.ltb_lt in C. rewrite range_cons by exact C. cbn [for_].
      rewrite (M_eta (epoch_body E a (Env.start_ep E) init_trackers)).
      rewrite epoch_body_trace, epoch_body_result_cases, Hm, app_nil_r. reflexivity.
    - apply Z.ltb_ge in C. rewrite range_nil by exact C.
      unfold wrap_up, tb. rewrite Hm. reflexivity. }
  rewrite H. cbn [trace_of result_of fst snd]. split; [reflexivity|]. split; [reflexivity|].
  destruct (Env.start_ep E <? Args.ep a), (Env.has_set_epoch E); reflexivity.
Qed.

(** The second rank of the forty-epoch run. *)
Lemma rank_without_logger_raises_rank1 :
  main_training rank1 args_40 = ([SetEpoch 0], Raise AttributeError).
Proof.
  destruct (rank_without_logger_raises rank1 args_40 eq_refl) as (Hr & Ht & _).
  rewrite (M_eta (main_training rank1 args_40)), Hr, Ht. reflexivity.
Defined.

(** ** The files a run leaves *)

Lemma files_after_writes fs t :
  files_after_trace fs t = files_after_trace fs (ckpt_writes t).
Proof.
  unfold files_after_trace, ckpt_writes. revert fs.
  induction t as [|e t IH]; intros fs; cbn [fold_left filter]; [reflexivity|].
  destruct e; cbn [is_ckpt_write fold_left apply_write]; apply IH.
Qed.

Lemma put_same fs p r : put fs p r p = Some r.
Proof. unfold put. now rewrite String.eqb_refl. Qed.

Lemma put_other fs p r q : q <> p -> put fs p r q = fs q.
Proof. unfold put. intros H. apply String.eqb_neq in H. now rewrite H. Qed.

(** Walking through the policy's writes: once the best loss so far is no
    longer the initial one, "best" holds the checkpoint of a validated epoch
    that has that loss. *)
Lemma best_file_after_policy E a l : forall (seen : Z -> Prop) fs best,
  (best = 999%float \/
   exists ep, seen ep /\ is_val_and_also_saving a ep = true /\
              fs (local_out_ckpt_best a) = Some (checkpoint_of ep) /\
              val_loss_tail (Env.evaluate E ep) = best) ->
  let best' := fold_left Py.min (val_values E a val_loss_tail l) best in
  let fs' := files_after_trace fs (expected_writes E a l best) in
  best' = 999%float \/
  exists ep, (seen ep \/ In ep l) /\ is_val_and_also_saving a ep = true /\
             fs' (local_out_ckpt_best a) = Some (checkpoint_of ep) /\
             val_loss_tail (Env.evaluate E ep) = best'.
Proof.
  unfold files_after_trace, val_values.
  induction l as [|ep l IH]; intros seen fs best Hinv; cbv zeta in *;
    cbn [expected_writes filter map fold_left].
  - destruct Hinv as [->|(ep & Hs & H)]; [left; reflexivity|right; exists ep; tauto].
  - destruct (is_val_and_also_saving a ep) eqn:Hs.
    + cbn [map fold_left app apply_write]. rewrite fold_left_app.
      set (v := val_loss_tail (Env.evaluate E ep)).
      set (fs1 := put fs (local_out_ckpt a) (checkpoint_of ep)).
      set (fs2 := fold_left apply_write
                    (if (v <? best)%float
                     then [ShutilCopy (local_out_ckpt a) (local_out_ckpt_best a)]
                     else []) fs1).
      assert (Hstep :
        Py.min best v = 999%float \/
        exists ep', (seen ep' \/ ep' = ep) /\ is_val_and_also_saving a ep' = true /\
                    fs2 (local_out_ckpt_best a) = Some (checkpoint_of ep') /\
                    val_loss_tail (Env.evaluate E ep') = Py.min best v).
      { unfold fs2, Py.min. destruct (v <? best)%float eqn:Hlt.
        - right. exists ep. cbn [fold_left apply_write]. unfold fs1.
          rewrite put_same, put_same. auto.
        - destruct Hinv as [->|(ep' & Hin & Hs' & Hf & Hv')]; [left; reflexivity|].
          right. exists ep'. cbn [fold_left]. unfold fs1.
          rewrite put_other by (apply not_eq_sym, last_is_not_best). auto. }
      destruct (IH (fun x => seen x \/ x = ep) fs2 (Py.min best v) Hstep)
        as [H|(ep' & Hin & H)]; [left; exact H|].
      right. exists ep'. split; [|exact H]. cbn [In]. intuition auto.
    + destruct (IH seen fs best Hinv) as [H|(ep' & Hin & H)]; [left; exact H|].
      right. exists ep'. split; [|exact H]. cbn [In]. tauto.
Qed.

Lemma writes_training_nowhere_but_last_and_best E a :
  Forall (fun e => match e with
                   | TorchSave _ p => p = local_out_ckpt a
                   | ShutilCopy src dst => src = local_out_ckpt a /\ dst = local_out_ckpt_best a
                   | _ => True
                   end)
         (trace_of (main_training E a)).
Proof.
  unfold main_training. apply Forall_bind.
  - apply Forall_for_const. intros ep b. rewrite epoch_body_trace.
    apply Forall_app. split; [destruct (Env.has_set_epoch E); repeat constructor|].
    destruct (Env.is_master E); [|constructor].
    constructor; [exact I|]. apply Forall_app. split.
    + eapply Forall_impl; [|apply train_one_ep_training]. intros e He.
      destruct e; try exact I; discriminate.
    + destruct (result_of (train_one_ep E a ep (start_of E ep))); [|constructor].
      unfold validation_events, epoch_end_events.
      destruct (is_val_and_also_saving a ep), (Env.is_local_master E);
        try destruct (best_updated (Env.evaluate E ep) (update_train (Env.epoch_stats E ep) b));
        repeat constructor.
  - intros b _. unfold wrap_up. trace_forall; exact I.
Qed.

(** X2: whatever the run, and whether it returns or raises, every
    [torch.save] call of the driver writes to the "last" path and every
    [shutil.copy] call copies "last" to the "best" path; the two paths,
    [os.path.join] of the output directory with the two file names, differ
    for every output directory. *)
Theorem two_checkpoint_files (E : Env.t) (a : Args.t) :
  Forall (fun e => match e with
                   | TorchSave _ p => p = local_out_ckpt a
                   | ShutilCopy src dst => src = local_out_ckpt a /\ dst = local_out_ckpt_best a
                   | _ => True
                   end)
         (trace_of (main_training E a))
  /\ local_out_ckpt a <> local_out_ckpt_best a
  /\ local_out_ckpt a
     = Py.path_join (Args.local_out_dir_path a) "ar-ckpt-last.pth"
  /\ local_out_ckpt_best a
     = Py.path_join (Args.local_out_dir_path a) "ar-ckpt-best.pth".
Proof.
  split; [apply writes_training_nowhere_but_last_and_best|].
  split; [apply last_is_not_best|]. split; reflexivity.
Qed.

(** X3: on the rank that writes, after a run on which nothing raises and in
    which some validation had a tail loss below 999, the "best" file holds
    the checkpoint of a validated epoch of the run whose validation tail
    loss is the final [best_val_loss_tail], a least element of 999 and of
    the validation tail losses of the run; this whatever the directory held
    before. *)
Theorem best_file_holds_least_loss (E : Env.t) (a : Args.t) (fs : files) (ep0 : Z) :
  normal E a -> Env.is_local_master E = true ->
  In ep0 (Py.range (Env.start_ep E) (Args.ep a)) ->
  is_val_and_also_saving a ep0 = true ->
  (val_loss_tail (Env.evaluate E ep0) <? 999)%float = true ->
  exists ep b,
    result_of (main_training E a) = Ok b /\
    In ep (Py.range (Env.start_ep E) (Args.ep a)) /\
    is_val_and_also_saving a ep = true /\
    files_after_trace fs (trace_of (main_training E a)) (local_out_ckpt_best a)
    = Some (checkpoint_of ep) /\
    val_loss_tail (Env.evaluate E ep) = best_val_loss_tail b /\
    is_min_of (best_val_loss_tail b)
              (999%float :: val_values E a val_loss_tail
                              (Py.range (Env.start_ep E) (Args.ep a))).
Proof.
  intros Hn Hl Hin Hs Hlt.
  set (l := Py.range (Env.start_ep E) (Args.ep a)) in *.
  pose proof (fold_min_is_min (val_values E a val_loss_tail l) 999%float) as Hmin.
  assert (Hb : best_val_loss_tail (run_trackers E a l init_trackers)
               = fold_left Py.min (val_values E a val_loss_tail l) 999%float)
    by (rewrite run_trackers_val_tail; reflexivity).
  assert (Hne : fold_left Py.min (val_values E a val_loss_tail l) 999%float <> 999%float).
  { intros C. destruct Hmin as [_ Hlb]. rewrite C in Hlb.
    rewrite Hlb in Hlt; [discriminate|]. right. unfold val_values.
    apply in_map_iff. exists ep0. split; [reflexivity|]. apply filter_In. auto. }
  destruct (best_file_after_policy E a l (fun _ => False) fs 999%float (or_introl eq_refl))
    as [C|(ep & Hep & Hsv & Hf & Hv)]; [contradiction|].
  exists ep, (run_trackers E a l init_trackers).
  rewrite main_training_normal by exact Hn. cbn [trace_of result_of fst snd]. fold l.
  split; [reflexivity|]. split; [tauto|]. split; [exact Hsv|]. split; [|split].
  - rewrite files_after_writes. unfold ckpt_writes. rewrite filter_app.
    cbn [filter wrap_up_events is_ckpt_write]. rewrite app_nil_r.
    fold (ckpt_writes (run_events E a l init_trackers)).
    rewrite ckpt_writes_run by exact Hl. exact Hf.
  - rewrite Hb. exact Hv.
  - rewrite Hb. exact Hmin.
Qed.

(** The forty-epoch run leaves the checkpoint of epoch 39, of loss 1.2, in
    "best", in an empty directory as in one that held other files. *)
Lemma best_file_holds_least_loss_rank0 :
  files_after_trace no_files (trace_of (main_training rank0 args_40)) "out/ar-ckpt-best.pth"%string
  = Some (checkpoint_of 39)
  /\ exists ep b,
       result_of (main_training rank0 args_40) = Ok b /\
       files_after_trace (files_after args_40 9) (trace_of (main_training rank0 args_40))
                         (local_out_ckpt_best args_40)
       = Some (checkpoint_of ep) /\
       val_loss_tail (Env.evaluate rank0 ep) = best_val_loss_tail b.
Proof.
  split; [vm_compute; reflexivity|].
  destruct (best_file_holds_least_loss rank0 args_40 (files_after args_40 9) 9 normal_rank0)
    as (ep & b & Hr & _ & _ & Hf & Hv & _).
  - reflexivity.
  - vm_compute. tauto.
  - reflexivity.
  - reflexivity.
  - exists ep, b. auto.
Defined.

(** The two paths of the forty-epoch run. *)
Lemma two_checkpoint_files_rank0 :
  local_out_ckpt args_40 = "out/ar-ckpt-last.pth"%string
  /\ local_out_ckpt_best args_40 = "out/ar-ckpt-best.pth"%string
  /\ local_out_ckpt args_40 <> local_out_ckpt_best args_40.
Proof.
  destruct (two_checkpoint_files rank0 args_40) as (_ & Hne & Hl & Hb).
  split; [rewrite Hl; reflexivity|]. split; [rewrite Hb; reflexivity|exact Hne].
Defined.

(** * Further properties *)

(** ** The optimizer steps of a run *)

Lemma div_succ g c :
  0 < c -> (g + 1) / c = g / c + (if (g + 1) mod c =? 0 then 1 else 0).
Proof.
  intros Hc.
  pose proof (Z.div_mod g c ltac:(lia)) as Hg.
  pose proof (Z.mod_pos_bound g c Hc) as Hr.
  destruct (Z.eq_dec (g mod c + 1) c) as [E|NE].
  - assert (H1 : g + 1 = (g / c + 1) * c) by nia.
    rewrite H1, Z.div_mul, Z.mod_mul by lia. reflexivity.
  - assert (Hd : (g + 1) / c = g / c).
    { symmetry. apply (Z.div_unique (g + 1) c (g / c) (g mod c + 1)); lia. }
    assert (Hm : (g + 1) mod c = g mod c + 1).
    { symmetry. apply (Z.mod_unique (g + 1) c (g / c) (g mod c + 1)); lia. }
    rewrite Hd, Hm. destruct (g mod c + 1 =? 0) eqn:C; lia.
Qed.

Lemma count_closing_steps c g0 k :
  0 < c ->
  Z.of_nat (List.length (filter (fun g => (g + 1) mod c =? 0)
                                (Py.range g0 (g0 + Z.of_nat k))))
  = (g0 + Z.of_nat k) / c - g0 / c.
Proof.
  intros Hc. induction k as [|k IH].
  - rewrite Z.add_0_r, range_nil by lia. cbn. lia.
  - rewrite (range_app g0 (g0 + Z.of_nat k) (g0 + Z.of_nat (S k))) by lia.
    rewrite (range_cons (g0 + Z.of_nat k)) by lia.
    rewrite (range_nil (g0 + Z.of_nat k + 1)) by lia.
    rewrite filter_app, length_app, Nat2Z.inj_add, IH.
    replace (g0 + Z.of_nat (S k)) with (g0 + Z.of_nat k + 1) by lia.
    rewrite (div_succ (g0 + Z.of_nat k) c Hc). cbn [filter].
    destruct ((g0 + Z.of_nat k + 1) mod c =? 0); cbn [List.length]; lia.
Qed.

Lemma stepping_calls_of_steps t :
  List.length (stepping_calls t)
  = List.length (filter (fun p : Z * bool => snd p) (map step_of (train_calls t))).
Proof.
  unfold stepping_calls, train_calls.
  induction t as [|e t IH]; cbn [filter map]; [reflexivity|].
  destruct e as [| | |it g st si w| | | | | | | | | | |];
    cbn [is_stepping_call is_train_step filter map]; try exact IH.
  cbn [step_of snd]. destruct st; cbn [List.length]; now rewrite IH.
Qed.

Lemma filter_map_swap {A B} (f : A -> B) (p : B -> bool) l :
  filter p (map f l) = map f (filter (fun x => p (f x)) l).
Proof.
  induction l as [|x l IH]; cbn [map filter]; [reflexivity|].
  destruct (p (f x)); cbn [map]; now rewrite IH.
Qed.

(** X4: in a run on which nothing raises, with [args.ac > 0], started at
    the step [g0 = start_ep * iters_train + start_it] and ending before
    [max_it = args.ep * iters_train], the number of [train_step] calls with
    [stepping] true is [max_it // ac - g0 // ac]; and when [ac] does not
    divide [max_it], the last [max_it % ac] calls have [stepping] false:
    what they accumulate is never followed by a stepping call. *)
Theorem stepping_calls_of_run (E : Env.t) (a : Args.t) :
  normal E a -> counts_batches E -> 0 < Args.ac a ->
  0 <= Env.start_ep E -> 0 <= Env.start_it E <= Env.iters_train E ->
  Env.start_ep E * Env.iters_train E + Env.start_it E <= max_it a (Env.iters_train E) ->
  let g0 := Env.start_ep E * Env.iters_train E + Env.start_it E in
  let gN := max_it a (Env.iters_train E) in
  Z.of_nat (List.length (stepping_calls (trace_of (main_training E a))))
  = gN / Args.ac a - g0 / Args.ac a
  /\ Z.of_nat (List.length (train_calls (trace_of (main_training E a)))) = gN - g0
  /\ Forall (fun p : Z * bool => gN - gN mod Args.ac a <= fst p -> snd p = false)
            (map step_of (train_calls (trace_of (main_training E a)))).
Proof.
  intros Hn Hc Hac Hep Hit Hle g0 gN.
  pose proof (steps_of_run E a Hn Hc Hep Hit) as Hsteps.
  fold g0 in Hsteps. change (Args.ep a * Env.iters_train E) with gN in Hsteps.
  split; [|split].
  - rewrite stepping_calls_of_steps, Hsteps, filter_map_swap, length_map. cbn [snd].
    unfold stepping_val.
    replace gN with (g0 + Z.of_nat (Z.to_nat (gN - g0))) at 1 by lia.
    rewrite count_closing_steps by exact Hac.
    replace (g0 + Z.of_nat (Z.to_nat (gN - g0))) with gN by lia. reflexivity.
  - rewrite <- (length_map step_of), Hsteps, length_map, range_length. lia.
  - rewrite Hsteps. apply Forall_forall. intros p Hp.
    apply in_map_iff in Hp. destruct Hp as (g & <- & Hg). apply range_In in Hg.
    cbn [fst snd]. intros Hlast. unfold stepping_val. apply Z.eqb_neq. intros Hz.
    pose proof (Z.div_mod gN (Args.ac a) ltac:(lia)) as HN.
    pose proof (Z.mod_pos_bound gN (Args.ac a) Hac) as HrN.
    pose proof (Z.div_mod (g + 1) (Args.ac a) ltac:(lia)) as Hg1.
    rewrite Hz in Hg1.
    assert (gN / Args.ac a < (g + 1) / Args.ac a) by nia.
    nia.
Qed.

(** Accumulating over seven steps in the forty-epoch run of 120 steps:
    seventeen stepping calls, and none among the last call, at step 119. *)
Lemma stepping_calls_of_run_rank0 :
  List.length (stepping_calls (trace_of (main_training rank0 args_ac7))) = 17%nat
  /\ Forall (fun p : Z * bool => 119 <= fst p -> snd p = false)
            (map step_of (train_calls (trace_of (main_training rank0 args_ac7)))).
Proof.
  destruct (stepping_calls_of_run rank0 args_ac7) as (H1 & _ & H3).
  - repeat split. discriminate.
  - exact counts_batches_rank0.
  - reflexivity.
  - cbn. lia.
  - cbn. lia.
  - cbn. lia.
  - split; [apply Nat2Z.inj; rewrite H1; reflexivity|exact H3].
Defined.

(** ** The calls the ranks make together *)

Lemma joint_calls_iter E a ep it : joint_calls (iter_events E a ep it) = [].
Proof.
  unfold iter_events, train_call. destruct (Py.Qltb 0 (Args.tclip a)); reflexivity.
Qed.

Lemma joint_calls_epoch E a ep b :
  joint_calls (epoch_events E a ep b)
  = MetricSync :: (if is_val_and_also_saving a ep then [Evaluate; Barrier] else []).
Proof.
  unfold joint_calls, epoch_events, epoch_train_events, validation_events, epoch_end_events.
  rewrite filter_app. cbn [filter is_joint_call]. rewrite !filter_app, filter_flat_map.
  rewrite (flat_map_ext _ (fun _ => [])), flat_map_none.
  - destruct (Env.has_set_epoch E), (is_val_and_also_saving a ep), (Env.is_local_master E);
      try reflexivity;
      destruct (best_updated (Env.evaluate E ep) (update_train (Env.epoch_stats E ep) b));
      reflexivity.
  - apply Forall_forall. reflexivity.
  - intros it. destruct (it <? start_of E ep); [reflexivity|].
    apply joint_calls_iter.
Qed.

Lemma joint_calls_run E a l : forall b,
  joint_calls (run_events E a l b)
  = flat_map (fun ep => MetricSync
                        :: (if is_val_and_also_saving a ep then [Evaluate; Barrier] else [])) l.
Proof.
  induction l as [|ep l IH]; intros b; cbn [run_events flat_map]; [reflexivity|].
  unfold joint_calls in *. rewrite filter_app. fold (joint_calls (epoch_events E a ep b)).
  now rewrite joint_calls_epoch, IH.
Qed.

(** X5: in a run on which nothing raises, the calls a rank makes together
    with the others are, for each epoch from [start_ep], the metric
    synchronisation that ends [train_one_ep], then the evaluation and the
    barrier when the epoch validates, and at the end the barrier of line
    332. They do not depend on the rank's role, on the position in the
    epoch the run resumed at, on the number of iterations nor on the losses:
    two such ranks that start at the same epoch make the same. *)
Theorem joint_calls_agree (E E' : Env.t) (a : Args.t) :
  normal E a -> normal E' a -> Env.start_ep E = Env.start_ep E' ->
  joint_calls (trace_of (main_training E a))
  = flat_map (fun ep => MetricSync
                        :: (if is_val_and_also_saving a ep then [Evaluate; Barrier] else []))
             (Py.range (Env.start_ep E) (Args.ep a))
    ++ [Barrier]
  /\ joint_calls (trace_of (main_training E a)) = joint_calls (trace_of (main_training E' a)).
Proof.
  intros Hn Hn' Hs.
  assert (H : forall F, normal F a ->
                joint_calls (trace_of (main_training F a))
                = flat_map (fun ep => MetricSync
                                      :: (if is_val_and_also_saving a ep
                                          then [Evaluate; Barrier] else []))
                           (Py.range (Env.start_ep F) (Args.ep a))
                  ++ [Barrier]).
  { intros F HF. rewrite main_training_normal by exact HF. cbn [trace_of fst].
    unfold joint_calls. rewrite filter_app.
    fold (joint_calls (run_events F a (Py.range (Env.start_ep F) (Args.ep a)) init_trackers)).
    rewrite joint_calls_run. reflexivity. }
  split; [apply H; exact Hn|]. rewrite (H E Hn), (H E' Hn'), Hs. reflexivity.
Qed.

(** The master rank of the forty-epoch run and the same rank resumed in the
    middle of its first epoch, not writing the checkpoints. *)
Lemma joint_calls_agree_rank0 :
  joint_calls (trace_of (main_training rank0 args_40))
  = joint_calls (trace_of (main_training (follower (with_start rank0 0 2)) args_40))
  /\ List.length (joint_calls (trace_of (main_training rank0 args_40))) = 49%nat.
Proof.
  split.
  - apply (joint_calls_agree rank0 (follower (with_start rank0 0 2)) args_40).
    + exact normal_rank0.
    + repeat split. discriminate.
    + reflexivity.
  - vm_compute. reflexivity.
Defined.

(** ** The tail trackers *)

Lemma update_epoch_tail E a ep b :
  best_L_tail (update_epoch E a ep b)
  = (if has_tail E ep then Py.min (best_L_tail b) (Stats.Lt (Env.epoch_stats E ep))
     else best_L_tail b)
  /\ best_acc_tail (update_epoch E a ep b)
     = (if has_tail E ep then Py.max (best_acc_tail b) (Stats.Acct (Env.epoch_stats E ep))
        else best_acc_tail b).
Proof.
  unfold update_epoch, update_train, has_tail.
  destruct (is_val_and_also_saving a ep),
           (negb (Stats.Lt (Env.epoch_stats E ep) =? -1)%float); cbn; split; reflexivity.
Qed.

Lemma run_trackers_tail E a l : forall b,
  best_L_tail (run_trackers E a l b)
  = fold_left Py.min (tail_values E Stats.Lt l) (best_L_tail b)
  /\ best_acc_tail (run_trackers E a l b)
     = fold_left Py.max (tail_values E Stats.Acct l) (best_acc_tail b).
Proof.
  unfold run_trackers, tail_values.
  induction l as [|ep l IH]; intros b; cbn [fold_left filter map]; [split; reflexivity|].
  destruct (IH (update_epoch E a ep b)) as [H1 H2]. rewrite H1, H2.
  destruct (update_epoch_tail E a ep b) as [-> ->].
  destruct (has_tail E ep); cbn [map fold_left]; split; reflexivity.
Qed.

(** X6: the trackers [best_L_tail] and [best_acc_tail] only move in the
    epochs whose tail loss is not -1: after the epochs [l] of the loop they
    hold a least element of 999 and of the tail losses, and a greatest
    element of -1 and of the tail accuracies, of those epochs only. The
    tail accuracy of an epoch whose tail loss is -1 is never taken into
    account, and such an epoch leaves both trackers as they were. *)
Theorem tail_trackers_skip_epochs_without_tail (E : Env.t) (a : Args.t) (l : list Z)
        (b : trackers) :
  result_of (for_ l (epoch_body E a) init_trackers) = Ok b ->
  is_min_of (best_L_tail b) (999%float :: tail_values E Stats.Lt l)
  /\ is_max_of (best_acc_tail b) ((-1)%float :: tail_values E Stats.Acct l)
  /\ (forall ep b0 b1,
        has_tail E ep = false ->
        result_of (epoch_body E a ep b0) = Ok b1 ->
        best_L_tail b1 = best_L_tail b0 /\ best_acc_tail b1 = best_acc_tail b0).
Proof.
  intros Hb. apply epoch_loop_result in Hb. subst b.
  destruct (run_trackers_tail E a l init_trackers) as [H1 H2]. rewrite H1, H2.
  split; [apply fold_min_is_min|]. split; [apply fold_max_is_max|].
  intros ep b0 b1 Ht Hr. apply epoch_body_result in Hr. subst b1.
  destruct (update_epoch_tail E a ep b0) as [-> ->]. rewrite Ht. split; reflexivity.
Qed.

(** Ten epochs, the first five without a tail and with a tail accuracy of
    90: the best tail accuracy is that of the last five, 8. *)
Lemma tail_trackers_skip_epochs_without_tail_rank0 :
  let b := run_trackers (with_stats rank0 stats_late_tail) args_40 (Py.range 0 10)
                        init_trackers in
  best_acc_tail b = 8%float /\ best_L_tail b = 6%float
  /\ is_max_of (best_acc_tail b)
       ((-1)%float :: tail_values (with_stats rank0 stats_late_tail) Stats.Acct (Py.range 0 10)).
Proof.
  split; [vm_compute; reflexivity|]. split; [vm_compute; reflexivity|].
  apply (tail_trackers_skip_epochs_without_tail
           (with_stats rank0 stats_late_tail) args_40 (Py.range 0 10)).
  vm_compute. reflexivity.
Defined.

(** ** The count of remaining steps *)

Lemma range_snoc a b : a < b -> Py.range a b = Py.range a (b - 1) ++ [b - 1].
Proof.
  intros H. rewrite (range_app a (b - 1) b) by lia. f_equal.
  rewrite (range_cons (b - 1) b) by lia. rewrite range_nil by lia. reflexivity.
Qed.

(** The global step the loop of [train_one_ep] ends with: that of the last
    batch when one was trained on, the first step of the epoch otherwise. *)
Lemma last_step_of_epoch (a : Args.t) (n ep s : Z) (l : list Z) (st0 : ep_state) :
  let upd := fun (it : Z) (st : ep_state) =>
               if it <? s then st
               else {| g_it := ep * n + it;
                       step_cnt := step_cnt st
                                   + (if stepping_val a (ep * n + it) then 1 else 0) |} in
  0 <= s -> (l = Py.range s n \/ l = Py.range 0 n) ->
  g_it (fold_left (fun st it => upd it st) l st0)
  = if s <? n then ep * n + (n - 1) else g_it st0.
Proof.
  intros upd Hs Hl. destruct (s <? n) eqn:C.
  - apply Z.ltb_lt in C.
    assert (Hsn : exists l1, l = l1 ++ [n - 1]).
    { destruct Hl as [-> | ->]; rewrite range_snoc by lia; eauto. }
    destruct Hsn as [l1 ->]. rewrite fold_left_app. cbn [fold_left]. unfold upd at 1.
    destruct (n - 1 <? s) eqn:C'; [apply Z.ltb_lt in C'; lia|]. reflexivity.
  - apply Z.ltb_ge in C.
    assert (Hall : Forall (fun it => it < s) l).
    { apply Forall_forall. intros it Hin.
      destruct Hl as [-> | ->]; apply range_In in Hin; lia. }
    clear Hl. revert st0. induction Hall as [|it l Hit _ IH]; intros st0; [reflexivity|].
    cbn [fold_left]. rewrite IH. unfold upd.
    destruct (it <? s) eqn:C'; [reflexivity|apply Z.ltb_ge in C'; lia].
Qed.

(** X7: when nothing raises, [train_one_ep] for epoch [ep], started at
    [start_it] with [0 <= start_it], hands to [time_preds] the count
    [(args.ep - ep - 1) * iters_train + (args.ep - ep) * 15]: the iterations
    of the epochs to come, and 15 for each epoch from this one on; it does
    not depend on [start_it]. When no batch is trained on
    ([start_it >= iters_train]), [g_it] stays at the first step of the epoch
    and the count is [(args.ep - ep) * iters_train - 1 + (args.ep - ep) * 15]. *)
Theorem remaining_steps_after_epoch (E : Env.t) (a : Args.t) (ep s : Z) :
  normal E a -> counts_batches E -> 0 <= s ->
  result_of (train_one_ep E a ep s)
  = Ok (Env.epoch_stats E ep,
        (if s <? Env.iters_train E
         then (Args.ep a - ep - 1) * Env.iters_train E
         else (Args.ep a - ep) * Env.iters_train E - 1)
        + (Args.ep a - ep) * 15).
Proof.
  intros Hn Hc Hs. unfold train_one_ep.
  set (n := Env.iters_train E).
  set (upd := fun (it : Z) (st : ep_state) =>
                if it <? s then st
                else {| g_it := ep * n + it;
                        step_cnt := step_cnt st
                          + (if stepping_val a (ep * n + it) then 1 else 0) |}).
  rewrite (for_returns _ _ upd).
  - cbv beta iota delta [bind emit ret result_of snd].
    pose proof (last_step_of_epoch a n ep s (Env.log_every E s n)
                  {| g_it := ep * n; step_cnt := 0 |} Hs (Hc s n)) as Hlast.
    cbv zeta in Hlast. fold upd in Hlast. rewrite Hlast. cbn [g_it].
    unfold max_it. destruct (s <? n); do 2 f_equal; ring.
  - intros it st _. unfold loop_body, upd. destruct (it <? s); [reflexivity|].
    unfold n. now rewrite train_iter_normal.
Qed.

(** The counts of the forty-epoch run of three iterations an epoch after its
    first and after its last epoch, and after an epoch resumed at its end. *)
Lemma remaining_steps_after_epoch_rank0 :
  result_of (train_one_ep rank0 args_40 0 0) = Ok (Env.epoch_stats rank0 0, 39 * 3 + 40 * 15)
  /\ result_of (train_one_ep rank0 args_40 39 2) = Ok (Env.epoch_stats rank0 39, 15)
  /\ result_of (train_one_ep rank0 args_40 39 3) = Ok (Env.epoch_stats rank0 39, 17).
Proof.
  pose proof (fun ep s => remaining_steps_after_epoch rank0 args_40 ep s normal_rank0
                            counts_batches_rank0) as H.
  split; [apply (H 0 0); lia|]. split; [apply (H 39 2); lia|apply (H 39 3); lia].
Defined.

(** ** [build_everything]: the validation batch size *)

Lemma val_batch_size_closed_form :
  F64.all_from (Z.to_nat 65536) 1
    (fun bs => Build.val_batch_size bs
               =? (if bs mod 4 =? 1 then bs + (bs + 1) / 2 else bs + bs / 2)) = true.
Proof. vm_compute. reflexivity. Qed.

(** X8: unless [args.local_debug] is set, the validation loader is built
    with no worker and the batch size [round(args.batch_size*1.5)]. For a
    batch size from 1 to 65536 this is one and a half times the training
    batch size when that is even; when it is odd the half is rounded to the
    even neighbour, so that the result is even: up for a batch size of the
    form 4k+1, down for 4k+3. *)
Theorem val_batch_size_half_even (bs : Z) :
  1 <= bs <= 65536 ->
  Build.val_batch_size bs = (if bs mod 4 =? 1 then bs + (bs + 1) / 2 else bs + bs / 2)
  /\ (Z.even bs = true -> 2 * Build.val_batch_size bs = 3 * bs)
  /\ (Z.even bs = false ->
      Z.even (Build.val_batch_size bs) = true
      /\ Z.abs (2 * Build.val_batch_size bs - 3 * bs) = 1)
  /\ (forall a w, Build.local_debug a = false -> Build.batch_size a = bs ->
        In (Build.NewValLoader (Build.val_batch_size bs) 0
                               (Build.world_size w) (Build.rank w))
           (fst (Build.build_everything a w))).
Proof.
  intros Hbs.
  assert (V : Build.val_batch_size bs
              = if bs mod 4 =? 1 then bs + (bs + 1) / 2 else bs + bs / 2).
  { apply Z.eqb_eq.
    apply (all_from_spec _ (Z.to_nat 65536) 1 val_batch_size_closed_form bs).
    rewrite Z2Nat.id; lia. }
  split; [exact V|].
  pose proof (Z.mod_pos_bound bs 4 ltac:(lia)) as B4.
  pose proof (Z.div_mod bs 4 ltac:(lia)) as D4.
  pose proof (Z.div_mod bs 2 ltac:(lia)) as D2.
  pose proof (Z.div_mod (bs + 1) 2 ltac:(lia)) as D2'.
  pose proof (Z.mod_pos_bound bs 2 ltac:(lia)) as B2.
  pose proof (Z.mod_pos_bound (bs + 1) 2 ltac:(lia)) as B2'.
  rewrite Zeven_mod.
  split; [|split].
  - intros Ev. apply Z.eqb_eq in Ev. rewrite V.
    destruct (bs mod 4 =? 1) eqn:M; [apply Z.eqb_eq in M; lia|lia].
  - intros Od. apply Z.eqb_neq in Od. rewrite V.
    destruct (bs mod 4 =? 1) eqn:M; [apply Z.eqb_eq in M|apply Z.eqb_neq in M].
    + split; [|lia]. rewrite Zeven_mod. apply Z.eqb_eq.
      replace (bs + (bs + 1) / 2) with (0 + (3 * (bs / 4) + 1) * 2); [|lia].
      rewrite Z.mod_add by lia. reflexivity.
    + split; [|lia]. rewrite Zeven_mod. apply Z.eqb_eq.
      replace (bs + bs / 2) with (0 + (3 * (bs / 4) + 2) * 2); [|lia].
      rewrite Z.mod_add by lia. reflexivity.
  - intros a w Hd Hb. unfold Build.build_everything, Build.build_data. rewrite Hd, Hb.
    cbn [negb].
    destruct (Build.opt_clz (Build.opt a)); cbv zeta; cbn [fst];
      rewrite !in_app_iff; cbn [In]; auto 10.
Qed.

(** A batch size of 27 gives a validation batch size of 40, one of 25 gives
    38. *)
Lemma val_batch_size_half_even_27 :
  Build.val_batch_size 27 = 40 /\ Build.val_batch_size 25 = 38.
Proof.
  split.
  - exact (proj1 (val_batch_size_half_even 27 ltac:(lia))).
  - exact (proj1 (val_batch_size_half_even 25 ltac:(lia))).
Defined.

(** From [2^53] on the product is rounded: a batch size of [2^53 + 1] gives
    13510798882111488, not the 13510798882111490 of the exact product. *)
Lemma val_batch_size_rounds_product :
  Build.val_batch_size (2 ^ 53 + 1) = 13510798882111488.
Proof. vm_compute. reflexivity. Qed.

(** ** [build_everything]: the VAE checkpoint and the barriers *)

Lemma build_data_calls a w :
  Build.barriers (fst (Build.build_data a w)) = 0%nat
  /\ filter Build.is_os_system (fst (Build.build_data a w)) = []
  /\ filter Build.is_load_vae (fst (Build.build_data a w)) = [].
Proof. unfold Build.build_data. destruct (Build.local_debug a); cbn; auto. Qed.

Lemma build_everything_trace a w :
  fst (Build.build_everything a w)
  = ([Build.AutoResume "ar-ckpt*.pth"]
     ++ (if Build.is_master w then [Build.NewTensorboardLogger] else [])
     ++ fst (Build.build_data a w)
     ++ [Build.BuildVaeMoeVar (fst (fst (snd (Build.build_data a w))))]
     ++ (if Build.is_local_master w && negb (Build.vae_ckpt_exists w)
         then [Build.wget_vae] else []))
    ++ [Build.Barrier; Build.LoadVae Build.vae_ckpt]
    ++ [Build.CompileModel; Build.CompileModel;
        Build.Wrap (if Build.initialized w then Build.DDP else Build.NullDDP);
        Build.FilterParams]
    ++ match Build.opt_clz (Build.opt a) with
       | inl _ => []
       | inr o => [Build.NewOptimizer o 0; Build.NewAmpOptimizer; Build.NewTrainer]
                  ++ (if Build.loads_state w then [Build.LoadTrainerState] else [])
                  ++ [Build.Barrier]
       end.
Proof.
  unfold Build.build_everything, Build.fetch_vae.
  destruct (Build.build_data a w) as [d [[cl it] ld]]. cbn [fst snd].
  destruct (Build.opt_clz (Build.opt a)); cbn [fst];
    destruct (Build.is_local_master w), (Build.vae_ckpt_exists w); cbn [andb negb];
    repeat (rewrite <- ?app_assoc; cbn [app]); rewrite ?app_nil_r; reflexivity.
Qed.

(** X9: whatever the rank and the arguments, the calls of [build_everything]
    are [pre ++ [dist.barrier(); vae_local.load_state_dict(...)] ++ post],
    where [pre] holds no barrier and no load, and the [wget] of the VAE
    checkpoint exactly when the rank is local master and the file is not
    there; [post] holds no download and no load, and one barrier (the one of
    line 134) when the optimizer name is known, none when line 115 raises
    [KeyError]. So the file is loaded after the barrier that follows the
    download, and the number of barriers a rank passes (2, or 1 before the
    [KeyError]) depends on [args.opt] only, not on the rank. *)
Theorem vae_fetched_before_barrier (a : Build.Args) (w : Build.World) :
  (exists pre post,
     fst (Build.build_everything a w)
     = pre ++ [Build.Barrier; Build.LoadVae Build.vae_ckpt] ++ post
     /\ Build.barriers pre = 0%nat
     /\ filter Build.is_load_vae pre = []
     /\ filter Build.is_os_system pre
        = (if Build.is_local_master w && negb (Build.vae_ckpt_exists w)
           then [Build.wget_vae] else [])
     /\ filter Build.is_os_system post = []
     /\ filter Build.is_load_vae post = []
     /\ Build.barriers post
        = match snd (Build.build_everything a w) with inr _ => 1%nat | inl _ => 0%nat end)
  /\ Build.barriers (fst (Build.build_everything a w))
     = match Build.opt_clz (Build.opt a) with inr _ => 2%nat | inl _ => 1%nat end
  /\ (forall w', Build.barriers (fst (Build.build_everything a w'))
                 = Build.barriers (fst (Build.build_everything a w))).
Proof.
  assert (B : forall v, Build.barriers (fst (Build.build_everything a v))
                        = match Build.opt_clz (Build.opt a) with
                          | inr _ => 2%nat | inl _ => 1%nat end).
  { intros v. rewrite build_everything_trace.
    destruct (build_data_calls a v) as (Hb & _ & _).
    unfold Build.barriers in *. rewrite !filter_app, !length_app, Hb.
    destruct (Build.opt_clz (Build.opt a)), (Build.is_master v),
      (Build.is_local_master v && negb (Build.vae_ckpt_exists v));
      try destruct (Build.loads_state v); reflexivity. }
  split; [|split; [apply B|intros w'; rewrite !B; reflexivity]].
  destruct (build_data_calls a w) as (Hb & Ho & Hl).
  eexists. eexists. split; [apply build_everything_trace|].
  unfold Build.barriers in *. rewrite !filter_app, !length_app, Hb, Ho, Hl.
  assert (R : snd (Build.build_everything a w)
              = match Build.opt_clz (Build.opt a) with
                | inl e => inl e
                | inr _ => snd (Build.build_everything a w)
                end).
  { unfold Build.build_everything. destruct (Build.build_data a w) as [d [[cl it] ld]].
    destruct (Build.opt_clz (Build.opt a)); reflexivity. }
  assert (R' : forall o, Build.opt_clz (Build.opt a) = inr o ->
                         exists r, snd (Build.build_everything a w) = inr r).
  { intros o Ho'. unfold Build.build_everything.
    destruct (Build.build_data a w) as [d [[cl it] ld]]. rewrite Ho'. eexists. reflexivity. }
  destruct (Build.opt_clz (Build.opt a)) as [e|o] eqn:Hopt.
  - rewrite R.
    destruct (Build.is_master w), (Build.is_local_master w && negb (Build.vae_ckpt_exists w));
      cbn; auto 10.
  - destruct (R' o eq_refl) as [r ->].
    destruct (Build.is_master w), (Build.is_local_master w && negb (Build.vae_ckpt_exists w)),
      (Build.loads_state w); cbn; auto 10.
Qed.

(** ** [build_everything]: the optimizer name *)

Lemma is_space_lower c : Build.is_space (Build.lower_char c) = Build.is_space c.
Proof. destruct c as [[] [] [] [] [] [] [] []]; reflexivity. Qed.

Lemma lower_app x y : Build.lower (x ++ y) = (Build.lower x ++ Build.lower y)%string.
Proof. induction x as [|c x IH]; cbn; [reflexivity|]. now rewrite IH. Qed.

Lemma all_space_lower w : Build.all_space (Build.lower w) = Build.all_space w.
Proof. induction w as [|c w IH]; cbn; [reflexivity|]. now rewrite is_space_lower, IH. Qed.

Lemma lstrip_lower s : Build.lstrip (Build.lower s) = Build.lower (Build.lstrip s).
Proof.
  induction s as [|c s IH]; cbn; [reflexivity|]. rewrite is_space_lower.
  destruct (Build.is_space c); [exact IH|reflexivity].
Qed.

Lemma rstrip_lower s : Build.rstrip (Build.lower s) = Build.lower (Build.rstrip s).
Proof.
  induction s as [|c s IH]; cbn; [reflexivity|]. rewrite IH, is_space_lower.
  destruct (Build.rstrip s); cbn; [destruct (Build.is_space c)|]; reflexivity.
Qed.

Lemma strip_lower s : Build.strip (Build.lower s) = Build.lower (Build.strip s).
Proof. unfold Build.strip. now rewrite lstrip_lower, rstrip_lower. Qed.

Lemma lstrip_all_space w : Build.all_space w = true -> Build.lstrip w = EmptyString.
Proof.
  induction w as [|c w IH]; cbn; [reflexivity|]. intros H. apply andb_prop in H.
  destruct H as [-> H]. exact (IH H).
Qed.

Lemma rstrip_all_space w : Build.all_space w = true -> Build.rstrip w = EmptyString.
Proof.
  induction w as [|c w IH]; cbn; [reflexivity|]. intros H. apply andb_prop in H.
  destruct H as [-> H]. now rewrite (IH H).
Qed.

Lemma lstrip_space_app w x : Build.all_space w = true -> Build.lstrip (w ++ x) = Build.lstrip x.
Proof.
  induction w as [|c w IH]; cbn; [reflexivity|]. intros H. apply andb_prop in H.
  destruct H as [-> H]. exact (IH H).
Qed.

Lemma rstrip_app_space x w : Build.all_space w = true -> Build.rstrip (x ++ w) = Build.rstrip x.
Proof.
  intros H. induction x as [|c x IH]; cbn; [exact (rstrip_all_space w H)|].
  now rewrite IH.
Qed.

Lemma lstrip_app x w :
  Build.lstrip (x ++ w)
  = match Build.lstrip x with
    | EmptyString => Build.lstrip w
    | _ => (Build.lstrip x ++ w)%string
    end.
Proof.
  induction x as [|c x IH]; cbn; [reflexivity|].
  destruct (Build.is_space c); [exact IH|reflexivity].
Qed.

Lemma strip_between w1 x w2 :
  Build.all_space w1 = true -> Build.all_space w2 = true ->
  Build.strip (w1 ++ x ++ w2) = Build.strip x.
Proof.
  intros H1 H2. unfold Build.strip. rewrite lstrip_space_app by exact H1.
  rewrite lstrip_app. destruct (Build.lstrip x) eqn:L.
  - now rewrite (lstrip_all_space w2 H2).
  - apply rstrip_app_space. exact H2.
Qed.

Lemma lstrip_decomp s :
  exists w, Build.all_space w = true /\ s = (w ++ Build.lstrip s)%string.
Proof.
  induction s as [|c s (w & Hw & Hs)]; [exists EmptyString; split; reflexivity|].
  cbn. destruct (Build.is_space c) eqn:C.
  - exists (String c w). cbn. rewrite C, Hw. split; [reflexivity|]. now rewrite <- Hs.
  - exists EmptyString. split; reflexivity.
Qed.

Lemma rstrip_decomp s :
  exists w, Build.all_space w = true /\ s = (Build.rstrip s ++ w)%string.
Proof.
  induction s as [|c s (w & Hw & Hs)]; [exists EmptyString; split; reflexivity|].
  cbn. destruct (Build.rstrip s) eqn:R.
  - cbn in Hs. subst s. destruct (Build.is_space c) eqn:C.
    + exists (String c w). cbn. rewrite C, Hw. split; reflexivity.
    + exists w. split; [exact Hw|reflexivity].
  - exists w. split; [exact Hw|]. cbn. cbn in Hs. now rewrite <- Hs.
Qed.

Lemma strip_decomp s :
  exists w1 w2, Build.all_space w1 = true /\ Build.all_space w2 = true
                /\ s = (w1 ++ Build.strip s ++ w2)%string.
Proof.
  destruct (lstrip_decomp s) as (w1 & H1 & E1).
  destruct (rstrip_decomp (Build.lstrip s)) as (w2 & H2 & E2).
  exists w1, w2. split; [exact H1|]. split; [exact H2|].
  unfold Build.strip. now rewrite <- E2.
Qed.

Lemma accepted_name_key s :
  Build.accepted_name s <->
  Build.strip (Build.lower s) = "adam"%string \/ Build.strip (Build.lower s) = "adamw"%string.
Proof.
  split.
  - intros (w1 & core & w2 & -> & H1 & H2 & Hc).
    rewrite !lower_app, strip_between by (rewrite all_space_lower; assumption).
    destruct Hc as [-> | ->]; [left|right]; reflexivity.
  - intros Hk. rewrite strip_lower in Hk.
    destruct (strip_decomp s) as (w1 & w2 & H1 & H2 & E).
    exists w1, (Build.strip s), w2. auto.
Qed.

(** X10: for an ASCII [args.opt], the optimizer is [AdamW] with betas
    (0.9, 0.95) exactly when the name is 'adam' or 'adamw' in any letter
    case, between any white space; for every other name the subscript of
    line 115 raises [KeyError] with the lowered and stripped name, and
    [build_everything] raises it on every rank after the data, the model and
    the VAE were set up and before any optimizer or trainer is built: no
    trainer state is loaded and the barrier of line 134 is not reached. *)
Theorem optimizer_name_accepted (s : string) :
  Build.is_ascii s = true ->
  (Build.accepted_name s -> Build.opt_clz s = inr (Build.AdamW (9 # 10) (95 # 100)))
  /\ (~ Build.accepted_name s ->
      Build.opt_clz s = inl (Build.KeyError (Build.strip (Build.lower s)))
      /\ forall a w, Build.opt a = s ->
           snd (Build.build_everything a w)
           = inl (Build.KeyError (Build.strip (Build.lower s)))
           /\ exists pre,
               fst (Build.build_everything a w)
               = pre ++ [Build.Barrier; Build.LoadVae Build.vae_ckpt; Build.CompileModel;
                         Build.CompileModel;
                         Build.Wrap (if Build.initialized w then Build.DDP else Build.NullDDP);
                         Build.FilterParams]
               /\ Build.barriers pre = 0%nat).
Proof.
  intros _. split.
  - intros H. apply accepted_name_key in H. unfold Build.opt_clz.
    destruct H as [-> | ->]; reflexivity.
  - intros H.
    assert (K : Build.opt_clz s = inl (Build.KeyError (Build.strip (Build.lower s)))).
    { unfold Build.opt_clz.
      destruct (String.eqb (Build.strip (Build.lower s)) "adam") eqn:C1.
      - exfalso. apply H, accepted_name_key. left. now apply String.eqb_eq.
      - destruct (String.eqb (Build.strip (Build.lower s)) "adamw") eqn:C2; [|reflexivity].
        exfalso. apply H, accepted_name_key. right. now apply String.eqb_eq. }
    split; [exact K|]. intros a w Ha. split.
    + unfold Build.build_everything. destruct (Build.build_data a w) as [d [[cl it] ld]].
      rewrite Ha, K. reflexivity.
    + eexists. split.
      * rewrite build_everything_trace, Ha, K, app_nil_r. reflexivity.
      * destruct (build_data_calls a w) as (Hb & _ & _).
        unfold Build.barriers in *. rewrite !filter_app, !length_app, Hb.
        destruct (Build.is_master w), (Build.is_local_master w && negb (Build.vae_ckpt_exists w));
          reflexivity.
Qed.

(** ' AdamW' followed by a line feed is accepted; 'sgd' is not, and the
    resumed master rank raises [KeyError('sgd')]. *)
Lemma optimizer_name_accepted_adamw :
  Build.opt_clz (String " " (String "A" (String "d" (String "a" (String "m" (String "W"
                   (String (ascii_of_nat 10) EmptyString)))))))
  = inr (Build.AdamW (9 # 10) (95 # 100))
  /\ snd (Build.build_everything (build_args "SGD") world_resumed)
     = inl (Build.KeyError "sgd").
Proof.
  split.
  - apply (optimizer_name_accepted
             (String " " (String "A" (String "d" (String "a" (String "m" (String "W"
                (String (ascii_of_nat 10) EmptyString)))))))); [reflexivity|].
    exists " "%string, "AdamW"%string, (String (ascii_of_nat 10) EmptyString).
    repeat split; try reflexivity. right. reflexivity.
  - refine (proj1 (proj2 (proj2 (optimizer_name_accepted "SGD" eq_refl) _)
                         (build_args "SGD") world_resumed eq_refl)).
    intros (w1 & core & w2 & E & H1 & H2 & Hc).
    assert (K : Build.strip (Build.lower "SGD") = "adam"%string
                \/ Build.strip (Build.lower "SGD") = "adamw"%string).
    { apply accepted_name_key. exists w1, core, w2. auto. }
    destruct K as [K|K]; discriminate K.
Defined.

(** ** From [build_everything] to the epoch loop *)

Lemma build_everything_returns a w o :
  Build.opt_clz (Build.opt a) = inr o ->
  snd (Build.build_everything a w)
  = inr {| Build.tb_lg := Build.is_master w;
           Build.start_ep := Build.resume_ep w;
           Build.start_it := Build.resume_it w;
           Build.iters_train := if Build.local_debug a then 10 else Build.len_ld_train w;
           Build.ld_train := negb (Build.local_debug a);
           Build.ld_val := negb (Build.local_debug a) |}.
Proof.
  intros Ho. unfold Build.build_everything, Build.build_data.
  destruct (Build.local_debug a); cbn [negb]; rewrite Ho; reflexivity.
Qed.

Lemma main_training_from_eq ba w a c :
  main_training_from ba w a c
  = (fst (Build.build_everything ba w),
     match snd (Build.build_everything ba w) with
     | inl e => inl e
     | inr r => inr (main_training (driver_env r w c) a)
     end).
Proof.
  unfold main_training_from. destruct (Build.build_everything ba w) as [t [e|r]]; reflexivity.
Qed.

(** X11: on the rank that holds the logger, with a known optimizer name and
    collaborators that do not raise, the run trains on the global steps from
    [start_ep * iters_train + start_it] to [args.ep * iters_train - 1], where
    [(start_ep, start_it)] is what [auto_resume] returned and [iters_train]
    is [len(ld_train)]: the position [build_everything] gave the training
    sampler is the one the epoch loop starts from, and the trainer state is
    loaded exactly when [auto_resume] returned a non-empty one. With
    [args.local_debug] there is no loader and no sampler to tell the epoch
    to, and the steps are those of 10 iterations per epoch. *)
Theorem run_resumes_at_sampler_position (ba : Build.Args) (w : Build.World)
        (a : Args.t) (c : Env.t) (o : Build.optimizer) :
  Build.opt_clz (Build.opt ba) = inr o ->
  Build.is_master w = true ->
  Args.ac a <> 0 ->
  (forall it g st si wp, Env.train_step c it g st si wp = None) ->
  counts_batches c ->
  let n := if Build.local_debug ba then 10 else Build.len_ld_train w in
  0 <= Build.resume_ep w -> 0 <= Build.resume_it w <= n ->
  exists t m,
    main_training_from ba w a c = (t, inr m)
    /\ map step_of (train_calls (trace_of m))
       = map (fun g => (g, stepping_val a g))
             (Py.range (Build.resume_ep w * n + Build.resume_it w) (Args.ep a * n))
    /\ (Build.local_debug ba = false ->
        In (Build.NewTrainLoader (Build.workers ba) (Build.glb_batch_size ba) (Build.rank w)
                                 (Build.world_size w) (Build.resume_ep w) (Build.resume_it w)) t)
    /\ (Build.local_debug ba = true ->
        set_epoch_calls (trace_of m) = []
        /\ filter Build.is_data_call t = [])
    /\ (In Build.LoadTrainerState t <->
        exists k, Build.trainer_state w = Some (S k)).
Proof.
  intros Ho Hm Hac Hts Hc n Hep Hit.
  rewrite main_training_from_eq, (build_everything_returns ba w o Ho).
  eexists. eexists. split; [reflexivity|].
  set (r := {| Build.tb_lg := Build.is_master w; Build.start_ep := Build.resume_ep w;
               Build.start_it := Build.resume_it w; Build.iters_train := n;
               Build.ld_train := negb (Build.local_debug ba);
               Build.ld_val := negb (Build.local_debug ba) |}).
  assert (Hn : normal (driver_env r w c) a).
  { split; [exact Hm|]. split; [exact Hac|exact Hts]. }
  assert (Hc' : counts_batches (driver_env r w c)) by exact Hc.
  split; [|split; [|split]].
  - exact (steps_of_run (driver_env r w c) a Hn Hc' Hep Hit).
  - intros Hd. rewrite build_everything_trace. unfold Build.build_data. rewrite Hd.
    cbn [negb fst]. rewrite !in_app_iff. cbn [In]. auto 10.
  - intros Hd. split.
    + rewrite main_training_normal by exact Hn. cbn [trace_of fst].
      unfold set_epoch_calls. rewrite flat_map_app.
      fold (set_epoch_calls (run_events (driver_env r w c) a
                               (Py.range (Env.start_ep (driver_env r w c)) (Args.ep a))
                               init_trackers)).
      rewrite set_epoch_calls_run. cbn [driver_env Env.has_set_epoch Build.ld_train r].
      rewrite Hd. reflexivity.
    + rewrite build_everything_trace. unfold Build.build_data. rewrite Hd, Ho.
      cbn [negb fst snd].
      destruct (Build.is_master w), (Build.is_local_master w && negb (Build.vae_ckpt_exists w)),
        (Build.loads_state w); reflexivity.
  - rewrite build_everything_trace, Ho. unfold Build.build_data, Build.loads_state.
    destruct (Build.trainer_state w) as [[|k]|], (Build.local_debug ba), (Build.is_master w),
      (Build.is_local_master w && negb (Build.vae_ckpt_exists w));
      cbn [negb Nat.eqb fst snd app In]; split;
      try (intros H; exfalso; intuition discriminate);
      try (intros [k' Hk]; discriminate Hk);
      try (intros _; exists k; reflexivity);
      try (intros _; auto 30).
Qed.

(** The master rank resumes from iteration 1 of epoch 20, three iterations
    an epoch: the sampler is given (20, 1), the trainer state is loaded, and
    the steps trained on are 61 to 119. *)
Lemma run_resumes_at_sampler_position_rank0 :
  exists t m,
    main_training_from (build_args "adamw") world_resumed args_40 rank0 = (t, inr m)
    /\ map step_of (train_calls (trace_of m))
       = map (fun g => (g, stepping_val args_40 g)) (Py.range 61 120)
    /\ In (Build.NewTrainLoader 4 216 0 8 20 1) t
    /\ In Build.LoadTrainerState t.
Proof.
  destruct (run_resumes_at_sampler_position (build_args "adamw") world_resumed args_40 rank0
              (Build.AdamW (9 # 10) (95 # 100)) eq_refl eq_refl
              ltac:(discriminate) (fun _ _ _ _ _ => eq_refl) counts_batches_rank0
              ltac:(cbn; lia) ltac:(cbn; lia))
    as (t & m & H1 & H2 & H3 & _ & H5).
  exists t, m. split; [exact H1|]. split; [exact H2|]. split; [exact (H3 eq_refl)|].
  apply H5. exists 3%nat. reflexivity.
Defined.

(** ** Resuming from a checkpoint the run wrote *)

Lemma split_unique {A} (q : A -> bool) (pre pre' : list A) x x' post post' :
  pre ++ x :: post = pre' ++ x' :: post' ->
  q x = true -> q x' = true -> filter q pre = [] -> filter q pre' = [] ->
  post = post'.
Proof.
  intros H Hx Hx'. revert pre' H.
  induction pre as [|y pre IH]; intros [|y' pre'] H F F'; cbn [app] in H.
  - now injection H.
  - injection H as <- _. cbn [filter] in F'. rewrite Hx in F'. discriminate F'.
  - injection H as -> _. cbn [filter] in F. rewrite Hx' in F. discriminate F.
  - injection H as <- H. cbn [filter] in F, F'. destruct (q y); [discriminate F|].
    exact (IH pre' H F F').
Qed.

Lemma filter_single {A} (q : A -> bool) (pre : list A) x post y :
  q x = true -> filter q (pre ++ x :: post) = [y] -> filter q pre = [].
Proof.
  intros Hx. rewrite filter_app. cbn [filter]. rewrite Hx.
  destruct (filter q pre) as [|z l]; [reflexivity|]. cbn [app]. intros H.
  injection H as _ H. destruct l; discriminate H.
Qed.

Lemma filter_save_of n t : filter (is_save_of n) t = filter (is_save_of n) (saves t).
Proof.
  unfold saves. induction t as [|e t IH]; [reflexivity|].
  destruct e; cbn [filter is_torch_save is_save_of]; try exact IH.
  destruct (epoch r =? n); now rewrite IH.
Qed.

Lemma save_of_run_none E a l n b :
  (forall ep, In ep l -> ep + 1 <> n) -> filter (is_save_of n) (run_events E a l b) = [].
Proof.
  intros H. rewrite filter_save_of, saves_run. destruct (Env.is_local_master E); [|reflexivity].
  induction l as [|ep l IH]; [reflexivity|]. cbn [filter].
  assert (Hep : (ep + 1 =? n) = false) by (apply Z.eqb_neq, H; left; reflexivity).
  destruct (is_val_and_also_saving a ep); cbn [map filter is_save_of checkpoint_of epoch];
    rewrite ?Hep; apply IH; intros ep' Hin; apply H; right; exact Hin.
Qed.

Lemma training_not_save_of n e : is_training_event e = true -> is_save_of n e = false.
Proof. destruct e as [| | | |h [s|]| | | | | | | | | |]; cbn; congruence. Qed.

Lemma epoch_events_save E a ep b n :
  is_val_and_also_saving a ep = true -> Env.is_local_master E = true ->
  exists X Y,
    epoch_events E a ep b = X ++ TorchSave (checkpoint_of ep) (local_out_ckpt a) :: Y
    /\ filter (is_save_of n) X = []
    /\ train_calls Y = [] /\ saves Y = [].
Proof.
  intros Hv Hl.
  exists ((if Env.has_set_epoch E then [SetEpoch ep] else [])
          ++ TbSetStep (ep * Env.iters_train E)
          :: epoch_train_events E a ep (start_of E ep) ++ [Evaluate]),
         ((if best_updated (Env.evaluate E ep) (update_train (Env.epoch_stats E ep) b)
           then [ShutilCopy (local_out_ckpt a) (local_out_ckpt_best a)] else [])
          ++ [Barrier] ++ epoch_end_events ep).
  split; [|split; [|split]].
  - unfold epoch_events, validation_events. rewrite Hv, Hl.
    destruct (Env.has_set_epoch E); cbn [app]; rewrite <- !app_assoc; reflexivity.
  - rewrite filter_app. cbn [filter is_save_of]. rewrite filter_app.
    rewrite (filter_training (is_save_of n) (epoch_train_events E a ep (start_of E ep)))
      by (try apply epoch_train_events_training; apply training_not_save_of).
    destruct (Env.has_set_epoch E); reflexivity.
  - destruct (best_updated _ _); reflexivity.
  - destruct (best_updated _ _); reflexivity.
Qed.

Lemma trace_around_save E a ep :
  normal E a -> Env.is_local_master E = true ->
  Env.start_ep E <= ep < Args.ep a -> is_val_and_also_saving a ep = true ->
  exists pre Y b,
    trace_of (main_training E a)
    = pre ++ TorchSave (checkpoint_of ep) (local_out_ckpt a)
          :: Y ++ run_events E a (Py.range (ep + 1) (Args.ep a)) b ++ wrap_up_events
    /\ filter (is_save_of (ep + 1)) pre = []
    /\ filter (is_save_of (ep + 1)) (trace_of (main_training E a))
       = [TorchSave (checkpoint_of ep) (local_out_ckpt a)]
    /\ train_calls Y = [] /\ saves Y = [].
Proof.
  intros Hn Hl Hr Hv. rewrite main_training_normal by exact Hn. cbn [trace_of fst].
  rewrite (range_app (Env.start_ep E) ep (Args.ep a)) by lia.
  rewrite (range_cons ep (Args.ep a)) by lia.
  rewrite run_events_app. cbn [run_events].
  set (b1 := run_trackers E a (Py.range (Env.start_ep E) ep) init_trackers).
  destruct (epoch_events_save E a ep b1 (ep + 1) Hv Hl) as (X & Y & HX & FX & TY & SY).
  rewrite HX.
  assert (F1 : filter (is_save_of (ep + 1))
                      (run_events E a (Py.range (Env.start_ep E) ep) init_trackers) = []).
  { apply save_of_run_none. intros e He. apply range_In in He. lia. }
  assert (F2 : filter (is_save_of (ep + 1))
                      (run_events E a (Py.range (ep + 1) (Args.ep a)) (update_epoch E a ep b1))
               = []).
  { apply save_of_run_none. intros e He. apply range_In in He. lia. }
  assert (FY : filter (is_save_of (ep + 1)) Y = []).
  { rewrite filter_save_of, SY. reflexivity. }
  exists (run_events E a (Py.range (Env.start_ep E) ep) init_trackers ++ X), Y,
         (update_epoch E a ep b1).
  split; [|split; [|split; [|split]]].
  - rewrite <- !app_assoc. cbn [app]. rewrite <- ?app_assoc. reflexivity.
  - rewrite filter_app, F1, FX. reflexivity.
  - rewrite !filter_app, F1, FX, F2. cbn [filter is_save_of checkpoint_of epoch wrap_up_events].
    rewrite Z.eqb_refl, FY. reflexivity.
  - exact TY.
  - exact SY.
Qed.

(** X12: in a run on which nothing raises, take any [torch.save] call and
    the record [r] it writes. The run that starts at the position of the
    record, [(r['epoch'], r['iter'])], makes the [train_step] calls, with
    their arguments, and the [torch.save] calls, with their records, that
    the first run made after that [torch.save] call, and no other: nothing
    is trained twice or skipped, wherever the first run had started. *)
Theorem resumed_from_checkpoint_continues (E : Env.t) (a : Args.t)
        (pre post : list event) (r : CheckpointRecord) (p : string) :
  normal E a -> counts_batches E ->
  trace_of (main_training E a) = pre ++ TorchSave r p :: post ->
  train_calls (trace_of (main_training (with_start E (epoch r) (iter r)) a))
  = train_calls post
  /\ saves (trace_of (main_training (with_start E (epoch r) (iter r)) a)) = saves post.
Proof.
  intros Hn Hc Ht.
  assert (Hin : In (TorchSave r p) (saves (trace_of (main_training E a)))).
  { unfold saves. apply filter_In. split; [|reflexivity]. rewrite Ht.
    apply in_or_app. right. left. reflexivity. }
  assert (Hl : Env.is_local_master E = true).
  { rewrite main_training_normal in Hin by exact Hn. cbn [trace_of fst] in Hin.
    unfold saves in Hin. rewrite filter_app in Hin.
    cbn [filter wrap_up_events is_torch_save] in Hin. rewrite app_nil_r in Hin.
    fold (saves (run_events E a (Py.range (Env.start_ep E) (Args.ep a)) init_trackers)) in Hin.
    rewrite saves_run in Hin. destruct (Env.is_local_master E); [reflexivity|destruct Hin]. }
  assert (Hep : exists ep, Env.start_ep E <= ep < Args.ep a
                           /\ is_val_and_also_saving a ep = true
                           /\ r = checkpoint_of ep /\ p = local_out_ckpt a).
  { rewrite main_training_normal in Hin by exact Hn. cbn [trace_of fst] in Hin.
    unfold saves in Hin. rewrite filter_app in Hin.
    cbn [filter wrap_up_events is_torch_save] in Hin. rewrite app_nil_r in Hin.
    fold (saves (run_events E a (Py.range (Env.start_ep E) (Args.ep a)) init_trackers)) in Hin.
    rewrite saves_run, Hl in Hin. apply in_map_iff in Hin.
    destruct Hin as (ep & Heq & Hin). apply filter_In in Hin. destruct Hin as [Hr Hv].
    apply range_In in Hr. injection Heq as <- <-. exists ep. auto. }
  destruct Hep as (ep & Hr & Hv & -> & ->).
  destruct (trace_around_save E a ep Hn Hl Hr Hv) as (pre' & Y & b & Ht' & Fp' & F1 & TY & SY).
  assert (Fp : filter (is_save_of (ep + 1)) pre = []).
  { apply (filter_single _ pre (TorchSave (checkpoint_of ep) (local_out_ckpt a)) post
                         (TorchSave (checkpoint_of ep) (local_out_ckpt a))).
    - cbn. apply Z.eqb_refl.
    - rewrite <- Ht. exact F1. }
  assert (Hpost : post = Y ++ run_events E a (Py.range (ep + 1) (Args.ep a)) b ++ wrap_up_events).
  { rewrite Ht in Ht'.
    apply (split_unique (is_save_of (ep + 1)) pre pre' _ _ _ _ Ht');
      try assumption; cbn; apply Z.eqb_refl. }
  set (E' := with_start E (epoch (checkpoint_of ep)) (iter (checkpoint_of ep))).
  assert (Hn' : normal E' a) by exact Hn.
  assert (Hc' : counts_batches E') by exact Hc.
  split.
  - rewrite (train_calls_main E' a Hn' Hc') by (cbn; lia).
    subst post. unfold train_calls. rewrite !filter_app.
    fold (train_calls Y). rewrite TY.
    fold (train_calls (run_events E a (Py.range (ep + 1) (Args.ep a)) b)).
    rewrite train_calls_run.
    + cbn [app filter wrap_up_events is_train_step]. rewrite app_nil_r.
      cbn [E' with_start Env.start_ep checkpoint_of epoch].
      apply flat_map_ext_in. intros e He. apply range_In in He.
      unfold start_of, E', train_call.
      cbn [with_start Env.start_ep Env.start_it Env.iters_train checkpoint_of epoch iter].
      replace (e =? Env.start_ep E) with false by (symmetry; apply Z.eqb_neq; lia).
      destruct (e =? ep + 1); reflexivity.
    + exact Hc.
    + intros e He. apply range_In in He. unfold start_of.
      replace (e =? Env.start_ep E) with false by (symmetry; apply Z.eqb_neq; lia). lia.
  - rewrite (main_training_normal E' a Hn'). cbn [trace_of fst].
    subst post. unfold saves. rewrite !filter_app.
    fold (saves Y). rewrite SY.
    fold (saves (run_events E a (Py.range (ep + 1) (Args.ep a)) b)).
    fold (saves (run_events E' a (Py.range (Env.start_ep E') (Args.ep a)) init_trackers)).
    rewrite !saves_run. reflexivity.
Qed.

(** In the forty-epoch run the second [torch.save] is call number 741, after
    epoch 19; its record holds epoch 20 and iteration 0. The run started at
    (20, 0) makes the 60 [train_step] calls that follow it. *)
Lemma resumed_from_checkpoint_continues_rank0 :
  let t := trace_of (main_training rank0 args_40) in
  nth_error t 741 = Some (TorchSave (checkpoint_of 19) (local_out_ckpt args_40))
  /\ train_calls (trace_of (main_training (with_start rank0 20 0) args_40))
     = train_calls (skipn 742 t)
  /\ saves (trace_of (main_training (with_start rank0 20 0) args_40)) = saves (skipn 742 t)
  /\ List.length (train_calls (skipn 742 t)) = 60%nat.
Proof.
  intros t.
  assert (Ht : t = firstn 741 t ++ TorchSave (checkpoint_of 19) (local_out_ckpt args_40)
                     :: skipn 742 t) by (vm_compute; reflexivity).
  pose proof (resumed_from_checkpoint_continues rank0 args_40 (firstn 741 t) (skipn 742 t)
                (checkpoint_of 19) (local_out_ckpt args_40)
                normal_rank0 counts_batches_rank0 Ht) as [H1 H2].
  split; [vm_compute; reflexivity|]. split; [exact H1|]. split; [exact H2|].
  vm_compute. reflexivity.
Defined.
